(** * Skill-Swap-Platform: swap-request lifecycle and notification dispatcher

    A shallow embedding of
      - [skill-swap-backend/routes/swaps.js]          (the five lifecycle routes
                                                        and the two reading ones),
      - [skill-swap-backend/services/NotificationService.js],
      - [skill-swap-backend/routes/notifications.js]  (its six routes and their
                                                        router),
      - [skill-swap-backend/utils/paginate.js],
    over an explicit model of the Prisma store and of the socket.io server.

    Conventions.
      - Every table is a finite map from the record id to the row; the id of a
        created row is a key the table does not hold yet.
      - An [async] function is a [Task]: a sequence of atomic actions on the
        [World] (one per awaited store call or synchronous effect).  [run]
        executes a task to completion; [interleave] executes two of them under
        a schedule, switching at the boundaries of those actions.
      - A JavaScript exception is a [Throw] result; [try_catch] is the
        try/catch block.
      - Strings are sequences of 8-bit character codes. *)

From stdpp Require Import base gmap strings list fin_maps pretty sorting.

Set Default Proof Using "Type".

(** ** Data model *)

Definition Time := nat.

Inductive SwapStatus := PENDING | ACCEPTED | REJECTED | COMPLETED | CANCELLED.

#[global] Instance SwapStatus_eq_dec : EqDecision SwapStatus.
Proof. solve_decision. Defined.

Definition status_string (s : SwapStatus) : string :=
  match s with
  | PENDING => "PENDING"
  | ACCEPTED => "ACCEPTED"
  | REJECTED => "REJECTED"
  | COMPLETED => "COMPLETED"
  | CANCELLED => "CANCELLED"
  end.

(** The [type] strings that NotificationService passes to createNotification. *)
Inductive NotificationType :=
  | SWAP_REQUEST_RECEIVED
  | SWAP_REQUEST_ACCEPTED
  | SWAP_REQUEST_REJECTED
  | SWAP_COMPLETED
  | FEEDBACK_RECEIVED
  | SKILL_REJECTED
  | SYSTEM_ALERT
  | PLATFORM_MESSAGE.

#[global] Instance NotificationType_eq_dec : EqDecision NotificationType.
Proof. solve_decision. Defined.

(** Rows of the [user] table, restricted to the columns the routes select. *)
Record User := mkUser {
  name : string;
  isActive : bool;
  isPublic : bool
}.

Record SwapRequest := mkSwapRequest {
  senderId : string;
  receiverId : string;
  skillOffered : string;
  skillRequested : string;
  message : option string;
  status : SwapStatus;
  createdAt : Time;
  updatedAt : Time;
  completedAt : option Time
}.

(** The structured payload of a notification: the object literal handed to
    createNotification, as its key/value pairs (the store keeps its JSON
    text, the published event the object itself). *)
Definition Payload := list (string * string).

Record Notification := mkNotification {
  userId : string;
  type : NotificationType;
  title : string;
  n_message : string;
  data : option Payload;
  isRead : bool;
  readAt : option Time;
  n_createdAt : Time
}.

(** What [io.to(room).emit(name, payload)] publishes. *)
Inductive Event :=
  | notification (id : string) (ty : NotificationType) (ttl msg : string)
                 (dat : option Payload) (created : Time) (read : bool)
  | notificationCount (count : nat).

(** The socket.io server seen from the handlers: [emit_fails room e] tells
    whether publishing [e] to [room] raises. *)
Record Io := mkIo { emit_fails : string → Event → bool }.

Record World := mkWorld {
  users : gmap string User;
  swapRequests : gmap string SwapRequest;
  notifications : gmap string Notification;
  outbox : list (string * Event);
  console : list string;
  now : Time
}.

Definition set_swapRequests (m : gmap string SwapRequest) (w : World) : World :=
  mkWorld (users w) m (notifications w) (outbox w) (console w) (now w).

Definition set_notifications (m : gmap string Notification) (w : World) : World :=
  mkWorld (users w) (swapRequests w) m (outbox w) (console w) (now w).

Definition set_outbox (o : list (string * Event)) (w : World) : World :=
  mkWorld (users w) (swapRequests w) (notifications w) o (console w) (now w).

Definition set_console (c : list string) (w : World) : World :=
  mkWorld (users w) (swapRequests w) (notifications w) (outbox w) c (now w).

(** ** Exceptions and asynchronous tasks *)

Inductive Error :=
  | PrismaError (code : string)
  | EmitError.

Inductive Result (A : Type) :=
  | Ok (a : A)
  | Throw (e : Error).
Arguments Ok {A} a.
Arguments Throw {A} e.

(** A task is either finished or has one atomic action on the world left to
    do before the rest of it resumes with the action's result. *)
Inductive Task (A : Type) : Type :=
  | Done (a : A)
  | Step {X : Type} (op : World → World * X) (k : X → Task A).
Arguments Done {A} a.
Arguments Step {A X} op k.

Definition Async (A : Type) := Task (Result A).

Definition ret {A} (a : A) : Async A := Done (Ok a).
Definition throw {A} (e : Error) : Async A := Done (Throw e).

(** [await (op)]: one store call (or one synchronous effect). *)
Definition await {A} (op : World → World * Result A) : Async A :=
  Step op Done.

Fixpoint bind {A B} (t : Async A) (k : A → Async B) : Async B :=
  match t with
  | Done (Ok a) => k a
  | Done (Throw e) => Done (Throw e)
  | Step op k' => Step op (λ x, bind (k' x) k)
  end.

Fixpoint try_catch {A} (t : Async A) (h : Error → Async A) : Async A :=
  match t with
  | Done (Ok a) => Done (Ok a)
  | Done (Throw e) => h e
  | Step op k' => Step op (λ x, try_catch (k' x) h)
  end.

Notation "'let*' x ':=' t 'in' k" := (bind t (λ x, k))
  (at level 10, x name, t at level 100, k at level 200, only parsing).
Notation "'let*' ' p ':=' t 'in' k" := (bind t (λ x, let p := x in k))
  (at level 10, p pattern, t at level 100, k at level 200, only parsing).
Notation "t ';;' k" := (bind t (λ _, k))
  (at level 100, k at level 200, right associativity, only parsing).

(** Running a task to completion, with nothing else touching the world. *)
Fixpoint run {A} (t : Task A) (w : World) : World * A :=
  match t with
  | Done a => (w, a)
  | Step op k => let '(w', x) := op w in run (k x) w'
  end.

(** Running two tasks concurrently.  The schedule names, action by action,
    which of the two moves ([true]: the first); a finished task ignores its
    turn, and when the schedule is used up the first task runs to completion
    and then the second. *)
Fixpoint interleave {A B} (sched : list bool) (a : Task A) (b : Task B)
    (w : World) : World * (A * B) :=
  match sched with
  | [] =>
      let '(w1, ra) := run a w in
      let '(w2, rb) := run b w1 in
      (w2, (ra, rb))
  | true :: sched' =>
      match a with
      | Done _ => interleave sched' a b w
      | Step op k => let '(w', x) := op w in interleave sched' (k x) b w'
      end
  | false :: sched' =>
      match b with
      | Done _ => interleave sched' a b w
      | Step op k => let '(w', x) := op w in interleave sched' a (k x) w'
      end
  end.


(** ** The store (Prisma client)

    Each function is one call on the client: an atomic read or write of the
    world.  The store is taken to be available; the one store error that the
    routes distinguish, the missing record of [update] (code P2025), is
    modelled. *)

Definition P2025 : Error := PrismaError "P2025".

(** [prisma.user.findUnique({ where: { id } })] *)
Definition user_findUnique (id : string) (w : World)
    : World * Result (option User) :=
  (w, Ok (users w !! id)).

(** A swap row together with the relations the routes [include].  The name
    of a related user is read from the [user] table; the schema's foreign
    keys keep the related row present, and the empty name stands for it
    where a hand-built world leaves it out. *)
Record SwapRow := mkSwapRow {
  row_id : string;
  row : SwapRequest;
  sender_name : string;
  receiver_name : string
}.

Definition user_name (w : World) (id : string) : string :=
  from_option name "" (users w !! id).

Definition with_relations (w : World) (id : string) (s : SwapRequest) : SwapRow :=
  mkSwapRow id s (user_name w (senderId s)) (user_name w (receiverId s)).

(** [prisma.swapRequest.findUnique({ where: { id }, include })] *)
Definition swapRequest_findUnique (id : string) (w : World)
    : World * Result (option SwapRow) :=
  (w, Ok (with_relations w id <$> swapRequests w !! id)).

(** [prisma.swapRequest.findFirst({ where })]: some row that satisfies the
    filter, if there is one. *)
Definition swapRequest_findFirst (P : SwapRequest → Prop)
    `{!∀ s, Decision (P s)} (w : World) : World * Result (option SwapRequest) :=
  (w, Ok (snd <$> head (map_to_list (filter (λ kv, P kv.2) (swapRequests w))))).

(** [prisma.swapRequest.create({ data, include })] *)
Definition swapRequest_create (s : SwapRequest) (w : World)
    : World * Result SwapRow :=
  let id := fresh (dom (swapRequests w)) in
  (set_swapRequests (<[id := s]> (swapRequests w)) w, Ok (with_relations w id s)).

(** [new Date()], read off the world's clock by the action that uses it. *)
Definition at_now {A B} (op : A → World → World * B) (f : Time → A)
    (w : World) : World * B :=
  op (f (now w)) w.

(** [prisma.swapRequest.update({ where: { id }, data })] *)
Definition swapRequest_update (id : string) (f : SwapRequest → SwapRequest)
    (w : World) : World * Result SwapRow :=
  match swapRequests w !! id with
  | Some s =>
      (set_swapRequests (<[id := f s]> (swapRequests w)) w,
       Ok (with_relations w id (f s)))
  | None => (w, Throw P2025)
  end.

(** [prisma.notification.create({ data })] *)
Definition notification_create (n : Notification) (w : World)
    : World * Result (string * Notification) :=
  let id := fresh (dom (notifications w)) in
  (set_notifications (<[id := n]> (notifications w)) w, Ok (id, n)).

(** The filter [{ userId, isRead: false }]. *)
Definition unread_of (u : string) (n : Notification) : Prop :=
  userId n = u ∧ isRead n = false.

#[global] Instance unread_of_dec u n : Decision (unread_of u n).
Proof. unfold unread_of. apply _. Defined.

Definition unread_count (u : string) (m : gmap string Notification) : nat :=
  size (filter (λ kv, unread_of u kv.2) m).

(** [prisma.notification.count({ where: { userId, isRead: false } })] *)
Definition notification_count_unread (u : string) (w : World)
    : World * Result nat :=
  (w, Ok (unread_count u (notifications w))).

(** [prisma.notification.update({ where: { id, userId }, data })] *)
Definition notification_update (id u : string) (f : Notification → Notification)
    (w : World) : World * Result (string * Notification) :=
  match notifications w !! id with
  | Some n =>
      if decide (userId n = u)
      then (set_notifications (<[id := f n]> (notifications w)) w, Ok (id, f n))
      else (w, Throw P2025)
  | None => (w, Throw P2025)
  end.

(** [prisma.notification.updateMany({ where: { userId, isRead: false }, data })] *)
Definition notification_updateMany_unread (u : string)
    (f : Notification → Notification) (w : World) : World * Result unit :=
  (set_notifications
     ((λ n, if decide (unread_of u n) then f n else n) <$> notifications w) w,
   Ok ()).

(** [console.error(line, error)] *)
Definition console_error (line : string) : Async unit :=
  await (λ w, (set_console (console w ++ [line]) w, Ok ())).

(** [io.to(room).emit(name, payload)] *)
Definition emit (io : Io) (room : string) (e : Event) : Async unit :=
  await (λ w, if emit_fails io room e
              then (w, Throw EmitError)
              else (set_outbox (outbox w ++ [(room, e)]) w, Ok ())).

(** The room [`user_${userId}`]. *)
Definition user_room (u : string) : string := "user_" +:+ u.

(** ** Requests, responses and the validation chains *)

Record SwapBody := mkSwapBody {
  b_receiverId : string;
  b_skillOffered : string;
  b_skillRequested : string;
  b_message : option string
}.

(** The request as a handler sees it: [req.user.id], [req.io],
    [req.params.id], [req.body] and what [validationResult(req)] holds. *)
Record Request (B : Type) := mkRequest {
  req_user : string;
  req_io : option Io;
  req_id : string;
  req_body : B;
  req_errors : list string
}.
Arguments mkRequest {B}.
Arguments req_user {B}.
Arguments req_io {B}.
Arguments req_id {B}.
Arguments req_body {B}.
Arguments req_errors {B}.

Record ApiError := mkApiError { statusCode : N; error_message : string }.

Inductive Json :=
  | json_swap (r : SwapRow)
  | json_notification (id : string) (n : Notification)
  | json_none.

(** [res.status(code).json({ message, ... })] or [next(new ApiError(..))]. *)
Inductive Response :=
  | res_json (code : N) (msg : string) (payload : Json)
  | next_error (e : ApiError).

Definition next (code : N) (msg : string) : Async Response :=
  ret (next_error (mkApiError code msg)).

(** White space as [trim] sees it, among the 8-bit codes: tab, line feed,
    vertical tab, form feed, carriage return, space, no-break space. *)
Definition is_space (c : Ascii.ascii) : bool :=
  let n := Ascii.nat_of_ascii c in
  (Nat.leb 9 n && Nat.leb n 13) || Nat.eqb n 32 || Nat.eqb n 160.

Fixpoint ltrim (s : string) : string :=
  match s with
  | EmptyString => EmptyString
  | String c s' => if is_space c then ltrim s' else s
  end.

Fixpoint rtrim (s : string) : string :=
  match s with
  | EmptyString => EmptyString
  | String c s' =>
      match rtrim s' with
      | EmptyString => if is_space c then EmptyString else String c EmptyString
      | r => String c r
      end
  end.

(** [String.prototype.trim], and the [trim()] sanitizer of a validation chain. *)
Definition trim (s : string) : string := rtrim (ltrim s).

(** [createSwapValidation], run by the router before the handler.  A
    sanitizer of a chain writes its result back to the request field; the
    validators that follow it see the sanitized value, and so does the
    handler.  [optional()] skips the chain of an absent field. *)
Definition createSwapValidation (req : Request SwapBody) : Request SwapBody :=
  let b := req_body req in
  let offered := trim (b_skillOffered b) in
  let requested := trim (b_skillRequested b) in
  let msg := trim <$> b_message b in
  let errors :=
    (if decide (b_receiverId b = "") then ["Receiver ID is required"] else []) ++
    (if decide (offered = "") then ["Skill offered is required"] else []) ++
    (if decide (requested = "") then ["Skill requested is required"] else []) ++
    (match msg with
     | Some m => if decide (500 < String.length m)
                 then ["Message must be less than 500 characters"] else []
     | None => []
     end) in
  mkRequest (req_user req) (req_io req) (req_id req)
    (mkSwapBody (b_receiverId b) offered requested msg)
    (req_errors req ++ errors).

(** ** NotificationService

    [io] is [this.io]. *)

Definition getUnreadCount (u : string) : Async nat :=
  await (notification_count_unread u).

Definition createNotification (io : option Io) (u : string)
    (ty : NotificationType) (ttl msg : string) (dat : option Payload)
    (realtime : bool) : Async (string * Notification) :=
  try_catch
    (let* '(id, n) :=
       await (at_now notification_create
                (λ t, mkNotification u ty ttl msg dat false None t)) in
     (match io with
      | Some io' =>
          if realtime then
            emit io' (user_room u)
              (notification id (type n) (title n) (n_message n) dat
                 (n_createdAt n) false) ;;
            let* unreadCount := getUnreadCount u in
            emit io' (user_room u) (notificationCount unreadCount)
          else ret ()
      | None => ret ()
      end) ;;
     ret (id, n))
    (λ error,
       console_error "Error creating notification:" ;;
       throw error).

(** The [data] of the two updates: [{ isRead: true, readAt: new Date() }]. *)
Definition set_read (t : Time) (n : Notification) : Notification :=
  mkNotification (userId n) (type n) (title n) (n_message n) (data n)
    true (Some t) (n_createdAt n).

Definition markAsRead (io : option Io) (notificationId u : string)
    : Async (string * Notification) :=
  let* n :=
    await (at_now (notification_update notificationId u) set_read) in
  (match io with
   | Some io' =>
       let* unreadCount := getUnreadCount u in
       emit io' (user_room u) (notificationCount unreadCount)
   | None => ret ()
   end) ;;
  ret n.

Definition markAllAsRead (io : option Io) (u : string) : Async unit :=
  await (at_now (notification_updateMany_unread u) set_read) ;;
  match io with
  | Some io' => emit io' (user_room u) (notificationCount 0)
  | None => ret ()
  end.

Definition notifySwapRequestReceived (io : option Io)
    (receiver senderName offered requested swapId : string) : Async unit :=
  createNotification io receiver SWAP_REQUEST_RECEIVED "New Swap Request"
    (senderName +:+ " wants to swap " +:+ requested +:+ " for your " +:+ offered)
    (Some [("swapId", swapId); ("senderName", senderName);
           ("skillOffered", offered); ("skillRequested", requested)])
    true ;;
  ret ().

Definition notifySwapRequestAccepted (io : option Io)
    (sender receiverName offered requested swapId : string) : Async unit :=
  createNotification io sender SWAP_REQUEST_ACCEPTED "Swap Request Accepted! 🎉"
    (receiverName +:+ " accepted your request to swap " +:+ offered +:+
       " for " +:+ requested)
    (Some [("swapId", swapId); ("receiverName", receiverName);
           ("skillOffered", offered); ("skillRequested", requested)])
    true ;;
  ret ().

Definition notifySwapRequestRejected (io : option Io)
    (sender receiverName offered requested swapId : string) : Async unit :=
  createNotification io sender SWAP_REQUEST_REJECTED "Swap Request Declined"
    (receiverName +:+ " declined your request to swap " +:+ offered +:+
       " for " +:+ requested)
    (Some [("swapId", swapId); ("receiverName", receiverName);
           ("skillOffered", offered); ("skillRequested", requested)])
    true ;;
  ret ().

Definition notifySwapCompleted (io : option Io)
    (u otherUserName offered requested swapId : string) : Async unit :=
  createNotification io u SWAP_COMPLETED "Swap Completed! ✨"
    ("Your skill swap with " +:+ otherUserName +:+
       " has been completed. Don't forget to leave feedback!")
    (Some [("swapId", swapId); ("otherUserName", otherUserName);
           ("skillOffered", offered); ("skillRequested", requested)])
    true ;;
  ret ().

(** ** routes/swaps.js *)

(** The [where] of the duplicate check of POST /api/swaps. *)
Definition similar_pending (sender receiver offered requested : string)
    (s : SwapRequest) : Prop :=
  (senderId s = sender ∧ receiverId s = receiver ∧
   skillOffered s = offered ∧ skillRequested s = requested ∧
   status s = PENDING) ∨
  (senderId s = receiver ∧ receiverId s = sender ∧
   skillOffered s = requested ∧ skillRequested s = offered ∧
   status s = PENDING).

#[global] Instance similar_pending_dec a b c d s :
  Decision (similar_pending a b c d s).
Proof. unfold similar_pending. apply _. Defined.

(** [message?.trim() || null] *)
Definition trim_or_null (m : option string) : option string :=
  match m with
  | Some m' => if decide (trim m' = "") then None else Some (trim m')
  | None => None
  end.

(** The handler of POST /api/swaps, on the request the validation chain
    leaves behind. *)
Definition post_swaps_handler (req : Request SwapBody) : Async Response :=
  try_catch
    (if negb (bool_decide (req_errors req = []))
     then next 400 "Validation failed"
     else
       let receiver_id := b_receiverId (req_body req) in
       let offered := b_skillOffered (req_body req) in
       let requested := b_skillRequested (req_body req) in
       let msg := b_message (req_body req) in
       let sender_id := req_user req in
       if decide (sender_id = receiver_id)
       then next 400 "You cannot send a swap request to yourself"
       else
         let* receiver := await (user_findUnique receiver_id) in
         match receiver with
         | None => next 404 "Receiver not found"
         | Some receiver =>
             if negb (isActive receiver)
             then next 400 "Cannot send request to inactive user"
             else if negb (isPublic receiver)
             then next 400 "Cannot send request to private profile"
             else
               let* existingRequest :=
                 await (swapRequest_findFirst
                          (similar_pending sender_id receiver_id offered requested)) in
               match existingRequest with
               | Some _ =>
                   next 400 "A similar swap request already exists between you and this user"
               | None =>
                   let* swap :=
                     await (at_now swapRequest_create
                              (λ t, mkSwapRequest sender_id receiver_id
                                      (trim offered) (trim requested)
                                      (trim_or_null msg) PENDING t t None)) in
                   (match req_io req with
                    | Some io =>
                        notifySwapRequestReceived (Some io) receiver_id
                          (sender_name swap) offered requested (row_id swap)
                    | None => ret ()
                    end) ;;
                   ret (res_json 201 "Swap request created successfully"
                          (json_swap swap))
               end
         end)
    (λ error,
       console_error "Create swap error:" ;;
       next 500 "Failed to create swap request").

(** POST /api/swaps: [router.post('/', createSwapValidation, handler)]. *)
Definition post_swaps (req : Request SwapBody) : Async Response :=
  post_swaps_handler (createSwapValidation req).

(** The [data] of the four status updates. *)
Definition set_status (st : SwapStatus) (t : Time) (s : SwapRequest)
    : SwapRequest :=
  mkSwapRequest (senderId s) (receiverId s) (skillOffered s) (skillRequested s)
    (message s) st (createdAt s) t (completedAt s).

Definition set_completed (t : Time) (s : SwapRequest) : SwapRequest :=
  mkSwapRequest (senderId s) (receiverId s) (skillOffered s) (skillRequested s)
    (message s) COMPLETED (createdAt s) t (Some t).

(** PUT /api/swaps/:id/accept *)
Definition put_accept (req : Request unit) : Async Response :=
  try_catch
    (let swapId := req_id req in
     let user := req_user req in
     let* swapRequest := await (swapRequest_findUnique swapId) in
     match swapRequest with
     | None => next 404 "Swap request not found"
     | Some swapRequest =>
         if negb (bool_decide (receiverId (row swapRequest) = user))
         then next 403 "You can only accept requests sent to you"
         else if negb (bool_decide (status (row swapRequest) = PENDING))
         then next 400 ("Cannot accept request with status: " +:+
                          status_string (status (row swapRequest)))
         else
           let* updatedSwap :=
             await (at_now (swapRequest_update swapId) (set_status ACCEPTED)) in
           (match req_io req with
            | Some io =>
                notifySwapRequestAccepted (Some io)
                  (senderId (row swapRequest)) (receiver_name swapRequest)
                  (skillOffered (row updatedSwap))
                  (skillRequested (row updatedSwap)) (row_id updatedSwap)
            | None => ret ()
            end) ;;
           ret (res_json 200 "Swap request accepted successfully"
                  (json_swap updatedSwap))
     end)
    (λ error,
       console_error "Accept swap error:" ;;
       next 500 "Failed to accept swap request").

(** PUT /api/swaps/:id/reject *)
Definition put_reject (req : Request unit) : Async Response :=
  try_catch
    (let swapId := req_id req in
     let user := req_user req in
     let* swapRequest := await (swapRequest_findUnique swapId) in
     match swapRequest with
     | None => next 404 "Swap request not found"
     | Some swapRequest =>
         if negb (bool_decide (receiverId (row swapRequest) = user))
         then next 403 "You can only reject requests sent to you"
         else if negb (bool_decide (status (row swapRequest) = PENDING))
         then next 400 ("Cannot reject request with status: " +:+
                          status_string (status (row swapRequest)))
         else
           let* updatedSwap :=
             await (at_now (swapRequest_update swapId) (set_status REJECTED)) in
           (match req_io req with
            | Some io =>
                notifySwapRequestRejected (Some io)
                  (senderId (row swapRequest)) (receiver_name swapRequest)
                  (skillOffered (row updatedSwap))
                  (skillRequested (row updatedSwap)) (row_id updatedSwap)
            | None => ret ()
            end) ;;
           ret (res_json 200 "Swap request rejected" (json_swap updatedSwap))
     end)
    (λ error,
       console_error "Reject swap error:" ;;
       next 500 "Failed to reject swap request").

(** PUT /api/swaps/:id/cancel *)
Definition put_cancel (req : Request unit) : Async Response :=
  try_catch
    (let swapId := req_id req in
     let user := req_user req in
     let* swapRequest := await (swapRequest_findUnique swapId) in
     match swapRequest with
     | None => next 404 "Swap request not found"
     | Some swapRequest =>
         if negb (bool_decide (senderId (row swapRequest) = user))
         then next 403 "You can only cancel requests you sent"
         else if negb (bool_decide (status (row swapRequest) = PENDING))
         then next 400 ("Cannot cancel request with status: " +:+
                          status_string (status (row swapRequest)))
         else
           let* updatedSwap :=
             await (at_now (swapRequest_update swapId) (set_status CANCELLED)) in
           ret (res_json 200 "Swap request cancelled" (json_swap updatedSwap))
     end)
    (λ error,
       console_error "Cancel swap error:" ;;
       next 500 "Failed to cancel swap request").

(** PUT /api/swaps/:id/complete *)
Definition put_complete (req : Request unit) : Async Response :=
  try_catch
    (let swapId := req_id req in
     let user := req_user req in
     let* swapRequest := await (swapRequest_findUnique swapId) in
     match swapRequest with
     | None => next 404 "Swap request not found"
     | Some swapRequest =>
         if negb (bool_decide (senderId (row swapRequest) = user)) &&
            negb (bool_decide (receiverId (row swapRequest) = user))
         then next 403 "You can only complete swaps you are part of"
         else if negb (bool_decide (status (row swapRequest) = ACCEPTED))
         then next 400 "Can only complete accepted swap requests"
         else
           let* updatedSwap :=
             await (at_now (swapRequest_update swapId) set_completed) in
           (match req_io req with
            | Some io =>
                notifySwapCompleted (Some io)
                  (senderId (row swapRequest)) (receiver_name swapRequest)
                  (skillOffered (row updatedSwap))
                  (skillRequested (row updatedSwap)) (row_id updatedSwap) ;;
                notifySwapCompleted (Some io)
                  (receiverId (row swapRequest)) (sender_name swapRequest)
                  (skillRequested (row updatedSwap))
                  (skillOffered (row updatedSwap)) (row_id updatedSwap)
            | None => ret ()
            end) ;;
           ret (res_json 200 "Swap marked as completed" (json_swap updatedSwap))
     end)
    (λ error,
       console_error "Complete swap error:" ;;
       next 500 "Failed to complete swap request").

(** ** routes/notifications.js *)

Definition error_code (e : Error) : option string :=
  match e with
  | PrismaError c => Some c
  | EmitError => None
  end.

Section NotificationRoutes.

(** The [isUUID()] validator of express-validator. *)
Variable isUUID : string → bool.

(** [param('id').isUUID().withMessage('Invalid notification ID')] *)
Definition readValidation (req : Request unit) : Request unit :=
  mkRequest (req_user req) (req_io req) (req_id req) (req_body req)
    (req_errors req ++
     (if isUUID (req_id req) then [] else ["Invalid notification ID"])).

Definition put_read_handler (req : Request unit) : Async Response :=
  try_catch
    (if negb (bool_decide (req_errors req = []))
     then next 400 "Validation failed"
     else
       let* '(id, n) := markAsRead (req_io req) (req_id req) (req_user req) in
       ret (res_json 200 "Notification marked as read" (json_notification id n)))
    (λ error,
       console_error "Mark notification as read error:" ;;
       if decide (error_code error = Some "P2025")
       then next 404 "Notification not found"
       else next 500 "Failed to mark notification as read").

(** PUT /api/notifications/:id/read *)
Definition put_read (req : Request unit) : Async Response :=
  put_read_handler (readValidation req).

End NotificationRoutes.

(** PUT /api/notifications/mark-all-read *)
Definition put_mark_all_read (req : Request unit) : Async Response :=
  try_catch
    (markAllAsRead (req_io req) (req_user req) ;;
     ret (res_json 200 "All notifications marked as read" json_none))
    (λ error,
       console_error "Mark all notifications as read error:" ;;
       next 500 "Failed to mark all notifications as read").

(** ** The five lifecycle operations *)

(** A call of one of the five operations of the lifecycle, with the caller's
    identity as the API boundary resolved it, and [req.io]. *)
Inductive Op :=
  | submit (io : option Io) (sender : string) (body : SwapBody)
  | accept (io : option Io) (swapId caller : string)
  | reject (io : option Io) (swapId caller : string)
  | cancel (io : option Io) (swapId caller : string)
  | complete (io : option Io) (swapId caller : string).

Definition id_request (io : option Io) (id caller : string) : Request unit :=
  mkRequest caller io id () [].

Definition body_request (io : option Io) (caller : string) (b : SwapBody)
    : Request SwapBody :=
  mkRequest caller io "" b [].

Definition exec (op : Op) : Async Response :=
  match op with
  | submit io sender body => post_swaps (body_request io sender body)
  | accept io id caller => put_accept (id_request io id caller)
  | reject io id caller => put_reject (id_request io id caller)
  | cancel io id caller => put_cancel (id_request io id caller)
  | complete io id caller => put_complete (id_request io id caller)
  end.

(** The outcome of a call in the words of the error taxonomy: the HTTP status
    of the answer, where 400 is [InvalidArgument] for submit and
    [InvalidState] for the four transitions. *)
Inductive Outcome :=
  | Success
  | InvalidArgument
  | NotFound
  | Forbidden
  | InvalidState
  | Unavailable.

Definition outcome (op : Op) (r : Result Response) : Outcome :=
  match r with
  | Ok (res_json _ _ _) => Success
  | Ok (next_error e) =>
      if decide (statusCode e = 400%N) then
        match op with submit _ _ _ => InvalidArgument | _ => InvalidState end
      else if decide (statusCode e = 404%N) then NotFound
      else if decide (statusCode e = 403%N) then Forbidden
      else Unavailable
  | Throw _ => Unavailable
  end.

(** The edges of the state machine. *)
Inductive edge : SwapStatus → SwapStatus → Prop :=
  | edge_accept : edge PENDING ACCEPTED
  | edge_reject : edge PENDING REJECTED
  | edge_cancel : edge PENDING CANCELLED
  | edge_complete : edge ACCEPTED COMPLETED.

(** Running a sequence of calls, one after the other. *)
Fixpoint run_ops (ops : list Op) (w : World) : World :=
  match ops with
  | [] => w
  | op :: ops' => run_ops ops' (run (exec op) w).1
  end.

(** * Vocabulary of the statements, and examples *)

(** The templates and createNotification are unfolded by their lemmas only. *)
Arguments createNotification : simpl never.
Arguments notifySwapRequestReceived : simpl never.
Arguments notifySwapRequestAccepted : simpl never.
Arguments notifySwapRequestRejected : simpl never.
Arguments notifySwapCompleted : simpl never.

(** The row createNotification inserts, and the two events it publishes. *)
Definition new_notification (u : string) (ty : NotificationType)
    (ttl msg : string) (dat : option Payload) (w : World) : Notification :=
  mkNotification u ty ttl msg dat false None (now w).

Definition notified (u : string) (ty : NotificationType) (ttl msg : string)
    (dat : option Payload) (w : World) : World :=
  set_notifications
    (<[fresh (dom (notifications w)) := new_notification u ty ttl msg dat w]>
       (notifications w)) w.

Definition notification_event (ty : NotificationType)
    (ttl msg : string) (dat : option Payload) (w : World) : Event :=
  notification (fresh (dom (notifications w))) ty ttl msg dat (now w) false.

Definition count_event (u : string) (w : World) : Event :=
  notificationCount (unread_count u (notifications w)).

(** An [io] on which every publish goes through. *)
Definition reliable (io : option Io) : Prop :=
  ∀ io' room e, io = Some io' → emit_fails io' room e = false.

(** [sends t io u ty]: the task [t] is one createNotification for user [u]
    with type [ty], whose result is dropped. *)
Definition sends (t : Async unit) (io : option Io) (u : string)
    (ty : NotificationType) : Prop :=
  ∃ ttl msg dat, ∀ w,
    run t w =
    match run (createNotification io u ty ttl msg dat true) w with
    | (w', Ok _) => (w', Ok ())
    | (w', Throw e) => (w', Throw e)
    end.

(** The row a template leaves in the store. *)
Definition fresh_unread (u : string) (ty : NotificationType) (w : World)
    (n : Notification) : Prop :=
  userId n = u ∧ type n = ty ∧ isRead n = false ∧ readAt n = None ∧
  n_createdAt n = now w.

(** The end of a handler's try block: the notifications [t], then the
    answer [ok]; the catch block logs [line] and answers [err]. *)
Definition answer_after (t : Async unit) (line : string) (ok err : Response)
    (w : World) : World * Result Response :=
  match run t w with
  | (w', Ok _) => (w', Ok ok)
  | (w', Throw _) => (set_console (console w' ++ [line]) w', Ok err)
  end.

Definition failed (code : N) (msg : string) (w : World)
    : World * Result Response :=
  (w, Ok (next_error (mkApiError code msg))).

Definition guard_failure (o : Outcome) : Prop :=
  o = InvalidArgument ∨ o = NotFound ∨ o = Forbidden ∨ o = InvalidState.

(** A task that touches neither the users, nor the swap rows, nor the clock. *)
Definition notification_task (t : Async unit) : Prop :=
  ∀ w, let w' := (run t w).1 in
       users w' = users w ∧ swapRequests w' = swapRequests w ∧ now w' = now w.

(** One call changes the swap table in one of three ways. *)
Inductive table_step (m m' : gmap string SwapRequest) : Prop :=
  | table_same : m' = m → table_step m m'
  | table_move id s s' :
      m !! id = Some s → edge (status s) (status s') →
      m' = <[id := s']> m → table_step m m'
  | table_new id s :
      m !! id = None → status s = PENDING →
      m' = <[id := s]> m → table_step m m'.

Definition example_users : gmap string User :=
  {[ "alice" := mkUser "Alice" true true; "bob" := mkUser "Bob" true true;
     "carol" := mkUser "Carol" true false; "dave" := mkUser "Dave" false true ]}.

(** Alice offers Guitar to Bob for Excel. *)
Definition guitar_for_excel (st : SwapStatus) : SwapRequest :=
  mkSwapRequest "alice" "bob" "Guitar" "Excel" None st 0 0 None.

Definition example_world (st : SwapStatus) : World :=
  mkWorld example_users {[ "s1" := guitar_for_excel st ]} ∅ [] [] 7.

(** A server on which every publish goes through, and one on which every
    publish raises. *)
Definition io_up : Io := mkIo (λ _ _, false).
Definition io_down : Io := mkIo (λ _ _, true).

(** Exactly one of the two calls succeeds, the other is InvalidState. *)
Definition exactly_one_succeeds (a b : Op) (r : Result Response * Result Response)
    : Prop :=
  (outcome a r.1 = Success ∧ outcome b r.2 = InvalidState) ∨
  (outcome a r.1 = InvalidState ∧ outcome b r.2 = Success).

(** A body that passes [createSwapValidation]. *)
Definition valid_body (b : SwapBody) : Prop :=
  b_receiverId b ≠ "" ∧ trim (b_skillOffered b) ≠ "" ∧
  trim (b_skillRequested b) ≠ "" ∧
  match b_message b with
  | Some m => String.length (trim m) ≤ 500
  | None => True
  end.

#[global] Instance valid_body_dec b : Decision (valid_body b).
Proof. unfold valid_body. destruct (b_message b); apply _. Defined.

(** The row that a successful submit stores. *)
Definition submitted (sender : string) (body : SwapBody) (w : World)
    : SwapRequest :=
  mkSwapRequest sender (b_receiverId body)
    (trim (b_skillOffered body)) (trim (b_skillRequested body))
    (trim_or_null (b_message body)) PENDING (now w) (now w) None.

Definition is_notification_event (id : string) (ty : NotificationType)
    (e : Event) : Prop :=
  ∃ ttl msg dat t, e = notification id ty ttl msg dat t false.

(** [answers op w o w']: run on [w], the call [op] ends with outcome [o] in
    the world [w']. *)
Definition answers (op : Op) (w : World) (o : Outcome) (w' : World) : Prop :=
  (run (exec op) w).1 = w' ∧ outcome op (run (exec op) w).2 = o.

(** The consequence C9 draws: some submit whose labels are, up to surrounding
    white space, those of a PENDING request between the same parties,
    succeeds. *)
Definition whitespace_duplicate_accepted : Prop :=
  ∃ io sender body w id s,
    swapRequests w !! id = Some s ∧ status s = PENDING ∧
    senderId s = sender ∧ receiverId s = b_receiverId body ∧
    skillOffered s = trim (b_skillOffered body) ∧
    skillRequested s = trim (b_skillRequested body) ∧
    outcome (submit io sender body) (run (exec (submit io sender body)) w).2
      = Success.


(** What the notifications of a handler do, whether the publishing goes
    through or not: rows are only added, at least one is, and a failure
    leaves createNotification's line on the console. *)
Definition notifier (t : Async unit) (io : option Io) : Prop :=
  ∀ w,
    let w' := (run t w).1 in
    let r := (run t w).2 in
    users w' = users w ∧ swapRequests w' = swapRequests w ∧ now w' = now w ∧
    notifications w ⊆ notifications w' ∧
    (∃ k n, notifications w !! k = None ∧ notifications w' !! k = Some n ∧
            isRead n = false) ∧
    ((r = Ok () ∧ console w' = console w) ∨
     (r = Throw EmitError ∧
      console w' = console w ++ ["Error creating notification:"] ∧
      ∃ io' u e, io = Some io' ∧ emit_fails io' (user_room u) e = true)).

(** The HTTP status of an answer. *)
Definition answer_code (r : Result Response) : option N :=
  match r with
  | Ok (res_json code _ _) => Some code
  | Ok (next_error e) => Some (statusCode e)
  | Throw _ => None
  end.

(** The user [u] owns a notification with id [id]. *)
Definition owns (w : World) (u id : string) : Prop :=
  ∃ n, notifications w !! id = Some n ∧ userId n = u.

(** The shape 8-4-4-4-12 of hexadecimal digits, an [isUUID] to run the
    notification routes with. *)
Definition is_hex (c : Ascii.ascii) : bool :=
  let n := Ascii.nat_of_ascii c in
  (Nat.leb 48 n && Nat.leb n 57) || (Nat.leb 65 n && Nat.leb n 70) ||
  (Nat.leb 97 n && Nat.leb n 102).

Fixpoint hex_digits (k : nat) (s : string) : option string :=
  match k, s with
  | 0, _ => Some s
  | S k', String c s' => if is_hex c then hex_digits k' s' else None
  | S _, EmptyString => None
  end.

Definition dash (s : option string) : option string :=
  match s with
  | Some (String c s') =>
      if Nat.eqb (Ascii.nat_of_ascii c) 45 then Some s' else None
  | _ => None
  end.

Definition uuid_shape (s : string) : bool :=
  match dash (hex_digits 8 s) with
  | Some s1 =>
      match dash (hex_digits 4 s1) with
      | Some s2 =>
          match dash (hex_digits 4 s2) with
          | Some s3 =>
              match dash (hex_digits 4 s3) with
              | Some s4 => bool_decide (hex_digits 12 s4 = Some "")
              | None => false
              end
          | None => false
          end
      | None => false
      end
  | None => false
  end.

(** Users and no swap request yet. *)
Definition blank_world : World := mkWorld example_users ∅ ∅ [] [] 7.

(** Bob has one unread and one read notification, Alice one unread. *)
Definition n1_id : string := "123e4567-e89b-42d3-a456-426614174000".
Definition n2_id : string := "123e4567-e89b-42d3-a456-426614174001".
Definition n3_id : string := "123e4567-e89b-42d3-a456-426614174002".

Definition example_inbox : World :=
  mkWorld example_users ∅
    {[ n1_id := mkNotification "bob" SWAP_REQUEST_RECEIVED "New Swap Request"
                  "Alice wants to swap Excel for your Guitar" None false None 3;
       n2_id := mkNotification "bob" PLATFORM_MESSAGE "Welcome" "Hello" None
                  true (Some 2) 1;
       n3_id := mkNotification "alice" PLATFORM_MESSAGE "Welcome" "Hello" None
                  false None 1 ]}
    [] [] 7.

(** What Alice sends to Bob. *)
Definition guitar_body : SwapBody :=
  mkSwapBody "bob" "Guitar" "Excel" (Some " hello ").

(** * The other routes *)

(** ** routes/notifications.js: unread count and deletion *)

(** [prisma.notification.delete({ where: { id, userId } })] *)
Definition notification_delete (id u : string) (w : World)
    : World * Result (string * Notification) :=
  match notifications w !! id with
  | Some n =>
      if decide (userId n = u)
      then (set_notifications (delete id (notifications w)) w, Ok (id, n))
      else (w, Throw P2025)
  | None => (w, Throw P2025)
  end.

(** [prisma.notification.deleteMany({ where: { userId } })]; the result is
    the [count] of the rows deleted. *)
Definition notification_deleteMany (u : string) (w : World)
    : World * Result nat :=
  (set_notifications (filter (λ kv, userId kv.2 ≠ u) (notifications w)) w,
   Ok (size (filter (λ kv, userId kv.2 = u) (notifications w)))).

(** The answer of GET /api/notifications/unread-count:
    [res.json({ count })] or [next(new ApiError(..))]. *)
Inductive CountResponse :=
  | count_json (count : nat)
  | count_error (e : ApiError).

(** GET /api/notifications/unread-count *)
Definition get_unread_count (req : Request unit) : Async CountResponse :=
  try_catch
    (let userId := req_user req in
     let* unreadCount := await (notification_count_unread userId) in
     ret (count_json unreadCount))
    (λ error,
       console_error "Get unread count error:" ;;
       ret (count_error (mkApiError 500 "Failed to get unread count"))).

Definition delete_notification_handler (req : Request unit) : Async Response :=
  try_catch
    (if negb (bool_decide (req_errors req = []))
     then next 400 "Validation failed"
     else
       let notificationId := req_id req in
       let userId := req_user req in
       await (notification_delete notificationId userId) ;;
       (match req_io req with
        | Some io =>
            let* unreadCount := await (notification_count_unread userId) in
            emit io (user_room userId) (notificationCount unreadCount)
        | None => ret ()
        end) ;;
       ret (res_json 200 "Notification deleted successfully" json_none))
    (λ error,
       console_error "Delete notification error:" ;;
       if decide (error_code error = Some "P2025")
       then next 404 "Notification not found"
       else next 500 "Failed to delete notification").

(** DELETE /api/notifications/:id, behind the same [param('id').isUUID()]
    chain as PUT /:id/read. *)
Definition delete_notification (isUUID : string → bool) (req : Request unit)
    : Async Response :=
  delete_notification_handler (readValidation isUUID req).

(** The handler registered for DELETE /api/notifications/clear-all. *)
Definition delete_clear_all (req : Request unit) : Async Response :=
  try_catch
    (let userId := req_user req in
     let* result := await (notification_deleteMany userId) in
     (match req_io req with
      | Some io => emit io (user_room userId) (notificationCount 0)
      | None => ret ()
      end) ;;
     ret (res_json 200 ("Cleared " +:+ pretty result +:+ " notifications")
            json_none))
    (λ error,
       console_error "Clear all notifications error:" ;;
       next 500 "Failed to clear notifications").

(** ** The calls that publish an unread count *)

(** A call of the notification service, or of one of the two routes that
    publish a count themselves. *)
Inductive Call :=
  | create (io : option Io) (u : string) (ty : NotificationType)
           (ttl msg : string) (dat : option Payload) (realtime : bool)
  | read_one (io : option Io) (id u : string)
  | read_all (io : option Io) (u : string)
  | delete_one (isUUID : string → bool) (io : option Io) (id u : string)
  | clear_all (io : option Io) (u : string).

Definition call_user (c : Call) : string :=
  match c with
  | create _ u _ _ _ _ _ => u
  | read_one _ _ u => u
  | read_all _ u => u
  | delete_one _ _ _ u => u
  | clear_all _ u => u
  end.

(** The world a call leaves behind, whatever it returned. *)
Definition after (c : Call) (w : World) : World :=
  match c with
  | create io u ty ttl msg dat realtime =>
      (run (createNotification io u ty ttl msg dat realtime) w).1
  | read_one io id u => (run (markAsRead io id u) w).1
  | read_all io u => (run (markAllAsRead io u) w).1
  | delete_one isUUID io id u =>
      (run (delete_notification isUUID (id_request io id u)) w).1
  | clear_all io u => (run (delete_clear_all (id_request io "" u)) w).1
  end.

(** The events [l] went to the room of [u] only, and every unread count
    among them is the one the store of [w'] holds for [u]. *)
Definition counts_current (u : string) (l : list (string * Event))
    (w' : World) : Prop :=
  ∀ room e, (room, e) ∈ l →
    room = user_room u ∧
    ∀ c, e = notificationCount c → c = unread_count u (notifications w').

(** The number of rows of [u]. *)
Definition inbox_size (u : string) (m : gmap string Notification) : nat :=
  size (filter (λ kv, userId kv.2 = u) m).

(** ** utils/paginate.js *)

(** A JavaScript number, as far as paging goes: NaN or an integer.  The
    doubles of the code are these integers up to 2^53. *)
Inductive JsNumber :=
  | NaN
  | Num (z : Z).

(** A value of [req.query]: the text of the URL, or the number that a
    [toInt()] sanitizer has put in its place. *)
Inductive QValue :=
  | q_text (s : string)
  | q_num (n : JsNumber).

Definition digit (c : Ascii.ascii) : option Z :=
  let n := Ascii.nat_of_ascii c in
  if Nat.leb 48 n && Nat.leb n 57 then Some (Z.of_nat n - 48)%Z else None.

(** The longest prefix of decimal digits of [s], read as a numeral after the
    digits that gave [acc], and what follows it. *)
Fixpoint numeral (acc : option Z) (s : string) : option Z * string :=
  match s with
  | String c s' =>
      match digit c with
      | Some d => numeral (Some (10 * default 0 acc + d)%Z) s'
      | None => (acc, s)
      end
  | EmptyString => (acc, s)
  end.

(** An optional sign: whether it is a minus, and what follows it. *)
Definition signed (s : string) : bool * string :=
  match s with
  | String c s' =>
      if Nat.eqb (Ascii.nat_of_ascii c) 45 then (true, s')
      else if Nat.eqb (Ascii.nat_of_ascii c) 43 then (false, s')
      else (false, s)
  | EmptyString => (false, s)
  end.

(** [parseInt(s, 10)] on a string: leading white space, a sign, and the
    digits up to the first character that is none. *)
Definition parseInt_text (s : string) : JsNumber :=
  let '(neg, s1) := signed (ltrim s) in
  match (numeral None s1).1 with
  | Some z => Num (if neg then - z else z)%Z
  | None => NaN
  end.

(** [parseInt(v, 10)]: the argument is turned into a string first; the text
    of an integer reads back as that integer, the text of [undefined] and of
    NaN as NaN. *)
Definition parseInt (v : option QValue) : JsNumber :=
  match v with
  | Some (q_text s) => parseInt_text s
  | Some (q_num n) => n
  | None => NaN
  end.

Record Pagination := mkPagination { page : Z; limit : Z; skip : Z }.

(** [getPaginationParams(query)], on [query.page] and [query.limit]. *)
Definition getPaginationParams (query_page query_limit : option QValue)
    : Pagination :=
  let page := parseInt query_page in
  let limit := parseInt query_limit in
  let page := match page with
              | NaN => 1%Z
              | Num z => if (z <? 1)%Z then 1%Z else z
              end in
  let limit := match limit with
               | NaN => 10%Z
               | Num z => if (z <? 1)%Z then 10%Z else z
               end in
  let skip := ((page - 1) * limit)%Z in
  mkPagination page limit skip.

(** ** routes/notifications.js: the listing *)

(** [req.query] as the URL gives it. *)
Record UrlQuery := mkUrlQuery {
  u_page : option string;
  u_limit : option string;
  u_unread : option string;
  u_type : option string
}.

(** [req.query] as the validation chains leave it. *)
Record Query := mkQuery {
  q_page : option JsNumber;
  q_limit : option JsNumber;
  q_unread : option bool;
  q_type : option string
}.

(** The validator [isInt({ min, max })]: an optional sign and digits, nothing
    else, and a value within the bounds. *)
Definition isInt (min : Z) (max : option Z) (s : string) : bool :=
  let '(neg, s1) := signed s in
  match numeral None s1 with
  | (Some z, EmptyString) =>
      let v := (if neg then - z else z)%Z in
      (min <=? v)%Z && from_option (Z.leb v) true max
  | _ => false
  end.

Definition lower (c : Ascii.ascii) : nat :=
  let n := Ascii.nat_of_ascii c in
  if Nat.leb 65 n && Nat.leb n 90 then n + 32 else n.

(** Equality of strings up to the case of the letters A to Z. *)
Fixpoint ci_eqb (s t : string) : bool :=
  match s, t with
  | EmptyString, EmptyString => true
  | String c s', String d t' => Nat.eqb (lower c) (lower d) && ci_eqb s' t'
  | _, _ => false
  end.

(** The validator [isBoolean()] and the sanitizer [toBoolean()]. *)
Definition isBoolean (s : string) : bool :=
  bool_decide (s ∈ ["true"; "false"; "1"; "0"]).

Definition toBoolean (s : string) : bool :=
  negb (bool_decide (s = "0")) && negb (ci_eqb s "false") &&
  negb (bool_decide (s = "")).

(** The values [isIn([..])] lets through as [type]. *)
Definition listed_types : list string :=
  ["SWAP_REQUEST_RECEIVED"; "SWAP_REQUEST_ACCEPTED"; "SWAP_REQUEST_REJECTED";
   "SWAP_COMPLETED"; "FEEDBACK_RECEIVED"; "SKILL_APPROVED"; "SKILL_REJECTED";
   "PLATFORM_MESSAGE"].

(** One [optional()] chain: nothing to check on a field that is absent. *)
Definition check (ok : string → bool) (v : option string) : list string :=
  match v with
  | Some s => if ok s then [] else ["Invalid value"]
  | None => []
  end.

(** The validation chains of GET /api/notifications. *)
Definition listValidation (req : Request UrlQuery) : Request Query :=
  let q := req_body req in
  let errors :=
    check (isInt 1 None) (u_page q) ++
    check (isInt 1 (Some 50%Z)) (u_limit q) ++
    check isBoolean (u_unread q) ++
    check (λ s, bool_decide (s ∈ listed_types)) (u_type q) in
  mkRequest (req_user req) (req_io req) (req_id req)
    (mkQuery (parseInt_text <$> u_page q) (parseInt_text <$> u_limit q)
       (toBoolean <$> u_unread q) (u_type q))
    (req_errors req ++ errors).

(** The name of a notification type, as the store and the API spell it. *)
Definition type_string (ty : NotificationType) : string :=
  match ty with
  | SWAP_REQUEST_RECEIVED => "SWAP_REQUEST_RECEIVED"
  | SWAP_REQUEST_ACCEPTED => "SWAP_REQUEST_ACCEPTED"
  | SWAP_REQUEST_REJECTED => "SWAP_REQUEST_REJECTED"
  | SWAP_COMPLETED => "SWAP_COMPLETED"
  | FEEDBACK_RECEIVED => "FEEDBACK_RECEIVED"
  | SKILL_REJECTED => "SKILL_REJECTED"
  | SYSTEM_ALERT => "SYSTEM_ALERT"
  | PLATFORM_MESSAGE => "PLATFORM_MESSAGE"
  end.

(** [whereConditions]: the caller's rows, and [isRead] and [type] when the
    query asks for them. *)
Definition whereConditions (u : string) (unread : option bool)
    (ty : option string) (n : Notification) : Prop :=
  userId n = u ∧
  match unread with Some b => isRead n = negb b | None => True end ∧
  match ty with
  | Some t => if decide (t = "") then True else type_string (type n) = t
  | None => True
  end.

#[global] Instance whereConditions_dec u unread ty n :
  Decision (whereConditions u unread ty n).
Proof.
  unfold whereConditions. destruct unread, ty; try case_decide; apply _.
Defined.

(** [prisma.notification.count({ where })] *)
Definition notification_count (P : Notification → Prop)
    `{!∀ n, Decision (P n)} (w : World) : World * Result nat :=
  (w, Ok (size (filter (λ kv, P kv.2) (notifications w)))).

(** [orderBy: { createdAt: 'desc' }].  Rows of the same time come in the
    order the table lists them, which the database leaves open. *)
Definition newest_first (a b : string * Notification) : Prop :=
  n_createdAt b.2 ≤ n_createdAt a.2.

#[global] Instance newest_first_dec a b : Decision (newest_first a b).
Proof. unfold newest_first. apply _. Defined.

(** The rows that meet [P], newest first. *)
Definition newest (P : Notification → Prop) `{!∀ n, Decision (P n)}
    (m : gmap string Notification) : list (string * Notification) :=
  merge_sort newest_first (map_to_list (filter (λ kv, P kv.2) m)).

(** [prisma.notification.findMany({ where, skip, take, orderBy })] *)
Definition notification_findMany (P : Notification → Prop)
    `{!∀ n, Decision (P n)} (skip_rows take_rows : Z) (w : World)
    : World * Result (list (string * Notification)) :=
  (w, Ok (take (Z.to_nat take_rows)
            (drop (Z.to_nat skip_rows) (newest P (notifications w))))).

(** A row as the [select] of the listing shows it. *)
Record Listed := mkListed {
  l_id : string;
  l_type : NotificationType;
  l_title : string;
  l_message : string;
  l_data : option Payload;
  l_isRead : bool;
  l_readAt : option Time;
  l_createdAt : Time
}.

Definition listed (kv : string * Notification) : Listed :=
  mkListed kv.1 (type kv.2) (title kv.2) (n_message kv.2) (data kv.2)
    (isRead kv.2) (readAt kv.2) (n_createdAt kv.2).

Record NotificationPage := mkNotificationPage {
  p_page : Z;
  p_limit : Z;
  totalPages : Z;
  totalNotifications : nat;
  unreadCount : nat;
  p_notifications : list Listed
}.

Inductive ListResponse :=
  | list_json (p : NotificationPage)
  | list_error (e : ApiError).

(** [Math.ceil(total / limit)], for a positive [limit]. *)
Definition ceil_div (total : nat) (limit : Z) : Z :=
  ((Z.of_nat total + limit - 1) / limit)%Z.

Definition get_notifications_handler (req : Request Query)
    : Async ListResponse :=
  try_catch
    (if negb (bool_decide (req_errors req = []))
     then ret (list_error (mkApiError 400 "Validation failed"))
     else
       let userId := req_user req in
       let pg := getPaginationParams (q_num <$> q_page (req_body req))
                   (q_num <$> q_limit (req_body req)) in
       let wh := whereConditions userId (q_unread (req_body req))
                   (q_type (req_body req)) in
       let* total := await (notification_count wh) in
       let* rows := await (notification_findMany wh (skip pg) (limit pg)) in
       let* unread := await (notification_count_unread userId) in
       ret (list_json
              (mkNotificationPage (page pg) (limit pg)
                 (ceil_div total (limit pg)) total unread (listed <$> rows))))
    (λ error,
       console_error "Get notifications error:" ;;
       ret (list_error (mkApiError 500 "Failed to fetch notifications"))).

(** GET /api/notifications *)
Definition get_notifications (req : Request UrlQuery) : Async ListResponse :=
  get_notifications_handler (listValidation req).

(** ** routes/notifications.js: the router *)

Inductive Method := GET | POST | PUT | DELETE.

#[global] Instance Method_eq_dec : EqDecision Method.
Proof. solve_decision. Defined.

(** A segment of a route path: a literal, or the parameter [:id]. *)
Inductive Segment :=
  | literal (s : string)
  | param_id.

(** The six routes of the file. *)
Inductive Endpoint :=
  | ep_list
  | ep_unread_count
  | ep_read
  | ep_mark_all_read
  | ep_delete
  | ep_clear_all.

(** The router, in the order of the registrations. *)
Definition notification_router : list (Method * list Segment * Endpoint) :=
  [(GET, [], ep_list);
   (GET, [literal "unread-count"], ep_unread_count);
   (PUT, [param_id; literal "read"], ep_read);
   (PUT, [literal "mark-all-read"], ep_mark_all_read);
   (DELETE, [param_id], ep_delete);
   (DELETE, [literal "clear-all"], ep_clear_all)].

(** Matching the segments of a request path against a route path: a literal
    matches itself, whatever the case of its letters; the parameter matches
    any segment that is not empty.  The result is [req.params.id], empty on
    a route that has no parameter. *)
Fixpoint match_path (pat : list Segment) (path : list string) (id : string)
    : option string :=
  match pat, path with
  | [], [] => Some id
  | literal l :: pat', s :: path' =>
      if ci_eqb l s then match_path pat' path' id else None
  | param_id :: pat', s :: path' =>
      if decide (s = "") then None else match_path pat' path' s
  | _, _ => None
  end.

(** The first route, in the order of the registrations, of that method whose
    path matches; its handler ends the request. *)
Fixpoint dispatch (routes : list (Method * list Segment * Endpoint))
    (m : Method) (path : list string) : option (Endpoint * string) :=
  match routes with
  | (m', pat, ep) :: routes' =>
      match (if decide (m' = m) then match_path pat path "" else None) with
      | Some id => Some (ep, id)
      | None => dispatch routes' m path
      end
  | [] => None
  end.

(** What a request to the router is answered with. *)
Inductive Reply :=
  | reply_list (r : ListResponse)
  | reply_count (r : CountResponse)
  | reply (r : Response)
  | route_not_found.

Definition answer_with {A} (f : A → Reply) (t : Async A) : Async Reply :=
  let* a := t in ret (f a).

(** A request to /api/notifications, from the authenticated user [u]. *)
Definition serve (isUUID : string → bool) (m : Method) (path : list string)
    (u : string) (io : option Io) (q : UrlQuery) : Async Reply :=
  match dispatch notification_router m path with
  | Some (ep_list, id) =>
      answer_with reply_list (get_notifications (mkRequest u io id q []))
  | Some (ep_unread_count, id) =>
      answer_with reply_count (get_unread_count (id_request io id u))
  | Some (ep_read, id) =>
      answer_with reply (put_read isUUID (id_request io id u))
  | Some (ep_mark_all_read, id) =>
      answer_with reply (put_mark_all_read (id_request io id u))
  | Some (ep_delete, id) =>
      answer_with reply (delete_notification isUUID (id_request io id u))
  | Some (ep_clear_all, id) =>
      answer_with reply (delete_clear_all (id_request io id u))
  | None => ret route_not_found
  end.

(** A field passes its chain: it is absent, or the validator accepts it. *)
Definition passes (ok : string → bool) (v : option string) : Prop :=
  match v with
  | Some s => ok s = true
  | None => True
  end.

#[global] Instance passes_dec ok v : Decision (passes ok v).
Proof. unfold passes. destruct v; apply _. Defined.

(** The query passes the four validation chains. *)
Definition valid_query (q : UrlQuery) : Prop :=
  passes (isInt 1 None) (u_page q) ∧
  passes (isInt 1 (Some 50%Z)) (u_limit q) ∧
  passes isBoolean (u_unread q) ∧
  passes (λ s, bool_decide (s ∈ listed_types)) (u_type q).

#[global] Instance valid_query_dec q : Decision (valid_query q).
Proof. unfold valid_query. apply _. Defined.

(** The window of rows asked for lies within the 32-bit integers of the
    store. *)
Definition in_store_range (pg : Pagination) : Prop :=
  (skip pg + limit pg < 2 ^ 31)%Z.

(** The order of a listing: newest first. *)
Definition newer_or_same (a b : Listed) : Prop := l_createdAt b ≤ l_createdAt a.

(** ** routes/swaps.js: reading *)

(** [status && [..].includes(status.toUpperCase())]: the status the query
    names, in whatever case; none if the query names none or something
    else.  (On strings of 8-bit codes, upper-casing yields one of the five
    names exactly when the letters a to z and A to Z spell it.) *)
Definition status_filter (status : option string) : option SwapStatus :=
  match status with
  | Some s =>
      List.find (λ st, ci_eqb s (status_string st))
        [PENDING; ACCEPTED; REJECTED; COMPLETED; CANCELLED]
  | None => None
  end.

(** The filter [...whereConditions]. *)
Definition status_is (st : option SwapStatus) (s : SwapRequest) : Prop :=
  match st with
  | Some x => status s = x
  | None => True
  end.

#[global] Instance status_is_dec st s : Decision (status_is st s).
Proof. unfold status_is. destruct st; apply _. Defined.

(** [{ senderId: userId, ...whereConditions }] and
    [{ receiverId: userId, ...whereConditions }] *)
Definition sent_by (u : string) (st : option SwapStatus) (s : SwapRequest)
    : Prop :=
  senderId s = u ∧ status_is st s.

Definition received_by (u : string) (st : option SwapStatus) (s : SwapRequest)
    : Prop :=
  receiverId s = u ∧ status_is st s.

#[global] Instance sent_by_dec u st s : Decision (sent_by u st s).
Proof. unfold sent_by. apply _. Defined.

#[global] Instance received_by_dec u st s : Decision (received_by u st s).
Proof. unfold received_by. apply _. Defined.

(** A swap row of a list, with the one related user the list includes. *)
Record ListedSwap := mkListedSwap {
  ls_id : string;
  ls_row : SwapRequest;
  ls_other : string
}.

(** [orderBy: { createdAt: 'desc' }] *)
Definition latest_first (a b : string * SwapRequest) : Prop :=
  createdAt b.2 ≤ createdAt a.2.

#[global] Instance latest_first_dec a b : Decision (latest_first a b).
Proof. unfold latest_first. apply _. Defined.

(** The rows that meet [P], latest first. *)
Definition latest (P : SwapRequest → Prop) `{!∀ s, Decision (P s)}
    (m : gmap string SwapRequest) : list (string * SwapRequest) :=
  merge_sort latest_first (map_to_list (filter (λ kv, P kv.2) m)).

(** [prisma.swapRequest.findMany({ where, include, orderBy })]; [other]
    names the relation that is included. *)
Definition swapRequest_findMany (P : SwapRequest → Prop)
    `{!∀ s, Decision (P s)} (other : SwapRequest → string) (w : World)
    : World * Result (list ListedSwap) :=
  (w, Ok ((λ kv, mkListedSwap kv.1 kv.2 (user_name w (other kv.2))) <$>
          latest P (swapRequests w))).

(** [prisma.swapRequest.count({ where })] *)
Definition swapRequest_count (P : SwapRequest → Prop)
    `{!∀ s, Decision (P s)} (w : World) : World * Result nat :=
  (w, Ok (size (filter (λ kv, P kv.2) (swapRequests w)))).

Record SwapStats := mkSwapStats {
  st_total : nat;
  st_pending : nat;
  st_accepted : nat;
  st_completed : nat
}.

Record SwapLists := mkSwapLists {
  sent : list ListedSwap;
  received : list ListedSwap;
  stats_sent : SwapStats;
  stats_received : SwapStats;
  filter_status : string
}.

Inductive SwapsResponse :=
  | swaps_json (l : SwapLists)
  | swaps_error (e : ApiError).

(** GET /api/swaps; [req_body] holds [req.query.status]. *)
Definition get_swaps (req : Request (option string)) : Async SwapsResponse :=
  try_catch
    (let userId := req_user req in
     let status := req_body req in
     let whereConditions := status_filter status in
     let* sent :=
       await (swapRequest_findMany (sent_by userId whereConditions)
                receiverId) in
     let* received :=
       await (swapRequest_findMany (received_by userId whereConditions)
                senderId) in
     let* sent_total := await (swapRequest_count (sent_by userId None)) in
     let* sent_pending :=
       await (swapRequest_count (sent_by userId (Some PENDING))) in
     let* sent_accepted :=
       await (swapRequest_count (sent_by userId (Some ACCEPTED))) in
     let* sent_completed :=
       await (swapRequest_count (sent_by userId (Some COMPLETED))) in
     let* received_total :=
       await (swapRequest_count (received_by userId None)) in
     let* received_pending :=
       await (swapRequest_count (received_by userId (Some PENDING))) in
     let* received_accepted :=
       await (swapRequest_count (received_by userId (Some ACCEPTED))) in
     let* received_completed :=
       await (swapRequest_count (received_by userId (Some COMPLETED))) in
     ret (swaps_json
            (mkSwapLists sent received
               (mkSwapStats sent_total sent_pending sent_accepted
                  sent_completed)
               (mkSwapStats received_total received_pending received_accepted
                  received_completed)
               (match status with
                | Some s => if decide (s = "") then "all" else s
                | None => "all"
                end))))
    (λ error,
       console_error "Get swaps error:" ;;
       ret (swaps_error (mkApiError 500 "Failed to fetch swap requests"))).

(** The answer of GET /api/swaps/:id. *)
Inductive SwapResponse :=
  | swap_json (r : SwapRow)
  | swap_error (e : ApiError).

(** GET /api/swaps/:id.  The answer is the row with its two users; the
    [feedback] relation, of a table that is not modelled, is left out. *)
Definition get_swap (req : Request unit) : Async SwapResponse :=
  try_catch
    (let swapId := req_id req in
     let userId := req_user req in
     let* swap := await (swapRequest_findUnique swapId) in
     match swap with
     | None => ret (swap_error (mkApiError 404 "Swap request not found"))
     | Some swap =>
         if negb (bool_decide (senderId (row swap) = userId)) &&
            negb (bool_decide (receiverId (row swap) = userId))
         then ret (swap_error
                     (mkApiError 403 "You can only view swaps you are part of"))
         else ret (swap_json swap)
     end)
    (λ error,
       console_error "Get swap details error:" ;;
       ret (swap_error (mkApiError 500 "Failed to get swap details"))).

(** The number of rows that [u] sent and that are in status [st]. *)
Definition sent_in (u : string) (st : SwapStatus)
    (m : gmap string SwapRequest) : nat :=
  size (filter (λ kv, sent_by u (Some st) kv.2) m).

(** The caller takes part in the swap. *)
Definition party (u : string) (s : SwapRequest) : Prop :=
  senderId s = u ∨ receiverId s = u.

(** The order of a list of swaps: latest first. *)
Definition later_or_same (a b : ListedSwap) : Prop :=
  createdAt (ls_row b) ≤ createdAt (ls_row a).

(** [r] shows the row [id] of the table with the name of [other]. *)
Definition shows (w : World) (other : SwapRequest → string) (r : ListedSwap)
    : Prop :=
  swapRequests w !! ls_id r = Some (ls_row r) ∧
  ls_other r = user_name w (other (ls_row r)).

(** The number of rows that [u] received and that are in status [st]. *)
Definition received_in (u : string) (st : SwapStatus)
    (m : gmap string SwapRequest) : nat :=
  size (filter (λ kv, received_by u (Some st) kv.2) m).

(** * Vocabulary of the further statements *)

(** ** Rows over time *)

(** What a transition does to a row: the status (and the update time) of a
    PENDING row, or the completion of an ACCEPTED one. *)
Inductive row_move (s s' : SwapRequest) : Prop :=
  | move_status st t :
      status s = PENDING → st = ACCEPTED ∨ st = REJECTED ∨ st = CANCELLED →
      s' = set_status st t s → row_move s s'
  | move_completed t :
      status s = ACCEPTED → s' = set_completed t s → row_move s s'.

(** How one call changes the swap table, row by row. *)
Inductive table_change (m m' : gmap string SwapRequest) : Prop :=
  | change_none : m' = m → table_change m m'
  | change_row id s s' :
      m !! id = Some s → row_move s s' → m' = <[id := s']> m →
      table_change m m'
  | change_new id s :
      m !! id = None → status s = PENDING → senderId s ≠ receiverId s →
      completedAt s = None → m' = <[id := s]> m → table_change m m'.

(** The statuses no transition leaves. *)
Definition terminal (st : SwapStatus) : Prop :=
  st = REJECTED ∨ st = CANCELLED ∨ st = COMPLETED.

(** The columns that no route writes after the row is created. *)
Definition same_request (s s' : SwapRequest) : Prop :=
  senderId s' = senderId s ∧ receiverId s' = receiverId s ∧
  skillOffered s' = skillOffered s ∧ skillRequested s' = skillRequested s ∧
  message s' = message s ∧ createdAt s' = createdAt s.

(** The invariants of a row: two different parties, and a completion time
    exactly on the COMPLETED rows. *)
Definition row_ok (s : SwapRequest) : Prop :=
  senderId s ≠ receiverId s ∧
  (is_Some (completedAt s) ↔ status s = COMPLETED).

Definition table_ok (m : gmap string SwapRequest) : Prop :=
  ∀ id s, m !! id = Some s → row_ok s.

(** ** Schedules *)

(** The schedule under which a markAsRead and a createNotification for the
    same user cross: the first reads the count, the second runs from its
    insert to its last publish, then the first publishes. *)
Definition crossing : list bool :=
  [true; true; false; false; false; false; true].

(** The schedule under which two submits both read before either writes:
    each looks the receiver up and runs its duplicate check; then the first
    runs to its end, and then the second. *)
Definition reads_first : list bool := [true; true; false; false].

(** The schedule under which two transitions both read the row before
    either writes it; then the first runs to its end, and then the second. *)
Definition both_read : list bool := [true; false].

(** ** Who is told about a swap *)

(** The notification [n] names the swap [id] in its payload. *)
Definition about_swap (id : string) (n : Notification) : Prop :=
  ∃ dat, data n = Some dat ∧ ("swapId", id) ∈ dat.

(** The task [t] keeps the notifications that are there, and every row it
    adds satisfies [ok]. *)
Definition adds_only (ok : Notification → Prop) (t : Async unit) : Prop :=
  ∀ w k,
    match notifications w !! k with
    | Some n => notifications (run t w).1 !! k = Some n
    | None => ∀ n, notifications (run t w).1 !! k = Some n → ok n
    end.

(** An unread notification for [u] about the swap [id]. *)
Definition tells (u id : string) (n : Notification) : Prop :=
  userId n = u ∧ about_swap id n ∧ isRead n = false.

(** From [w] to [w'] no notification was lost or changed, and every one
    that was added is unread and names a swap of which its recipient is the
    sender or the receiver. *)
Definition only_parties_told (w w' : World) : Prop :=
  ∀ k,
    match notifications w !! k with
    | Some n => notifications w' !! k = Some n
    | None =>
        ∀ n, notifications w' !! k = Some n →
             isRead n = false ∧
             ∃ id s, about_swap id n ∧ swapRequests w' !! id = Some s ∧
                     party (userId n) s
    end.

(** * Properties *)

(** ** Running composed tasks *)

Lemma run_bind {A B} (t : Async A) (k : A → Async B) (w : World) :
  run (bind t k) w =
  match run t w with
  | (w1, Ok a) => run (k a) w1
  | (w1, Throw e) => (w1, Throw e)
  end.
Proof.
  revert w. induction t as [[a|e]|X op k' IH]; intros w; simpl; try done.
  destruct (op w) as [w' x]. apply IH.
Qed.

Lemma run_try_catch {A} (t : Async A) (h : Error → Async A) (w : World) :
  run (try_catch t h) w =
  match run t w with
  | (w1, Ok a) => (w1, Ok a)
  | (w1, Throw e) => run (h e) w1
  end.
Proof.
  revert w. induction t as [[a|e]|X op k' IH]; intros w; simpl; try done.
  destruct (op w) as [w' x]. apply IH.
Qed.

Lemma interleave_nil {A B} (a : Task A) (b : Task B) (w : World) :
  interleave [] a b w =
  (let '(w1, ra) := run a w in let '(w2, rb) := run b w1 in (w2, (ra, rb))).
Proof. done. Qed.

(** ** Counting unread notifications *)

Lemma fresh_notification_key (m : gmap string Notification) :
  m !! fresh (dom m) = None.
Proof. apply not_elem_of_dom, is_fresh. Qed.

Lemma fresh_swap_key (m : gmap string SwapRequest) :
  m !! fresh (dom m) = None.
Proof. apply not_elem_of_dom, is_fresh. Qed.

Lemma unread_count_insert_new (u : string) (m : gmap string Notification)
    (id : string) (n : Notification) :
  m !! id = None →
  unread_count u (<[id := n]> m) =
  if decide (unread_of u n) then S (unread_count u m) else unread_count u m.
Proof.
  intros Hid. unfold unread_count. case_decide as Hn.
  - rewrite map_filter_insert_True by done.
    rewrite map_size_insert_None; [done|].
    apply map_lookup_filter_None_2. by left.
  - rewrite map_filter_insert_not'; [done|done|].
    intros y Hy. congruence.
Qed.

Lemma unread_count_zero_iff (u : string) (m : gmap string Notification) :
  unread_count u m = 0 ↔ ∀ id n, m !! id = Some n → ¬ unread_of u n.
Proof.
  unfold unread_count. rewrite map_size_empty_iff, map_empty_filter.
  unfold map_Forall. simpl. done.
Qed.

(** ** The store calls *)

Lemma findFirst_None (P : SwapRequest → Prop) `{!∀ s, Decision (P s)}
    (w : World) :
  (swapRequest_findFirst P w).2 = Ok None ↔
  ∀ id s, swapRequests w !! id = Some s → ¬ P s.
Proof.
  unfold swapRequest_findFirst. simpl. split.
  - intros Hnone id s Hs HP.
    assert (Hh : head (map_to_list (filter (λ kv, P kv.2) (swapRequests w))) = None).
    { destruct (head _); simplify_eq/=; done. }
    apply head_None, map_to_list_empty_iff in Hh.
    eapply map_filter_empty_not_lookup in Hh; [by apply Hh|]. done.
  - intros Hall.
    assert (Hh : filter (λ kv, P kv.2) (swapRequests w) = ∅).
    { apply map_empty_filter_2. intros id s Hs. by apply (Hall id s). }
    by rewrite Hh, map_to_list_empty.
Qed.

Lemma findFirst_Some (P : SwapRequest → Prop) `{!∀ s, Decision (P s)}
    (w : World) (s : SwapRequest) :
  (swapRequest_findFirst P w).2 = Ok (Some s) →
  ∃ id, swapRequests w !! id = Some s ∧ P s.
Proof.
  unfold swapRequest_findFirst. simpl.
  destruct (head _) as [[id s']|] eqn:Hh; intros ?; simplify_eq/=.
  apply head_Some_elem_of, elem_of_map_to_list, map_lookup_filter_Some in Hh.
  exists id. naive_solver.
Qed.

Lemma findFirst_world (P : SwapRequest → Prop) `{!∀ s, Decision (P s)}
    (w : World) :
  (swapRequest_findFirst P w).1 = w.
Proof. done. Qed.

(** ** createNotification *)

Lemma createNotification_None u ty ttl msg dat w :
  run (createNotification None u ty ttl msg dat true) w =
  (notified u ty ttl msg dat w,
   Ok (fresh (dom (notifications w)), new_notification u ty ttl msg dat w)).
Proof. done. Qed.

Lemma createNotification_Some io u ty ttl msg dat w :
  let w1 := notified u ty ttl msg dat w in
  let e1 := notification_event ty ttl msg dat w in
  let e2 := count_event u w1 in
  run (createNotification (Some io) u ty ttl msg dat true) w =
  if emit_fails io (user_room u) e1 then
    (set_console (console w ++ ["Error creating notification:"]) w1,
     Throw EmitError)
  else if emit_fails io (user_room u) e2 then
    (set_console (console w ++ ["Error creating notification:"])
       (set_outbox (outbox w ++ [(user_room u, e1)]) w1),
     Throw EmitError)
  else
    (set_outbox ((outbox w ++ [(user_room u, e1)]) ++ [(user_room u, e2)]) w1,
     Ok (fresh (dom (notifications w)), new_notification u ty ttl msg dat w)).
Proof.
  unfold createNotification, notified, notification_event, count_event,
    new_notification.
  cbn.
  destruct (emit_fails io _ (notification _ _ _ _ _ _ _)); cbn; [done|].
  destruct (emit_fails io _ (notificationCount _)); cbn; done.
Qed.

(** What every run of createNotification does to the store: the row is
    inserted whether or not the publishing goes through. *)
Lemma createNotification_store io u ty ttl msg dat w :
  let w' := (run (createNotification io u ty ttl msg dat true) w).1 in
  users w' = users w ∧ swapRequests w' = swapRequests w ∧ now w' = now w ∧
  notifications w' =
    <[fresh (dom (notifications w)) := new_notification u ty ttl msg dat w]>
      (notifications w).
Proof.
  destruct io as [io|]; [|done].
  cbv zeta. rewrite createNotification_Some.
  repeat case_match; done.
Qed.

Lemma createNotification_reliable io u ty ttl msg dat w :
  reliable io →
  ∃ w', run (createNotification io u ty ttl msg dat true) w =
          (w', Ok (fresh (dom (notifications w)),
                   new_notification u ty ttl msg dat w)) ∧
        console w' = console w.
Proof.
  intros Hio. destruct io as [io|].
  - rewrite createNotification_Some. cbv zeta.
    rewrite !(Hio io) by done. eexists; split; done.
  - rewrite createNotification_None. eexists; split; done.
Qed.

(** ** The notification templates *)

Lemma run_drop {A} (t : Async A) (w : World) :
  run (t ;; ret ()) w =
  match run t w with
  | (w', Ok _) => (w', Ok ())
  | (w', Throw e) => (w', Throw e)
  end.
Proof. rewrite run_bind. by destruct (run t w) as [? [?|?]]. Qed.

Ltac sends_template f :=
  unfold sends, f; do 3 eexists; intros w; apply run_drop.

Lemma sends_received io u a b c d :
  sends (notifySwapRequestReceived io u a b c d) io u SWAP_REQUEST_RECEIVED.
Proof. sends_template notifySwapRequestReceived. Qed.

Lemma sends_accepted io u a b c d :
  sends (notifySwapRequestAccepted io u a b c d) io u SWAP_REQUEST_ACCEPTED.
Proof. sends_template notifySwapRequestAccepted. Qed.

Lemma sends_rejected io u a b c d :
  sends (notifySwapRequestRejected io u a b c d) io u SWAP_REQUEST_REJECTED.
Proof. sends_template notifySwapRequestRejected. Qed.

Lemma sends_completed io u a b c d :
  sends (notifySwapCompleted io u a b c d) io u SWAP_COMPLETED.
Proof. sends_template notifySwapCompleted. Qed.

Lemma sends_store t io u ty w :
  sends t io u ty →
  let w' := (run t w).1 in
  users w' = users w ∧ swapRequests w' = swapRequests w ∧ now w' = now w ∧
  ∃ n, fresh_unread u ty w n ∧
       notifications w' = <[fresh (dom (notifications w)) := n]> (notifications w).
Proof.
  intros (ttl & msg & dat & Ht). cbv zeta. rewrite Ht.
  pose proof (createNotification_store io u ty ttl msg dat w) as Hs.
  cbv zeta in Hs.
  destruct (run (createNotification _ _ _ _ _ _ _) w) as [w' [?|?]];
    simpl in *; destruct Hs as (? & ? & ? & ?);
    (repeat split; [done..|]); eexists; (split; [|done]); done.
Qed.

Lemma sends_result t io u ty w :
  sends t io u ty →
  let '(w', r) := run t w in
  (r = Ok () ∧ console w' = console w) ∨
  (r = Throw EmitError ∧
   console w' = console w ++ ["Error creating notification:"] ∧
   ∃ io' e, io = Some io' ∧ emit_fails io' (user_room u) e = true).
Proof.
  intros (ttl & msg & dat & Ht). rewrite Ht.
  destruct io as [io|].
  - rewrite createNotification_Some. cbv zeta.
    destruct (emit_fails io _ (notification_event _ _ _ _ _)) eqn:E1; cbn.
    { right. eauto 10. }
    destruct (emit_fails io _ (count_event _ _)) eqn:E2; cbn.
    { right. eauto 10. }
    by left.
  - rewrite createNotification_None. by left.
Qed.

Lemma sends_reliable t io u ty w :
  sends t io u ty → reliable io → (run t w).2 = Ok ().
Proof.
  intros Ht Hio. pose proof (sends_result t io u ty w Ht) as Hr.
  destruct (run t w) as [w' r]. simpl.
  destruct Hr as [[-> _]|(_ & _ & io' & e & -> & He)]; [done|].
  by rewrite (Hio io') in He.
Qed.

(** ** The routes in direct style *)

Lemma post_swaps_handler_run (req : Request SwapBody) (w : World) :
  let b := req_body req in
  let s := mkSwapRequest (req_user req) (b_receiverId b)
             (trim (b_skillOffered b)) (trim (b_skillRequested b))
             (trim_or_null (b_message b)) PENDING (now w) (now w) None in
  let id := fresh (dom (swapRequests w)) in
  let ok := res_json 201 "Swap request created successfully"
              (json_swap (with_relations w id s)) in
  run (post_swaps_handler req) w =
  if negb (bool_decide (req_errors req = []))
  then failed 400 "Validation failed" w
  else if decide (req_user req = b_receiverId b)
  then failed 400 "You cannot send a swap request to yourself" w
  else
    match users w !! b_receiverId b with
    | None => failed 404 "Receiver not found" w
    | Some receiver =>
        if negb (isActive receiver)
        then failed 400 "Cannot send request to inactive user" w
        else if negb (isPublic receiver)
        then failed 400 "Cannot send request to private profile" w
        else
          match (swapRequest_findFirst
                   (similar_pending (req_user req) (b_receiverId b)
                      (b_skillOffered b) (b_skillRequested b)) w).2 with
          | Ok None =>
              let w1 := set_swapRequests (<[id := s]> (swapRequests w)) w in
              match req_io req with
              | Some io =>
                  answer_after
                    (notifySwapRequestReceived (Some io) (b_receiverId b)
                       (user_name w (req_user req)) (b_skillOffered b)
                       (b_skillRequested b) id)
                    "Create swap error:" ok
                    (next_error (mkApiError 500 "Failed to create swap request"))
                    w1
              | None => (w1, Ok ok)
              end
          | _ =>
              failed 400
                "A similar swap request already exists between you and this user" w
          end
    end.
Proof.
  unfold post_swaps_handler, answer_after, failed, at_now, swapRequest_create,
    user_findUnique.
  cbn.
  destruct (bool_decide (req_errors req = [])); cbn; [|done].
  destruct (decide (req_user req = _)); cbn; [done|].
  destruct (users w !! _) as [receiver|]; cbn; [|done].
  destruct (isActive receiver); cbn; [|done].
  destruct (isPublic receiver); cbn; [|done].
  destruct (head _) as [[? ?]|]; cbn; [done|].
  destruct (req_io req); cbn; [|done].
  rewrite run_try_catch, !run_bind. by destruct (run _ _) as [w2 [[]|e]].
Qed.

(** The four status updates share their shape: look the row up, check the
    caller's role, check the status, write, notify. *)
Lemma put_accept_run (req : Request unit) (w : World) :
  run (put_accept req) w =
  match swapRequests w !! req_id req with
  | None => failed 404 "Swap request not found" w
  | Some s =>
      if negb (bool_decide (receiverId s = req_user req))
      then failed 403 "You can only accept requests sent to you" w
      else if negb (bool_decide (status s = PENDING))
      then failed 400 ("Cannot accept request with status: " +:+
                         status_string (status s)) w
      else
        let s' := set_status ACCEPTED (now w) s in
        let w1 := set_swapRequests (<[req_id req := s']> (swapRequests w)) w in
        let ok := res_json 200 "Swap request accepted successfully"
                    (json_swap (with_relations w (req_id req) s')) in
        match req_io req with
        | Some io =>
            answer_after
              (notifySwapRequestAccepted (Some io) (senderId s)
                 (user_name w (receiverId s)) (skillOffered s)
                 (skillRequested s) (req_id req))
              "Accept swap error:" ok
              (next_error (mkApiError 500 "Failed to accept swap request")) w1
        | None => (w1, Ok ok)
        end
  end.
Proof.
  unfold put_accept, answer_after, failed, at_now, swapRequest_update,
    swapRequest_findUnique.
  cbn.
  destruct (swapRequests w !! req_id req) as [s|] eqn:Hs; cbn; [|done].
  destruct (bool_decide (receiverId s = _)); cbn; [|done].
  destruct (bool_decide (status s = PENDING)); cbn; [|done].
  destruct (req_io req); rewrite Hs; cbn; [|done].
  rewrite run_try_catch, !run_bind. by destruct (run _ _) as [w2 [[]|e]].
Qed.

Lemma put_reject_run (req : Request unit) (w : World) :
  run (put_reject req) w =
  match swapRequests w !! req_id req with
  | None => failed 404 "Swap request not found" w
  | Some s =>
      if negb (bool_decide (receiverId s = req_user req))
      then failed 403 "You can only reject requests sent to you" w
      else if negb (bool_decide (status s = PENDING))
      then failed 400 ("Cannot reject request with status: " +:+
                         status_string (status s)) w
      else
        let s' := set_status REJECTED (now w) s in
        let w1 := set_swapRequests (<[req_id req := s']> (swapRequests w)) w in
        let ok := res_json 200 "Swap request rejected"
                    (json_swap (with_relations w (req_id req) s')) in
        match req_io req with
        | Some io =>
            answer_after
              (notifySwapRequestRejected (Some io) (senderId s)
                 (user_name w (receiverId s)) (skillOffered s)
                 (skillRequested s) (req_id req))
              "Reject swap error:" ok
              (next_error (mkApiError 500 "Failed to reject swap request")) w1
        | None => (w1, Ok ok)
        end
  end.
Proof.
  unfold put_reject, answer_after, failed, at_now, swapRequest_update,
    swapRequest_findUnique.
  cbn.
  destruct (swapRequests w !! req_id req) as [s|] eqn:Hs; cbn; [|done].
  destruct (bool_decide (receiverId s = _)); cbn; [|done].
  destruct (bool_decide (status s = PENDING)); cbn; [|done].
  destruct (req_io req); rewrite Hs; cbn; [|done].
  rewrite run_try_catch, !run_bind. by destruct (run _ _) as [w2 [[]|e]].
Qed.

Lemma put_cancel_run (req : Request unit) (w : World) :
  run (put_cancel req) w =
  match swapRequests w !! req_id req with
  | None => failed 404 "Swap request not found" w
  | Some s =>
      if negb (bool_decide (senderId s = req_user req))
      then failed 403 "You can only cancel requests you sent" w
      else if negb (bool_decide (status s = PENDING))
      then failed 400 ("Cannot cancel request with status: " +:+
                         status_string (status s)) w
      else
        let s' := set_status CANCELLED (now w) s in
        (set_swapRequests (<[req_id req := s']> (swapRequests w)) w,
         Ok (res_json 200 "Swap request cancelled"
               (json_swap (with_relations w (req_id req) s'))))
  end.
Proof.
  unfold put_cancel, failed, at_now, swapRequest_update, swapRequest_findUnique.
  cbn.
  destruct (swapRequests w !! req_id req) as [s|] eqn:Hs; cbn; [|done].
  destruct (bool_decide (senderId s = _)); cbn; [|done].
  destruct (bool_decide (status s = PENDING)); cbn; [|done].
  by rewrite Hs.
Qed.

Lemma put_complete_run (req : Request unit) (w : World) :
  run (put_complete req) w =
  match swapRequests w !! req_id req with
  | None => failed 404 "Swap request not found" w
  | Some s =>
      if negb (bool_decide (senderId s = req_user req)) &&
         negb (bool_decide (receiverId s = req_user req))
      then failed 403 "You can only complete swaps you are part of" w
      else if negb (bool_decide (status s = ACCEPTED))
      then failed 400 "Can only complete accepted swap requests" w
      else
        let s' := set_completed (now w) s in
        let w1 := set_swapRequests (<[req_id req := s']> (swapRequests w)) w in
        let ok := res_json 200 "Swap marked as completed"
                    (json_swap (with_relations w (req_id req) s')) in
        match req_io req with
        | Some io =>
            answer_after
              (notifySwapCompleted (Some io) (senderId s)
                 (user_name w (receiverId s)) (skillOffered s)
                 (skillRequested s) (req_id req) ;;
               notifySwapCompleted (Some io) (receiverId s)
                 (user_name w (senderId s)) (skillRequested s)
                 (skillOffered s) (req_id req))
              "Complete swap error:" ok
              (next_error (mkApiError 500 "Failed to complete swap request")) w1
        | None => (w1, Ok ok)
        end
  end.
Proof.
  unfold put_complete, answer_after, failed, at_now, swapRequest_update,
    swapRequest_findUnique.
  cbn.
  destruct (swapRequests w !! req_id req) as [s|] eqn:Hs; cbn; [|done].
  destruct (negb (bool_decide (senderId s = _)) && _); cbn; [done|].
  destruct (bool_decide (status s = ACCEPTED)); cbn; [|done].
  destruct (req_io req); rewrite Hs; cbn; [|done].
  rewrite run_try_catch, !run_bind.
  destruct (run (notifySwapCompleted _ _ _ _ _ _) _) as [w2 [[]|e]]; [|done].
  by destruct (run (notifySwapCompleted _ _ _ _ _ _) _) as [w3 [[]|e]].
Qed.

Lemma answer_after_cases t line ok err w :
  let '(w', r) := answer_after t line ok err w in
  (r = Ok ok ∧ run t w = (w', Ok ())) ∨
  (r = Ok err ∧ ∃ w'' e, run t w = (w'', Throw e) ∧
                         w' = set_console (console w'' ++ [line]) w'').
Proof.
  unfold answer_after. destruct (run t w) as [w' [[]|e]]; [by left|].
  right. eauto.
Qed.

(** ** trim *)

Lemma rtrim_idemp (s : string) : rtrim (rtrim s) = rtrim s.
Proof.
  induction s as [|c s IH]; [done|]. simpl.
  destruct (rtrim s) as [|c' r] eqn:E.
  - destruct (is_space c) eqn:Hc; [done|]. simpl. by rewrite Hc.
  - change (rtrim (String c (String c' r))) with
      (match rtrim (String c' r) with
       | EmptyString => if is_space c then EmptyString else String c EmptyString
       | r0 => String c r0
       end).
    by rewrite IH.
Qed.

Lemma ltrim_head (s : string) :
  ltrim s = EmptyString ∨
  ∃ c s', ltrim s = String c s' ∧ is_space c = false.
Proof.
  induction s as [|c s IH]; [by left|]. simpl.
  destruct (is_space c) eqn:Hc; [done|]. right. eauto.
Qed.

Lemma ltrim_rtrim_head (c : Ascii.ascii) (s : string) :
  is_space c = false → ltrim (rtrim (String c s)) = rtrim (String c s).
Proof.
  intros Hc. cbn [rtrim]. destruct (rtrim s); rewrite ?Hc; cbn [ltrim]; by rewrite Hc.
Qed.

Lemma trim_idemp (s : string) : trim (trim s) = trim s.
Proof.
  unfold trim. destruct (ltrim_head s) as [->|(c & s' & -> & Hc)]; [done|].
  by rewrite ltrim_rtrim_head, rtrim_idemp.
Qed.

Lemma trim_or_null_trim (m : option string) :
  trim_or_null (trim <$> m) = trim_or_null m.
Proof.
  destruct m as [m|]; [|done]. simpl. by rewrite trim_idemp.
Qed.

(** ** C10 *)

Lemma failed_inv code msg w w' r :
  failed code msg w = (w', r) → w' = w.
Proof. unfold failed. congruence. Qed.

Lemma answer_after_outcome op t line c m p msg w w' r :
  answer_after t line (res_json c m p) (next_error (mkApiError 500 msg)) w
    = (w', r) →
  ¬ guard_failure (outcome op r).
Proof.
  intros Hr. pose proof (answer_after_cases t line
    (res_json c m p) (next_error (mkApiError 500 msg)) w) as Hc.
  rewrite Hr in Hc. unfold guard_failure.
  destruct Hc as [[-> _]|[-> _]]; vm_compute; intros [?|[?|[?|?]]]; discriminate.
Qed.

Ltac guard_case Hg :=
  match goal with
  | H : failed _ _ _ = _ |- _ => by apply failed_inv in H
  | H : answer_after _ _ _ _ _ = _ |- _ =>
      by destruct (answer_after_outcome _ _ _ _ _ _ _ _ _ _ H Hg)
  | H : (_, Ok (res_json _ _ _)) = (_, _) |- _ =>
      exfalso; injection H as <- <-; revert Hg; vm_compute;
      intros [?|[?|[?|?]]]; discriminate
  end.

(** C10. Every guard of a lifecycle operation is checked before the
    operation writes: a call that ends in InvalidArgument, NotFound,
    Forbidden or InvalidState leaves the whole world as it found it (no swap
    row created or changed, no notification created, nothing published,
    nothing logged). *)
Theorem guard_failure_leaves_world (op : Op) (w w' : World)
    (r : Result Response) :
  run (exec op) w = (w', r) →
  guard_failure (outcome op r) →
  w' = w.
Proof.
  intros Hrun Hg. destruct op; unfold exec, post_swaps in Hrun.
  - rewrite post_swaps_handler_run in Hrun. cbv zeta in Hrun.
    repeat case_match; guard_case Hg.
  - rewrite put_accept_run in Hrun. cbv zeta in Hrun.
    repeat case_match; guard_case Hg.
  - rewrite put_reject_run in Hrun. cbv zeta in Hrun.
    repeat case_match; guard_case Hg.
  - rewrite put_cancel_run in Hrun. cbv zeta in Hrun.
    repeat case_match; guard_case Hg.
  - rewrite put_complete_run in Hrun. cbv zeta in Hrun.
    repeat case_match; guard_case Hg.
Qed.

(** ** What the notifications leave alone *)

Lemma sends_notification_task t io u ty :
  sends t io u ty → notification_task t.
Proof.
  intros Ht w. destruct (sends_store t io u ty w Ht) as (? & ? & ? & _). done.
Qed.

Lemma seq_notification_task (t1 t2 : Async unit) :
  notification_task t1 → notification_task t2 → notification_task (t1 ;; t2).
Proof.
  intros H1 H2 w. cbv zeta. rewrite run_bind.
  specialize (H1 w). cbv zeta in H1.
  destruct (run t1 w) as [w1 [[]|e]]; simpl in *; [|done].
  specialize (H2 w1). cbv zeta in H2.
  destruct H1 as (E1 & E2 & E3), H2 as (F1 & F2 & F3).
  by rewrite F1, F2, F3.
Qed.

Lemma answer_after_frame t line ok err w :
  notification_task t →
  let w' := (answer_after t line ok err w).1 in
  users w' = users w ∧ swapRequests w' = swapRequests w ∧ now w' = now w.
Proof.
  intros Ht. specialize (Ht w). cbv zeta in *. unfold answer_after.
  by destruct (run t w) as [w1 [[]|e]].
Qed.

Create HintDb notify.
#[local] Hint Resolve sends_received sends_accepted sends_rejected
  sends_completed sends_notification_task seq_notification_task : notify.

(** ** C1: the state machine *)

Lemma table_step_after (t : Async unit) line ok err m w1 :
  notification_task t →
  table_step m (swapRequests w1) →
  table_step m (swapRequests (answer_after t line ok err w1).1).
Proof.
  intros Ht Hs. destruct (answer_after_frame t line ok err w1 Ht) as (_ & -> & _).
  done.
Qed.

Lemma bool_decide_negb_false (P : Prop) `{!Decision P} :
  negb (bool_decide P) = false → P.
Proof. intros HP. apply negb_false_iff in HP. by apply bool_decide_eq_true in HP. Qed.

Ltac table_moves :=
  eapply table_move; [done| |done]; simpl;
  match goal with
  | H : negb (bool_decide (status _ = _)) = false |- _ =>
      apply bool_decide_negb_false in H; rewrite H
  end;
  constructor.

Lemma exec_table_step (op : Op) (w : World) :
  table_step (swapRequests w) (swapRequests (run (exec op) w).1).
Proof.
  destruct op; unfold exec, post_swaps.
  - rewrite post_swaps_handler_run. cbv zeta.
    repeat case_match; try (by apply table_same).
    + apply table_step_after; [eauto with notify|].
      eapply table_new; [apply fresh_swap_key| |done]; done.
    + eapply table_new; [apply fresh_swap_key| |done]; done.
  - rewrite put_accept_run. cbv zeta.
    repeat case_match; try (by apply table_same).
    + apply table_step_after; [eauto with notify|].
      table_moves.
    + table_moves.
  - rewrite put_reject_run. cbv zeta.
    repeat case_match; try (by apply table_same).
    + apply table_step_after; [eauto with notify|].
      table_moves.
    + table_moves.
  - rewrite put_cancel_run. cbv zeta.
    repeat case_match; try (by apply table_same).
    table_moves.
  - rewrite put_complete_run. cbv zeta.
    repeat case_match; try (by apply table_same).
    + apply table_step_after; [eauto with notify|].
      table_moves.
    + table_moves.
Qed.

Lemma table_step_lookup m m' id s :
  table_step m m' → m !! id = Some s →
  ∃ s', m' !! id = Some s' ∧
        (status s' = status s ∨ edge (status s) (status s')).
Proof.
  intros [->|id0 s0 s0' H0 He ->|id0 s0 H0 Hp ->] Hs.
  - eauto.
  - destruct (decide (id0 = id)) as [->|Hne].
    + rewrite lookup_insert_eq. simplify_eq. eauto.
    + rewrite lookup_insert_ne by done. eauto.
  - rewrite lookup_insert_ne by congruence. eauto.
Qed.

Lemma table_step_created m m' id s' :
  table_step m m' → m !! id = None → m' !! id = Some s' → status s' = PENDING.
Proof.
  intros [->|id0 s0 s0' H0 He ->|id0 s0 H0 Hp ->] Hn Hs'.
  - congruence.
  - rewrite lookup_insert_ne in Hs' by congruence. congruence.
  - destruct (decide (id0 = id)) as [->|Hne].
    + rewrite lookup_insert_eq in Hs'. congruence.
    + rewrite lookup_insert_ne in Hs' by done. congruence.
Qed.

Lemma run_ops_reachable (ops : list Op) (w : World) (id : string)
    (s : SwapRequest) :
  swapRequests w !! id = Some s →
  ∃ s', swapRequests (run_ops ops w) !! id = Some s' ∧
        rtc edge (status s) (status s').
Proof.
  revert w s. induction ops as [|op ops IH]; intros w s Hs; simpl.
  - eauto using rtc_refl.
  - destruct (table_step_lookup _ _ id s (exec_table_step op w) Hs)
      as (s1 & Hs1 & Hstep).
    destruct (IH _ _ Hs1) as (s' & Hs' & Hrtc).
    exists s'. split; [done|].
    destruct Hstep as [Heq|He]; [by rewrite <- Heq|].
    by eapply rtc_l.
Qed.

Lemma outcome_400 (op : Op) (msg : string) :
  (∀ io sender body, op ≠ submit io sender body) →
  outcome op (Ok (next_error (mkApiError 400 msg))) = InvalidState.
Proof. intros Hop. destruct op; [by destruct (Hop io sender body)|done..]. Qed.

(** A transition asked for on a row that is not in its source status. *)
Lemma accept_wrong_status io id caller w s :
  swapRequests w !! id = Some s → receiverId s = caller → status s ≠ PENDING →
  ∃ r, run (exec (accept io id caller)) w = (w, r) ∧
       outcome (accept io id caller) r = InvalidState.
Proof.
  intros Hs Hc Hst. unfold exec. rewrite put_accept_run.
  simpl. rewrite Hs, bool_decide_eq_true_2, bool_decide_eq_false_2 by done.
  simpl. eexists. split; [done|]. by apply outcome_400.
Qed.

Lemma reject_wrong_status io id caller w s :
  swapRequests w !! id = Some s → receiverId s = caller → status s ≠ PENDING →
  ∃ r, run (exec (reject io id caller)) w = (w, r) ∧
       outcome (reject io id caller) r = InvalidState.
Proof.
  intros Hs Hc Hst. unfold exec. rewrite put_reject_run.
  simpl. rewrite Hs, bool_decide_eq_true_2, bool_decide_eq_false_2 by done.
  simpl. eexists. split; [done|]. by apply outcome_400.
Qed.

Lemma cancel_wrong_status io id caller w s :
  swapRequests w !! id = Some s → senderId s = caller → status s ≠ PENDING →
  ∃ r, run (exec (cancel io id caller)) w = (w, r) ∧
       outcome (cancel io id caller) r = InvalidState.
Proof.
  intros Hs Hc Hst. unfold exec. rewrite put_cancel_run.
  simpl. rewrite Hs, bool_decide_eq_true_2, bool_decide_eq_false_2 by done.
  simpl. eexists. split; [done|]. by apply outcome_400.
Qed.

Lemma complete_wrong_status io id caller w s :
  swapRequests w !! id = Some s →
  senderId s = caller ∨ receiverId s = caller →
  status s ≠ ACCEPTED →
  ∃ r, run (exec (complete io id caller)) w = (w, r) ∧
       outcome (complete io id caller) r = InvalidState.
Proof.
  intros Hs Hc Hst. unfold exec. rewrite put_complete_run.
  simpl. rewrite Hs, (bool_decide_eq_false_2 (status s = ACCEPTED)) by done.
  assert (negb (bool_decide (senderId s = caller)) &&
          negb (bool_decide (receiverId s = caller)) = false) as ->.
  { destruct Hc as [Hc|Hc]; rewrite (bool_decide_eq_true_2 _ Hc); simpl;
      [done|apply andb_false_r]. }
  simpl. eexists. split; [done|]. by apply outcome_400.
Qed.

(** C1. Calls of the five operations run one after the other move the
    status of a swap request along the edges PENDING -> ACCEPTED | REJECTED |
    CANCELLED and ACCEPTED -> COMPLETED only: after any sequence of calls a
    row that existed is still there, in a status reachable along the edges;
    one call leaves the status or follows one edge; a row that a call
    creates is PENDING; and a transition asked for by the right party on a
    row in another status than its source answers InvalidState and leaves
    the world unchanged. *)
Theorem lifecycle_follows_state_machine :
  (∀ ops w id s,
     swapRequests w !! id = Some s →
     ∃ s', swapRequests (run_ops ops w) !! id = Some s' ∧
           rtc edge (status s) (status s')) ∧
  (∀ op w id s,
     swapRequests w !! id = Some s →
     ∃ s', swapRequests (run (exec op) w).1 !! id = Some s' ∧
           (status s' = status s ∨ edge (status s) (status s'))) ∧
  (∀ op w id s',
     swapRequests w !! id = None →
     swapRequests (run (exec op) w).1 !! id = Some s' →
     status s' = PENDING) ∧
  (∀ io id caller w s,
     swapRequests w !! id = Some s → receiverId s = caller →
     status s ≠ PENDING →
     ∃ r, run (exec (accept io id caller)) w = (w, r) ∧
          outcome (accept io id caller) r = InvalidState) ∧
  (∀ io id caller w s,
     swapRequests w !! id = Some s → receiverId s = caller →
     status s ≠ PENDING →
     ∃ r, run (exec (reject io id caller)) w = (w, r) ∧
          outcome (reject io id caller) r = InvalidState) ∧
  (∀ io id caller w s,
     swapRequests w !! id = Some s → senderId s = caller →
     status s ≠ PENDING →
     ∃ r, run (exec (cancel io id caller)) w = (w, r) ∧
          outcome (cancel io id caller) r = InvalidState) ∧
  (∀ io id caller w s,
     swapRequests w !! id = Some s →
     senderId s = caller ∨ receiverId s = caller →
     status s ≠ ACCEPTED →
     ∃ r, run (exec (complete io id caller)) w = (w, r) ∧
          outcome (complete io id caller) r = InvalidState).
Proof.
  split_and!.
  - apply run_ops_reachable.
  - intros op w id s Hs. eapply table_step_lookup; [apply exec_table_step|done].
  - intros op w id s' Hn Hs'.
    eapply table_step_created; [apply (exec_table_step op w)|done..].
  - apply accept_wrong_status.
  - apply reject_wrong_status.
  - apply cancel_wrong_status.
  - apply complete_wrong_status.
Qed.

(** ** Servers that publish *)

Lemma io_up_reliable : reliable (Some io_up).
Proof. by intros io' room e [= <-]. Qed.

Lemma no_io_reliable : reliable None.
Proof. by intros io' room e. Qed.

(** ** C2: accept and reject on the same row *)

Lemma answer_after_reliable t io u ty line ok err w :
  sends t io u ty → reliable io →
  ∃ w', answer_after t line ok err w = (w', Ok ok) ∧
        users w' = users w ∧ swapRequests w' = swapRequests w ∧ now w' = now w.
Proof.
  intros Ht Hio.
  pose proof (sends_reliable t io u ty w Ht Hio) as Hr.
  pose proof (sends_notification_task t io u ty Ht w) as Hf. cbv zeta in Hf.
  unfold answer_after. destruct (run t w) as [w' [[]|e]]; simpl in *; [|done].
  eauto.
Qed.

(** An accepted call: the answer and the new table. *)
Lemma accept_succeeds io id caller w s :
  swapRequests w !! id = Some s → receiverId s = caller → status s = PENDING →
  reliable io →
  ∃ w' r, run (exec (accept io id caller)) w = (w', r) ∧
          outcome (accept io id caller) r = Success ∧
          swapRequests w' = <[id := set_status ACCEPTED (now w) s]> (swapRequests w).
Proof.
  intros Hs Hc Hst Hio. unfold exec. rewrite put_accept_run. simpl.
  rewrite Hs, !bool_decide_eq_true_2 by done. simpl.
  destruct io as [io|]; [|eauto].
  edestruct answer_after_reliable as (w' & -> & _ & Hsw & _);
    [apply sends_accepted|done|].
  eexists _, _. split_and!; [done..|]. by rewrite Hsw.
Qed.

Lemma reject_succeeds io id caller w s :
  swapRequests w !! id = Some s → receiverId s = caller → status s = PENDING →
  reliable io →
  ∃ w' r, run (exec (reject io id caller)) w = (w', r) ∧
          outcome (reject io id caller) r = Success ∧
          swapRequests w' = <[id := set_status REJECTED (now w) s]> (swapRequests w).
Proof.
  intros Hs Hc Hst Hio. unfold exec. rewrite put_reject_run. simpl.
  rewrite Hs, !bool_decide_eq_true_2 by done. simpl.
  destruct io as [io|]; [|eauto].
  edestruct answer_after_reliable as (w' & -> & _ & Hsw & _);
    [apply sends_rejected|done|].
  eexists _, _. split_and!; [done..|]. by rewrite Hsw.
Qed.

(** C2, as stated, fails: accept and reject by Bob on the PENDING row s1,
    with the reject reading the row before the accept has written it.  Both
    calls answer success, and the row ends up REJECTED. *)
Lemma concurrent_accept_reject_both_succeed :
  let a := accept (Some io_up) "s1" "bob" in
  let b := reject (Some io_up) "s1" "bob" in
  let run2 := interleave [true; false] (exec a) (exec b) (example_world PENDING) in
  outcome a run2.2.1 = Success ∧ outcome b run2.2.2 = Success ∧
  ¬ exactly_one_succeeds a b run2.2 ∧
  status <$> swapRequests run2.1 !! "s1" = Some REJECTED.
Proof.
  vm_compute. split_and!; try done. intros [[_ ?]|[? _]]; discriminate.
Qed.

(** C2, amended. Run one after the other, in either order, an accept and a
    reject by the receiver on the same PENDING row give one success (the
    first call) and one InvalidState.  The guard itself is a read followed
    by a write that does not look at the status: [update] overwrites the row
    whatever its status is, and a schedule that lets the second call read
    before the first writes makes both succeed. *)
Theorem serial_accept_reject_exactly_one :
  (∀ io1 io2 id caller w s,
     swapRequests w !! id = Some s → status s = PENDING →
     receiverId s = caller → reliable io1 → reliable io2 →
     let a := accept io1 id caller in
     let b := reject io2 id caller in
     (outcome a (interleave [] (exec a) (exec b) w).2.1 = Success ∧
      outcome b (interleave [] (exec a) (exec b) w).2.2 = InvalidState) ∧
     (outcome b (interleave [] (exec b) (exec a) w).2.1 = Success ∧
      outcome a (interleave [] (exec b) (exec a) w).2.2 = InvalidState)) ∧
  (∀ id f w s,
     swapRequests w !! id = Some s →
     swapRequests (swapRequest_update id f w).1 = <[id := f s]> (swapRequests w)) ∧
  (∃ sched w id caller,
     (status <$> swapRequests w !! id) = Some PENDING ∧
     let a := accept (Some io_up) id caller in
     let b := reject (Some io_up) id caller in
     outcome a (interleave sched (exec a) (exec b) w).2.1 = Success ∧
     outcome b (interleave sched (exec a) (exec b) w).2.2 = Success).
Proof.
  split_and!.
  - intros io1 io2 id caller w s Hs Hst Hc Hio1 Hio2. cbv zeta.
    rewrite !interleave_nil. split.
    + destruct (accept_succeeds io1 id caller w s) as (w1 & r1 & -> & Ho & Hsw);
        [done..|].
      destruct (reject_wrong_status io2 id caller w1
                  (set_status ACCEPTED (now w) s)) as (r2 & Hr2 & Ho2);
        [by rewrite Hsw, lookup_insert_eq|done..|].
      rewrite Hr2. done.
    + destruct (reject_succeeds io2 id caller w s) as (w1 & r1 & -> & Ho & Hsw);
        [done..|].
      destruct (accept_wrong_status io1 id caller w1
                  (set_status REJECTED (now w) s)) as (r2 & Hr2 & Ho2);
        [by rewrite Hsw, lookup_insert_eq|done..|].
      rewrite Hr2. done.
  - intros id f w s Hs. unfold swapRequest_update. by rewrite Hs.
  - exists [true; false], (example_world PENDING), "s1", "bob".
    vm_compute. done.
Qed.

(** ** Submit *)

Lemma validation_errors io sender body :
  req_errors (createSwapValidation (body_request io sender body)) = [] ↔
  valid_body body.
Proof.
  unfold valid_body. destruct body as [rid off rq [m|]]; cbn -[trim];
    repeat case_decide; cbn; intuition (try done; try lia).
Qed.

Lemma submit_run io sender body w :
  let receiver := b_receiverId body in
  let offered := trim (b_skillOffered body) in
  let requested := trim (b_skillRequested body) in
  let s := submitted sender body w in
  let id := fresh (dom (swapRequests w)) in
  let ok := res_json 201 "Swap request created successfully"
              (json_swap (with_relations w id s)) in
  run (exec (submit io sender body)) w =
  if negb (bool_decide (valid_body body))
  then failed 400 "Validation failed" w
  else if decide (sender = receiver)
  then failed 400 "You cannot send a swap request to yourself" w
  else
    match users w !! receiver with
    | None => failed 404 "Receiver not found" w
    | Some u =>
        if negb (isActive u)
        then failed 400 "Cannot send request to inactive user" w
        else if negb (isPublic u)
        then failed 400 "Cannot send request to private profile" w
        else
          match (swapRequest_findFirst
                   (similar_pending sender receiver offered requested) w).2 with
          | Ok None =>
              let w1 := set_swapRequests (<[id := s]> (swapRequests w)) w in
              match io with
              | Some io' =>
                  answer_after
                    (notifySwapRequestReceived (Some io') receiver
                       (user_name w sender) offered requested id)
                    "Create swap error:" ok
                    (next_error (mkApiError 500 "Failed to create swap request"))
                    w1
              | None => (w1, Ok ok)
              end
          | _ =>
              failed 400
                "A similar swap request already exists between you and this user" w
          end
    end.
Proof.
  unfold exec, post_swaps. rewrite post_swaps_handler_run. cbv zeta.
  rewrite (bool_decide_ext _ _ (validation_errors io sender body)).
  unfold submitted. destruct body as [rid off rq m]. cbn -[trim trim_or_null].
  by rewrite !trim_idemp, trim_or_null_trim.
Qed.

(** A template that went through: the row and the two events. *)
Lemma sends_ok t io u ty w w' :
  sends t (Some io) u ty → run t w = (w', Ok ()) →
  users w' = users w ∧ swapRequests w' = swapRequests w ∧ now w' = now w ∧
  console w' = console w ∧
  ∃ n e,
    fresh_unread u ty w n ∧
    notifications w' = <[fresh (dom (notifications w)) := n]> (notifications w) ∧
    is_notification_event (fresh (dom (notifications w))) ty e ∧
    outbox w' = outbox w ++
      [(user_room u, e);
       (user_room u, notificationCount (unread_count u (notifications w')))].
Proof.
  intros (ttl & msg & dat & Ht) Hrun. rewrite Ht in Hrun.
  rewrite createNotification_Some in Hrun. cbv zeta in Hrun.
  destruct (emit_fails io _ (notification_event _ _ _ _ _)); [done|].
  destruct (emit_fails io _ (count_event _ _)); [done|].
  injection Hrun as <-. simpl. split_and!; try done.
  exists (new_notification u ty ttl msg dat w), (notification_event ty ttl msg dat w).
  split_and!; try done.
  - unfold is_notification_event, notification_event. by eexists _, _, _, _.
  - by rewrite <- app_assoc.
Qed.

Ltac destruct_findFirst Hf :=
  match goal with
  | |- context [(swapRequest_findFirst ?P ?w).2] =>
      destruct (swapRequest_findFirst P w).2 as [[?|]|] eqn:Hf
  | H : context [(swapRequest_findFirst ?P ?w).2] |- _ =>
      destruct (swapRequest_findFirst P w).2 as [[?|]|] eqn:Hf
  end.

Lemma submit_rejected io sender body w :
  sender = b_receiverId body ∨
  (∃ u, users w !! b_receiverId body = Some u ∧
        (isActive u = false ∨ isPublic u = false ∨
         ∃ id s, swapRequests w !! id = Some s ∧
                 similar_pending sender (b_receiverId body)
                   (trim (b_skillOffered body)) (trim (b_skillRequested body)) s)) →
  ∃ msg, run (exec (submit io sender body)) w = failed 400 msg w.
Proof.
  intros Hcase. rewrite submit_run. cbv zeta.
  destruct (negb (bool_decide (valid_body body))); [eauto|].
  destruct (decide (sender = b_receiverId body)) as [|Hne]; [eauto|].
  destruct Hcase as [?|(u & -> & Hcase)]; [done|].
  destruct (isActive u); cbn [negb]; [|eauto].
  destruct (isPublic u); cbn [negb]; [|eauto].
  destruct Hcase as [?|[?|(id & s & Hs & Hsim)]]; [done..|].
  destruct_findFirst Hf; [eauto| |eauto].
  exfalso. by eapply findFirst_None.
Qed.

Lemma submit_400 io sender body msg :
  outcome (submit io sender body) (Ok (next_error (mkApiError 400 msg)))
  = InvalidArgument.
Proof. done. Qed.

(** What a successful submit has done. *)
Lemma submit_success_inv io sender body w w' r :
  run (exec (submit io sender body)) w = (w', r) →
  outcome (submit io sender body) r = Success →
  let id := fresh (dom (swapRequests w)) in
  let s := submitted sender body w in
  valid_body body ∧ sender ≠ b_receiverId body ∧
  r = Ok (res_json 201 "Swap request created successfully"
            (json_swap (with_relations w id s))) ∧
  users w' = users w ∧ now w' = now w ∧ console w' = console w ∧
  swapRequests w' = <[id := s]> (swapRequests w) ∧
  match io with
  | Some io' =>
      ∃ n e,
        fresh_unread (b_receiverId body) SWAP_REQUEST_RECEIVED w n ∧
        notifications w' =
          <[fresh (dom (notifications w)) := n]> (notifications w) ∧
        is_notification_event (fresh (dom (notifications w)))
          SWAP_REQUEST_RECEIVED e ∧
        outbox w' = outbox w ++
          [(user_room (b_receiverId body), e);
           (user_room (b_receiverId body),
            notificationCount
              (unread_count (b_receiverId body) (notifications w')))]
  | None => notifications w' = notifications w ∧ outbox w' = outbox w
  end.
Proof.
  intros Hrun Hout. rewrite submit_run in Hrun. cbv zeta in Hrun.
  destruct (bool_decide (valid_body body)) eqn:Hv; cbn [negb] in Hrun;
    [apply bool_decide_eq_true in Hv|by injection Hrun as <- <-].
  destruct (decide (sender = b_receiverId body)) as [|Hne];
    [by injection Hrun as <- <-|].
  destruct (users w !! b_receiverId body) as [u|]; [|by injection Hrun as <- <-].
  destruct (isActive u); cbn [negb] in Hrun; [|by injection Hrun as <- <-].
  destruct (isPublic u); cbn [negb] in Hrun; [|by injection Hrun as <- <-].
  destruct_findFirst Hf;
    [by injection Hrun as <- <-| |by injection Hrun as <- <-].
  cbv zeta. destruct io as [io|].
  - match type of Hrun with answer_after ?t ?l ?ok ?err ?w1 = _ =>
      pose proof (answer_after_cases t l ok err w1) as Hc end.
    rewrite Hrun in Hc. destruct Hc as [[-> Ht]|[-> _]]; [|done].
    eapply sends_ok in Ht; [|apply sends_received].
    destruct Ht as (Hu & Hsw & Hnow & Hcon & n & e & Hn & Hnot & He & Hob).
    split_and!; try done. exists n, e. done.
  - injection Hrun as <- <-. done.
Qed.

(** With every guard passed and a working server, submit succeeds. *)
Lemma submit_succeeds io sender body w u :
  valid_body body → sender ≠ b_receiverId body →
  users w !! b_receiverId body = Some u → isActive u = true → isPublic u = true →
  (∀ id s, swapRequests w !! id = Some s →
           ¬ similar_pending sender (b_receiverId body)
               (trim (b_skillOffered body)) (trim (b_skillRequested body)) s) →
  reliable io →
  outcome (submit io sender body) (run (exec (submit io sender body)) w).2
  = Success.
Proof.
  intros Hv Hne Hu Ha Hp Hnone Hio. rewrite submit_run. cbv zeta.
  rewrite bool_decide_eq_true_2, decide_False, Hu, Ha, Hp by done. cbn [negb].
  rewrite (proj2 (findFirst_None _ w) Hnone).
  destruct io as [io|]; [|done].
  edestruct answer_after_reliable as (w' & -> & _);
    [apply sends_received|done|done].
Qed.

Lemma submit_rejected_answers io sender body w :
  sender = b_receiverId body ∨
  (∃ u, users w !! b_receiverId body = Some u ∧
        (isActive u = false ∨ isPublic u = false ∨
         ∃ id s, swapRequests w !! id = Some s ∧
                 similar_pending sender (b_receiverId body)
                   (trim (b_skillOffered body)) (trim (b_skillRequested body)) s)) →
  answers (submit io sender body) w InvalidArgument w.
Proof.
  intros Hcase. destruct (submit_rejected io sender body w Hcase) as [msg Hr].
  unfold answers. by rewrite Hr.
Qed.

Lemma submit_success_no_similar io sender body w id s :
  outcome (submit io sender body) (run (exec (submit io sender body)) w).2
    = Success →
  swapRequests w !! id = Some s →
  ¬ similar_pending sender (b_receiverId body)
      (trim (b_skillOffered body)) (trim (b_skillRequested body)) s.
Proof.
  rewrite submit_run. cbv zeta. intros Hout Hs.
  destruct (negb (bool_decide (valid_body body))); [done|].
  destruct (decide (sender = b_receiverId body)); [done|].
  destruct (users w !! b_receiverId body) as [u|]; [|done].
  destruct (negb (isActive u)); [done|].
  destruct (negb (isPublic u)); [done|].
  destruct_findFirst Hf; [done| |done].
  by eapply findFirst_None.
Qed.

(** C3. submit answers InvalidArgument, and changes nothing, when the sender
    is the receiver, when the receiver is inactive or private, and when a
    PENDING request between the two parties already has the same pair of
    skill labels in either direction; in particular submit(A,B,s1,s2)
    followed by submit(B,A,s2,s1) is refused.  A successful submit has stored
    one new PENDING row, answers with it, and (the server being attached to
    the request) has stored and published one SWAP_REQUEST_RECEIVED
    notification for the receiver.  Success is what happens when no guard
    applies and the publishing goes through. *)
Theorem submit_contract :
  (∀ io sender body w,
     sender = b_receiverId body →
     answers (submit io sender body) w InvalidArgument w) ∧
  (∀ io sender body w u,
     users w !! b_receiverId body = Some u →
     isActive u = false ∨ isPublic u = false →
     answers (submit io sender body) w InvalidArgument w) ∧
  (∀ io sender body w u id s,
     users w !! b_receiverId body = Some u →
     swapRequests w !! id = Some s → status s = PENDING →
     (senderId s = sender ∧ receiverId s = b_receiverId body ∧
      skillOffered s = trim (b_skillOffered body) ∧
      skillRequested s = trim (b_skillRequested body)) ∨
     (senderId s = b_receiverId body ∧ receiverId s = sender ∧
      skillOffered s = trim (b_skillRequested body) ∧
      skillRequested s = trim (b_skillOffered body)) →
     answers (submit io sender body) w InvalidArgument w) ∧
  (∀ io1 io2 a b s1 s2 m1 m2 w,
     is_Some (users w !! a) →
     let first := submit io1 a (mkSwapBody b s1 s2 m1) in
     let second := submit io2 b (mkSwapBody a s2 s1 m2) in
     outcome first (run (exec first) w).2 = Success →
     answers second (run (exec first) w).1 InvalidArgument
       (run (exec first) w).1) ∧
  (∀ io sender body w w' r,
     run (exec (submit io sender body)) w = (w', r) →
     outcome (submit io sender body) r = Success →
     ∃ id s,
       swapRequests w !! id = None ∧
       swapRequests w' = <[id := s]> (swapRequests w) ∧
       status s = PENDING ∧ senderId s = sender ∧
       receiverId s = b_receiverId body ∧
       skillOffered s = trim (b_skillOffered body) ∧
       skillRequested s = trim (b_skillRequested body) ∧
       (∃ code msg,
          r = Ok (res_json code msg (json_swap (with_relations w id s)))) ∧
       ∀ io', io = Some io' →
         ∃ nid n e,
           notifications w !! nid = None ∧
           notifications w' = <[nid := n]> (notifications w) ∧
           fresh_unread (b_receiverId body) SWAP_REQUEST_RECEIVED w n ∧
           is_notification_event nid SWAP_REQUEST_RECEIVED e ∧
           outbox w' = outbox w ++
             [(user_room (b_receiverId body), e);
              (user_room (b_receiverId body),
               notificationCount
                 (unread_count (b_receiverId body) (notifications w')))]) ∧
  (∀ io sender body w u,
     valid_body body → sender ≠ b_receiverId body →
     users w !! b_receiverId body = Some u →
     isActive u = true → isPublic u = true →
     (∀ id s, swapRequests w !! id = Some s →
              ¬ similar_pending sender (b_receiverId body)
                  (trim (b_skillOffered body)) (trim (b_skillRequested body)) s) →
     reliable io →
     outcome (submit io sender body) (run (exec (submit io sender body)) w).2
     = Success).
Proof.
  split_and!.
  - intros. apply submit_rejected_answers. by left.
  - intros io sender body w u Hu Hcase. apply submit_rejected_answers.
    right. exists u. split; [done|]. destruct Hcase; eauto.
  - intros io sender body w u id s Hu Hs Hst Hsim.
    apply submit_rejected_answers. right. exists u. split; [done|].
    right; right. exists id, s. split; [done|].
    unfold similar_pending.
    destruct Hsim as [(? & ? & ? & ?)|(? & ? & ? & ?)]; [left|right]; done.
  - intros io1 io2 a b s1 s2 m1 m2 w [ua Hua] first second Hout.
    destruct (run (exec first) w) as [w1 r1] eqn:Hrun. simpl in *.
    destruct (submit_success_inv _ _ _ _ _ _ Hrun Hout)
      as (_ & _ & _ & Husers & _ & _ & Hsw & _).
    apply submit_rejected_answers. right. exists ua. simpl.
    split; [by rewrite Husers|]. right; right.
    eexists _, _. split; [rewrite Hsw; apply lookup_insert_eq|].
    right. done.
  - intros io sender body w w' r Hrun Hout.
    destruct (submit_success_inv _ _ _ _ _ _ Hrun Hout)
      as (_ & _ & -> & _ & _ & _ & Hsw & Hio).
    eexists _, _. split; [apply fresh_swap_key|].
    split; [apply Hsw|]. split_and!; try done; [eauto|].
    intros io' ->. destruct Hio as (n & e & ? & ? & ? & ?).
    eexists _, n, e. split; [apply fresh_notification_key|done].
  - intros. by eapply submit_succeeds.
Qed.

(** C8. submit with a receiver id that no user has answers NotFound.  The
    check comes after the check that sender and receiver differ (a sender
    naming themselves gets InvalidArgument, known or not) and before the
    checks on the receiver's profile and on similar requests (which rows the
    swap table holds makes no difference).  The body is one that passes the
    validation chain of the route. *)
Theorem submit_unknown_receiver :
  (∀ io sender body w,
     valid_body body → sender ≠ b_receiverId body →
     users w !! b_receiverId body = None →
     run (exec (submit io sender body)) w = failed 404 "Receiver not found" w ∧
     answers (submit io sender body) w NotFound w) ∧
  (∀ io sender body w,
     sender = b_receiverId body →
     users w !! b_receiverId body = None →
     answers (submit io sender body) w InvalidArgument w) ∧
  (∀ io sender body w id s,
     valid_body body → sender ≠ b_receiverId body →
     users w !! b_receiverId body = None →
     swapRequests w !! id = Some s →
     similar_pending sender (b_receiverId body)
       (trim (b_skillOffered body)) (trim (b_skillRequested body)) s →
     answers (submit io sender body) w NotFound w).
Proof.
  assert (Hnf : ∀ io sender body w,
     valid_body body → sender ≠ b_receiverId body →
     users w !! b_receiverId body = None →
     run (exec (submit io sender body)) w = failed 404 "Receiver not found" w).
  { intros io sender body w Hv Hne Hu. rewrite submit_run. cbv zeta.
    by rewrite bool_decide_eq_true_2, decide_False, Hu by done. }
  split_and!.
  - intros io sender body w Hv Hne Hu. split; [by apply Hnf|].
    unfold answers. by rewrite Hnf.
  - intros. apply submit_rejected_answers. by left.
  - intros io sender body w id s Hv Hne Hu _ _.
    unfold answers. by rewrite Hnf.
Qed.

(** ** C9: trimming and the duplicate check *)

Lemma submit_similar_refused io sender body w id s :
  swapRequests w !! id = Some s →
  similar_pending sender (b_receiverId body)
    (trim (b_skillOffered body)) (trim (b_skillRequested body)) s →
  (run (exec (submit io sender body)) w).1 = w ∧
  outcome (submit io sender body) (run (exec (submit io sender body)) w).2
    ≠ Success ∧
  (is_Some (users w !! b_receiverId body) →
   outcome (submit io sender body) (run (exec (submit io sender body)) w).2
     = InvalidArgument).
Proof.
  intros Hs Hsim. rewrite submit_run. cbv zeta.
  destruct (negb (bool_decide (valid_body body))); [done|].
  destruct (decide (sender = b_receiverId body)); [done|].
  destruct (users w !! b_receiverId body) as [u|].
  2: { split_and!; [done..|]. by intros [? ?]. }
  destruct (negb (isActive u)); [done|].
  destruct (negb (isPublic u)); [done|].
  destruct_findFirst Hf; [done| |done].
  exfalso. by eapply findFirst_None.
Qed.

(** C9, as stated, fails: the validation chain of the route has trimmed the
    labels in the request before the handler compares them.  Alice asking
    Bob again for Excel against Guitar, with blanks around the labels, is
    refused as a duplicate; and no submit at all is accepted next to a
    PENDING request with the same trimmed labels. *)
Lemma whitespace_variant_is_refused :
  run (exec (submit (Some io_up) "alice"
               (mkSwapBody "bob" "  Guitar " "Excel  " None)))
      (example_world PENDING)
  = failed 400 "A similar swap request already exists between you and this user"
      (example_world PENDING) ∧
  ¬ whitespace_duplicate_accepted.
Proof.
  split; [by vm_compute|].
  intros (io & sender & body & w & id & s & Hs & Hst & Hse & Hre & Ho & Hr & Hout).
  destruct (submit_similar_refused io sender body w id s Hs) as (_ & Hno & _);
    [|done].
  left. done.
Qed.

(** C9, amended. submit stores the trimmed labels and the trimmed message
    (no message, or one that is blank, is stored as null).  The labels that
    the duplicate check compares with the stored rows are the trimmed ones
    too: a submit whose labels are, up to surrounding white space, those of a
    PENDING request between the two parties (in either direction) creates
    nothing and is refused, with InvalidArgument when the receiver exists.
    The trimming before the check is the validation chain's: the handler
    compares the labels of the request as it finds them, and run on a
    request that nothing has sanitised it stores a second row with the same
    labels. *)
Theorem submit_trims_before_duplicate_check :
  (∀ io sender body w w' r,
     run (exec (submit io sender body)) w = (w', r) →
     outcome (submit io sender body) r = Success →
     ∃ id s,
       swapRequests w !! id = None ∧
       swapRequests w' = <[id := s]> (swapRequests w) ∧
       skillOffered s = trim (b_skillOffered body) ∧
       skillRequested s = trim (b_skillRequested body) ∧
       message s = trim_or_null (b_message body)) ∧
  (trim_or_null None = None ∧
   ∀ m, trim_or_null (Some m) = if decide (trim m = "") then None
                                else Some (trim m)) ∧
  (∀ io sender body w id s,
     swapRequests w !! id = Some s →
     similar_pending sender (b_receiverId body)
       (trim (b_skillOffered body)) (trim (b_skillRequested body)) s →
     (run (exec (submit io sender body)) w).1 = w ∧
     outcome (submit io sender body) (run (exec (submit io sender body)) w).2
       ≠ Success ∧
     (is_Some (users w !! b_receiverId body) →
      outcome (submit io sender body) (run (exec (submit io sender body)) w).2
        = InvalidArgument)) ∧
  (∃ req w id1 id2 s1 s2,
     createSwapValidation req ≠ req ∧
     swapRequests w !! id1 = Some s1 ∧ swapRequests w !! id2 = None ∧
     swapRequests (run (post_swaps_handler req) w).1 !! id1 = Some s1 ∧
     swapRequests (run (post_swaps_handler req) w).1 !! id2 = Some s2 ∧
     status s1 = PENDING ∧ status s2 = PENDING ∧
     senderId s2 = senderId s1 ∧ receiverId s2 = receiverId s1 ∧
     skillOffered s2 = skillOffered s1 ∧ skillRequested s2 = skillRequested s1).
Proof.
  split_and!.
  - intros io sender body w w' r Hrun Hout.
    destruct (submit_success_inv _ _ _ _ _ _ Hrun Hout)
      as (_ & _ & _ & _ & _ & _ & Hsw & _).
    eexists _, _. split; [apply fresh_swap_key|]. split; [apply Hsw|]. done.
  - done.
  - done.
  - apply submit_similar_refused.
  - exists (mkRequest "alice" (Some io_up) ""
              (mkSwapBody "bob" "  Guitar " "Excel  " None) []),
      (example_world PENDING), "s1", "0".
    eexists _, _. vm_compute. split_and!; try done.
Qed.

(** ** C4: complete *)

Lemma seq_ok (t1 t2 : Async unit) (w w' : World) :
  run (t1 ;; t2) w = (w', Ok ()) →
  ∃ w1, run t1 w = (w1, Ok ()) ∧ run t2 w1 = (w', Ok ()).
Proof.
  rewrite run_bind. destruct (run t1 w) as [w1 [[]|e]]; [eauto|done].
Qed.

Lemma fresh_unread_count u ty w n v m :
  fresh_unread u ty w n → m !! fresh (dom m) = None →
  unread_count v (<[fresh (dom m) := n]> m) =
  if decide (u = v) then S (unread_count v m) else unread_count v m.
Proof.
  intros (Hu & _ & Hr & _) Hk. rewrite unread_count_insert_new by done.
  destruct (decide (u = v)) as [->|Hne].
  - by rewrite decide_True.
  - rewrite decide_False; [done|]. intros [? _]. congruence.
Qed.

Lemma complete_success_inv io id caller w s w' r :
  swapRequests w !! id = Some s →
  run (exec (complete (Some io) id caller)) w = (w', r) →
  outcome (complete (Some io) id caller) r = Success →
  (senderId s = caller ∨ receiverId s = caller) ∧ status s = ACCEPTED ∧
  users w' = users w ∧ now w' = now w ∧ console w' = console w ∧
  swapRequests w' = <[id := set_completed (now w) s]> (swapRequests w) ∧
  ∃ n1 n2,
    let k1 := fresh (dom (notifications w)) in
    let m1 := <[k1 := n1]> (notifications w) in
    fresh_unread (senderId s) SWAP_COMPLETED w n1 ∧
    fresh_unread (receiverId s) SWAP_COMPLETED w n2 ∧
    notifications w' = <[fresh (dom m1) := n2]> m1.
Proof.
  intros Hs Hrun Hout. unfold exec in Hrun. rewrite put_complete_run in Hrun.
  cbn in Hrun. rewrite Hs in Hrun.
  destruct (negb (bool_decide (senderId s = caller)) &&
            negb (bool_decide (receiverId s = caller))) eqn:Hrole;
    [by injection Hrun as <- <-|].
  destruct (bool_decide (status s = ACCEPTED)) eqn:Hst; cbn in Hrun;
    [|by injection Hrun as <- <-].
  apply bool_decide_eq_true in Hst.
  match type of Hrun with answer_after ?t ?l ?ok ?err ?w1 = _ =>
    pose proof (answer_after_cases t l ok err w1) as Hc end.
  rewrite Hrun in Hc. destruct Hc as [[-> Ht]|[-> _]]; [|done].
  apply seq_ok in Ht as (w2 & Ht1 & Ht2).
  eapply sends_ok in Ht1; [|apply sends_completed].
  eapply sends_ok in Ht2; [|apply sends_completed].
  destruct Ht1 as (Hu1 & Hsw1 & Hnow1 & Hcon1 & n1 & e1 & Hn1 & Hnot1 & _).
  destruct Ht2 as (Hu2 & Hsw2 & Hnow2 & Hcon2 & n2 & e2 & Hn2 & Hnot2 & _).
  simpl in *. split_and!.
  - apply andb_false_iff in Hrole as [H|H]; [left|right];
      by apply bool_decide_negb_false in H.
  - done.
  - congruence.
  - congruence.
  - congruence.
  - congruence.
  - exists n1, n2. cbv zeta. split_and!.
    + done.
    + destruct Hn2 as (? & ? & ? & ? & Ht). split_and!; try done. congruence.
    + by rewrite Hnot2, Hnot1.
Qed.

(** C4. A complete that succeeds was asked for by the sender or the receiver
    of an ACCEPTED request; it has set the status to COMPLETED and the
    completion time, and (the server being attached to the request) it has
    stored two new unread SWAP_COMPLETED notifications, one for the sender
    and one for the receiver, so that the unread count of each has grown by
    exactly one.  A caller who is neither party gets Forbidden, and an
    ACCEPTED request completed by a party over a working server succeeds. *)
Theorem complete_contract :
  (∀ io id caller w s w' r,
     swapRequests w !! id = Some s → senderId s ≠ receiverId s →
     run (exec (complete (Some io) id caller)) w = (w', r) →
     outcome (complete (Some io) id caller) r = Success →
     (senderId s = caller ∨ receiverId s = caller) ∧ status s = ACCEPTED ∧
     (∃ s', swapRequests w' = <[id := s']> (swapRequests w) ∧
            status s' = COMPLETED ∧ completedAt s' = Some (now w) ∧
            senderId s' = senderId s ∧ receiverId s' = receiverId s) ∧
     (∃ k1 n1 k2 n2,
        k1 ≠ k2 ∧ notifications w !! k1 = None ∧ notifications w !! k2 = None ∧
        notifications w' = <[k2 := n2]> (<[k1 := n1]> (notifications w)) ∧
        fresh_unread (senderId s) SWAP_COMPLETED w n1 ∧
        fresh_unread (receiverId s) SWAP_COMPLETED w n2) ∧
     unread_count (senderId s) (notifications w') =
       S (unread_count (senderId s) (notifications w)) ∧
     unread_count (receiverId s) (notifications w') =
       S (unread_count (receiverId s) (notifications w))) ∧
  (∀ io id caller w s,
     swapRequests w !! id = Some s →
     senderId s ≠ caller → receiverId s ≠ caller →
     answers (complete io id caller) w Forbidden w) ∧
  (∀ io id caller w s,
     swapRequests w !! id = Some s → status s = ACCEPTED →
     senderId s = caller ∨ receiverId s = caller → reliable io →
     outcome (complete io id caller) (run (exec (complete io id caller)) w).2
     = Success).
Proof.
  split_and!.
  - intros io id caller w s w' r Hs Hne Hrun Hout.
    destruct (complete_success_inv _ _ _ _ _ _ _ Hs Hrun Hout)
      as (Hrole & Hst & _ & _ & _ & Hsw & n1 & n2 & Hn1 & Hn2 & Hnot).
    cbv zeta in Hnot.
    set (k1 := fresh (dom (notifications w))) in *.
    set (m1 := <[k1 := n1]> (notifications w)) in *.
    assert (Hk1 : notifications w !! k1 = None) by apply fresh_notification_key.
    assert (Hk2 : m1 !! fresh (dom m1) = None) by apply fresh_notification_key.
    split_and!; try done.
    + eexists. split; [apply Hsw|done].
    + exists k1, n1, (fresh (dom m1)), n2. split_and!; try done.
      * intros Heq. rewrite <- Heq in Hk2. unfold m1 in Hk2.
        by rewrite lookup_insert_eq in Hk2.
      * unfold m1 in Hk2. apply lookup_insert_None in Hk2 as [? _]. done.
    + rewrite Hnot.
      rewrite (fresh_unread_count _ _ _ _ _ _ Hn2 Hk2).
      rewrite decide_False by congruence. unfold m1, k1.
      rewrite (fresh_unread_count _ _ _ _ _ _ Hn1 Hk1).
      by rewrite decide_True.
    + rewrite Hnot.
      rewrite (fresh_unread_count _ _ _ _ _ _ Hn2 Hk2).
      rewrite decide_True by done. unfold m1, k1.
      rewrite (fresh_unread_count _ _ _ _ _ _ Hn1 Hk1).
      by rewrite decide_False.
  - intros io id caller w s Hs H1 H2. unfold answers, exec.
    rewrite put_complete_run. cbn.
    rewrite Hs, !bool_decide_eq_false_2 by done. by cbn.
  - intros io id caller w s Hs Hst Hrole Hio. unfold exec.
    rewrite put_complete_run. cbn.
    rewrite Hs, (bool_decide_eq_true_2 _ Hst).
    assert (negb (bool_decide (senderId s = caller)) &&
            negb (bool_decide (receiverId s = caller)) = false) as ->.
    { destruct Hrole as [Hc|Hc]; rewrite (bool_decide_eq_true_2 _ Hc); simpl;
        [done|apply andb_false_r]. }
    cbn. destruct io as [io|]; [|done].
    unfold answer_after. rewrite run_bind.
    match goal with |- context [run ?t ?w1] =>
      pose proof (sends_reliable t _ _ _ w1 (sends_completed _ _ _ _ _ _) Hio)
        as Hr1; destruct (run t w1) as [w2 r1] end.
    simpl in Hr1. subst r1.
    match goal with |- context [run ?t ?w1] =>
      pose proof (sends_reliable t _ _ _ w1 (sends_completed _ _ _ _ _ _) Hio)
        as Hr2; destruct (run t w1) as [w3 r2] end.
    simpl in Hr2. by subst r2.
Qed.

(** ** C5: a publish that fails *)

Lemma sends_notifier t io u ty : sends t io u ty → notifier t io.
Proof.
  intros Ht w. cbv zeta.
  destruct (sends_store t io u ty w Ht) as (Hu & Hs & Hn & n & Hfr & Hnot).
  pose proof (sends_result t io u ty w Ht) as Hr.
  destruct (run t w) as [w' r]. simpl in *.
  pose proof (fresh_notification_key (notifications w)) as Hk.
  split_and!; try done.
  - rewrite Hnot. by apply insert_subseteq.
  - exists (fresh (dom (notifications w))), n. rewrite Hnot, lookup_insert_eq.
    destruct Hfr as (_ & _ & ? & _). done.
  - destruct Hr as [?|(? & ? & io' & e & ? & ?)]; [by left|right].
    split_and!; try done. by exists io', u, e.
Qed.

Lemma seq_notifier t1 t2 io :
  notifier t1 io → notifier t2 io → notifier (t1 ;; t2) io.
Proof.
  intros H1 H2 w. cbv zeta. rewrite run_bind.
  specialize (H1 w). cbv zeta in H1.
  destruct (run t1 w) as [w1 [[]|e]]; simpl in *; [|done].
  specialize (H2 w1). cbv zeta in H2.
  destruct (run t2 w1) as [w2 r2]; simpl in *.
  destruct H1 as (Hu1 & Hs1 & Hn1 & Hsub1 & (k & n & Hk & Hkn & Hread) & Hr1).
  destruct H2 as (Hu2 & Hs2 & Hn2 & Hsub2 & _ & Hr2).
  destruct Hr1 as [[_ Hc1]|[? _]]; [|done].
  split_and!; try congruence.
  - by etrans.
  - exists k, n. split_and!; try done.
    by eapply lookup_weaken.
Qed.

#[local] Hint Resolve sends_notifier seq_notifier : notify.








(** ** C6 and C7: reading notifications *)

Lemma markAsRead_run io id u w :
  run (markAsRead io id u) w =
  match notifications w !! id with
  | Some n =>
      if decide (userId n = u) then
        let w1 := set_notifications
                    (<[id := set_read (now w) n]> (notifications w)) w in
        match io with
        | Some io' =>
            if emit_fails io' (user_room u) (count_event u w1)
            then (w1, Throw EmitError)
            else (set_outbox (outbox w ++ [(user_room u, count_event u w1)]) w1,
                  Ok (id, set_read (now w) n))
        | None => (w1, Ok (id, set_read (now w) n))
        end
      else (w, Throw P2025)
  | None => (w, Throw P2025)
  end.
Proof.
  unfold markAsRead, at_now, notification_update, count_event. cbn.
  destruct (notifications w !! id) as [n|]; cbn; [|done].
  destruct (decide (userId n = u)); cbn; [|done].
  destruct io as [io|]; cbn; [|done].
  by destruct (emit_fails io _ _).
Qed.

Lemma put_read_run isUUID io id u w :
  run (put_read isUUID (id_request io id u)) w =
  if isUUID id then
    match run (markAsRead io id u) w with
    | (w', Ok (id', n)) =>
        (w', Ok (res_json 200 "Notification marked as read"
                   (json_notification id' n)))
    | (w', Throw e) =>
        (set_console (console w' ++ ["Mark notification as read error:"]) w',
         Ok (next_error
               (if decide (error_code e = Some "P2025")
                then mkApiError 404 "Notification not found"
                else mkApiError 500 "Failed to mark notification as read")))
    end
  else failed 400 "Validation failed" w.
Proof.
  unfold put_read, put_read_handler, readValidation, id_request, failed.
  cbn [req_errors req_id req_io req_user req_body app].
  destruct (isUUID id); cbn [bool_decide negb]; [|done].
  rewrite (bool_decide_eq_true_2 ([] = [])) by done. cbn [negb].
  rewrite run_try_catch, run_bind.
  destruct (run (markAsRead io id u) w) as [w' [[id' n]|e]]; cbn; [done|].
  by destruct (decide (error_code e = Some "P2025")).
Qed.

Lemma markAllAsRead_run io u w :
  run (markAllAsRead io u) w =
  let w1 := set_notifications
              ((λ n, if decide (unread_of u n) then set_read (now w) n else n)
                 <$> notifications w) w in
  match io with
  | Some io' =>
      if emit_fails io' (user_room u) (notificationCount 0)
      then (w1, Throw EmitError)
      else (set_outbox (outbox w ++ [(user_room u, notificationCount 0)]) w1,
            Ok ())
  | None => (w1, Ok ())
  end.
Proof.
  unfold markAllAsRead, at_now, notification_updateMany_unread. cbn.
  destruct io as [io|]; cbn; [|done].
  by destruct (emit_fails io _ _).
Qed.

Lemma updateMany_none_unread u t (m : gmap string Notification) :
  unread_count u
    ((λ n, if decide (unread_of u n) then set_read t n else n) <$> m) = 0.
Proof.
  apply unread_count_zero_iff. intros id n. rewrite lookup_fmap.
  destruct (m !! id) as [n0|]; simpl; [|done].
  intros [= <-]. destruct (decide (unread_of u n0)) as [Hn|Hn]; [|done].
  unfold unread_of. simpl. by intros [_ ?].
Qed.

(** C6. markRead fails with NotFound exactly when the user owns no
    notification with that id: the service throws the store's P2025, which
    the route (for an id that passes its validation) answers with 404.
    Otherwise the row gets the read flag and the read time, other rows are
    left alone, and, the publish going through, the user's room receives the
    unread count as the store has it after the update. *)
Theorem markRead_contract (isUUID : string → bool) (io : option Io)
    (id u : string) (w : World) :
  ((run (markAsRead io id u) w).2 = Throw P2025 ↔ ¬ owns w u id) ∧
  (isUUID id = true →
   (answer_code (run (put_read isUUID (id_request io id u)) w).2 = Some 404%N
    ↔ ¬ owns w u id)) ∧
  (∀ n, notifications w !! id = Some n → userId n = u →
        let w' := (run (markAsRead io id u) w).1 in
        notifications w' = <[id := set_read (now w) n]> (notifications w) ∧
        isRead (set_read (now w) n) = true ∧
        readAt (set_read (now w) n) = Some (now w) ∧
        ∀ io', io = Some io' →
          emit_fails io' (user_room u)
            (notificationCount (unread_count u (notifications w'))) = false →
          (run (markAsRead io id u) w).2 = Ok (id, set_read (now w) n) ∧
          outbox w' = outbox w ++
            [(user_room u,
              notificationCount (unread_count u (notifications w')))] ∧
          (isUUID id = true →
           answer_code (run (put_read isUUID (id_request io id u)) w).2
           = Some 200%N)).
Proof.
  assert (Hsvc : (run (markAsRead io id u) w).2 = Throw P2025 ↔ ¬ owns w u id).
  { rewrite markAsRead_run. unfold owns.
    destruct (notifications w !! id) as [n|] eqn:Hn.
    - destruct (decide (userId n = u)) as [Hu|Hu].
      + split; [|intros Hno; destruct Hno; eauto].
        cbv zeta. destruct io as [io|]; [|done].
        by destruct (emit_fails io _ _).
      + split; [|done]. intros _ (n' & [= <-] & ?). done.
    - split; [|done]. intros _ (n' & ? & _). done. }
  split_and!.
  - done.
  - intros Hid. rewrite <- Hsvc. rewrite put_read_run, Hid.
    destruct (run (markAsRead io id u) w) as [w' [[id' n]|e]] eqn:Hrun; simpl.
    + split; done.
    + destruct e as [code|]; simpl.
      * unfold P2025. destruct (decide (Some code = Some "P2025")) as [[= ->]|Hne].
        -- done.
        -- simpl. split; [done|]. intros [= ->]. done.
      * split; done.
  - intros n Hn Hu. cbv zeta.
    assert (Hnot : notifications (run (markAsRead io id u) w).1 =
                   <[id := set_read (now w) n]> (notifications w)).
    { rewrite markAsRead_run, Hn, decide_True by done. cbv zeta.
      destruct io as [io|]; [|done]. by destruct (emit_fails io _ _). }
    split_and!; [done..|].
    intros io' -> Hemit. rewrite Hnot in Hemit |- *.
    rewrite put_read_run, markAsRead_run, Hn, decide_True by done.
    cbv zeta. unfold count_event. cbn [notifications set_notifications].
    rewrite Hemit. split_and!; try done. by intros ->.
Qed.

(** C7. After markAllRead the user has no unread notification, whatever the
    server does; the rows of other users are left alone; the publish going
    through, the user's room receives the count zero.  A notification
    emitted to the user afterwards is stored unread, and the user's unread
    count is then one. *)
Theorem markAllRead_contract (io : option Io) (u : string) (w : World) :
  let w1 := (run (markAllAsRead io u) w).1 in
  unread_count u (notifications w1) = 0 ∧
  (∀ k n, notifications w !! k = Some n → userId n ≠ u →
          notifications w1 !! k = Some n) ∧
  (∀ io', io = Some io' →
     emit_fails io' (user_room u) (notificationCount 0) = false →
     (run (markAllAsRead io u) w).2 = Ok () ∧
     outbox w1 = outbox w ++ [(user_room u, notificationCount 0)] ∧
     answer_code (run (put_mark_all_read (id_request io "" u)) w).2
     = Some 200%N) ∧
  (∀ io2 ty ttl msg dat,
     let w2 := (run (createNotification io2 u ty ttl msg dat true) w1).1 in
     ∃ k n, notifications w1 !! k = None ∧
            notifications w2 = <[k := n]> (notifications w1) ∧
            userId n = u ∧ isRead n = false ∧
            unread_count u (notifications w2) = 1).
Proof.
  cbv zeta. rewrite markAllAsRead_run. cbv zeta.
  assert (Hnot : ∀ r0 : World * Result unit,
    r0 = match io with
         | Some io' =>
             if emit_fails io' (user_room u) (notificationCount 0)
             then (set_notifications
                     ((λ n, if decide (unread_of u n) then set_read (now w) n
                            else n) <$> notifications w) w, Throw EmitError)
             else (set_outbox (outbox w ++ [(user_room u, notificationCount 0)])
                     (set_notifications
                        ((λ n, if decide (unread_of u n)
                               then set_read (now w) n else n)
                           <$> notifications w) w), Ok ())
         | None => (set_notifications
                      ((λ n, if decide (unread_of u n) then set_read (now w) n
                             else n) <$> notifications w) w, Ok ())
         end →
    notifications r0.1 =
      (λ n, if decide (unread_of u n) then set_read (now w) n else n)
        <$> notifications w).
  { intros r0 ->. destruct io as [io|]; [|done].
    by destruct (emit_fails io _ _). }
  specialize (Hnot _ eq_refl).
  split_and!.
  - rewrite Hnot. apply updateMany_none_unread.
  - intros k n Hk Hu. rewrite Hnot, lookup_fmap, Hk. simpl.
    rewrite decide_False; [done|]. by intros [? _].
  - intros io' -> Hemit. rewrite Hemit. split_and!; [done..|].
    unfold put_mark_all_read, id_request. cbn [req_io req_user].
    rewrite run_try_catch, run_bind, markAllAsRead_run. cbv zeta.
    by rewrite Hemit.
  - intros io2 ty ttl msg dat.
    match goal with |- context [run ?t ?w1] =>
      pose proof (createNotification_store io2 u ty ttl msg dat w1) as Hs;
      cbv zeta in Hs; destruct Hs as (_ & _ & _ & Hs)
    end.
    eexists _, _. split; [apply fresh_notification_key|].
    split; [apply Hs|]. split_and!; try done.
    rewrite Hs, unread_count_insert_new by apply fresh_notification_key.
    rewrite decide_True by done.
    by rewrite Hnot, updateMany_none_unread.
Qed.

(** ** Worked examples *)

(** Witness of C10: Alice, who sent s1, asks to accept it. *)
Lemma guard_failure_leaves_world_witness :
  let op := accept (Some io_up) "s1" "alice" in
  guard_failure (outcome op (run (exec op) (example_world PENDING)).2) ∧
  (run (exec op) (example_world PENDING)).1 = example_world PENDING.
Proof.
  assert (Hg : guard_failure
                 (outcome (accept (Some io_up) "s1" "alice")
                    (run (exec (accept (Some io_up) "s1" "alice"))
                       (example_world PENDING)).2)).
  { right; right; left. vm_compute. reflexivity. }
  split; [exact Hg|].
  apply (guard_failure_leaves_world (accept (Some io_up) "s1" "alice")
           (example_world PENDING) _ _ (surjective_pairing _) Hg).
Defined.

(** Witness of C1. *)
Lemma lifecycle_follows_state_machine_witness :
  (∃ s', swapRequests
           (run_ops [accept (Some io_up) "s1" "bob";
                     reject (Some io_up) "s1" "bob";
                     complete (Some io_up) "s1" "alice"]
              (example_world PENDING)) !! "s1" = Some s' ∧
         rtc edge PENDING (status s')) ∧
  (∃ r, run (exec (accept None "s1" "bob")) (example_world REJECTED)
          = (example_world REJECTED, r) ∧
        outcome (accept None "s1" "bob") r = InvalidState) ∧
  (∃ r, run (exec (reject None "s1" "bob")) (example_world COMPLETED)
          = (example_world COMPLETED, r) ∧
        outcome (reject None "s1" "bob") r = InvalidState) ∧
  (∃ r, run (exec (cancel None "s1" "alice")) (example_world CANCELLED)
          = (example_world CANCELLED, r) ∧
        outcome (cancel None "s1" "alice") r = InvalidState) ∧
  (∃ r, run (exec (complete None "s1" "alice")) (example_world PENDING)
          = (example_world PENDING, r) ∧
        outcome (complete None "s1" "alice") r = InvalidState).
Proof.
  destruct lifecycle_follows_state_machine
    as (Hseq & _ & _ & Hacc & Hrej & Hcan & Hcom).
  split_and!.
  - apply (Hseq _ (example_world PENDING) "s1" (guitar_for_excel PENDING)).
    vm_compute. reflexivity.
  - apply (Hacc None "s1" "bob" _ (guitar_for_excel REJECTED));
      [vm_compute; reflexivity|reflexivity|discriminate].
  - apply (Hrej None "s1" "bob" _ (guitar_for_excel COMPLETED));
      [vm_compute; reflexivity|reflexivity|discriminate].
  - apply (Hcan None "s1" "alice" _ (guitar_for_excel CANCELLED));
      [vm_compute; reflexivity|reflexivity|discriminate].
  - apply (Hcom None "s1" "alice" _ (guitar_for_excel PENDING));
      [vm_compute; reflexivity|left; reflexivity|discriminate].
Defined.

(** Witness of C2. *)
Lemma serial_accept_reject_exactly_one_witness :
  let a := accept (Some io_up) "s1" "bob" in
  let b := reject (Some io_up) "s1" "bob" in
  (outcome a (interleave [] (exec a) (exec b) (example_world PENDING)).2.1
     = Success ∧
   outcome b (interleave [] (exec a) (exec b) (example_world PENDING)).2.2
     = InvalidState) ∧
  (outcome b (interleave [] (exec b) (exec a) (example_world PENDING)).2.1
     = Success ∧
   outcome a (interleave [] (exec b) (exec a) (example_world PENDING)).2.2
     = InvalidState).
Proof.
  destruct serial_accept_reject_exactly_one as (Hserial & _ & _).
  apply (Hserial (Some io_up) (Some io_up) "s1" "bob" (example_world PENDING)
           (guitar_for_excel PENDING));
    [vm_compute; reflexivity|reflexivity|reflexivity
    |apply io_up_reliable|apply io_up_reliable].
Defined.

(** Witness of C3. *)
Lemma submit_contract_witness :
  answers (submit (Some io_up) "alice" (mkSwapBody "alice" "Guitar" "Excel" None))
    blank_world InvalidArgument blank_world ∧
  answers (submit (Some io_up) "alice" (mkSwapBody "carol" "Guitar" "Excel" None))
    blank_world InvalidArgument blank_world ∧
  answers (submit (Some io_up) "alice" (mkSwapBody "dave" "Guitar" "Excel" None))
    blank_world InvalidArgument blank_world ∧
  answers (submit (Some io_up) "bob" (mkSwapBody "alice" " Excel" "Guitar " None))
    (example_world PENDING) InvalidArgument (example_world PENDING) ∧
  (let w1 := (run (exec (submit (Some io_up) "alice" guitar_body)) blank_world).1 in
   answers (submit (Some io_up) "bob" (mkSwapBody "alice" "Excel" "Guitar" None))
     w1 InvalidArgument w1) ∧
  (∃ id s,
     swapRequests (run (exec (submit (Some io_up) "alice" guitar_body))
                     blank_world).1 = <[id := s]> ∅ ∧
     status s = PENDING ∧ senderId s = "alice" ∧ receiverId s = "bob") ∧
  outcome (submit (Some io_up) "alice" guitar_body)
    (run (exec (submit (Some io_up) "alice" guitar_body)) blank_world).2 = Success.
Proof.
  destruct submit_contract as (Hself & Hprofile & Hdup & Hmirror & Hok & Hsucc).
  split_and!.
  - apply Hself. reflexivity.
  - apply (Hprofile _ _ _ _ (mkUser "Carol" true false));
      [vm_compute; reflexivity|right; reflexivity].
  - apply (Hprofile _ _ _ _ (mkUser "Dave" false true));
      [vm_compute; reflexivity|left; reflexivity].
  - apply (Hdup _ _ _ _ (mkUser "Alice" true true) "s1" (guitar_for_excel PENDING));
      [vm_compute; reflexivity|vm_compute; reflexivity|reflexivity|].
    right. vm_compute. repeat split.
  - apply (Hmirror (Some io_up) (Some io_up) "alice" "bob" "Guitar" "Excel"
             (Some " hello ") None blank_world).
    + exists (mkUser "Alice" true true). vm_compute. reflexivity.
    + vm_compute. reflexivity.
  - destruct (Hok (Some io_up) "alice" guitar_body blank_world _ _
                (surjective_pairing _))
      as (id & s & _ & Hsw & Hst & Hse & Hre & _).
    + vm_compute. reflexivity.
    + exists id, s. repeat split; assumption.
  - apply (Hsucc _ _ _ _ (mkUser "Bob" true true)).
    + vm_compute. repeat split; try discriminate. lia.
    + discriminate.
    + vm_compute. reflexivity.
    + reflexivity.
    + reflexivity.
    + intros id s Hs. vm_compute in Hs. discriminate.
    + apply io_up_reliable.
Defined.

(** Witness of C8. *)
Lemma submit_unknown_receiver_witness :
  let body := mkSwapBody "zed" "Guitar" "Excel" None in
  run (exec (submit (Some io_up) "alice" body)) (example_world PENDING)
    = failed 404 "Receiver not found" (example_world PENDING) ∧
  answers (submit (Some io_up) "alice" body) (example_world PENDING) NotFound
    (example_world PENDING) ∧
  answers (submit (Some io_up) "zed" body) (example_world PENDING)
    InvalidArgument (example_world PENDING).
Proof.
  destruct submit_unknown_receiver as (Hnf & Hself & _).
  split_and!.
  - apply Hnf;
      [vm_compute; repeat split; discriminate|discriminate|vm_compute; reflexivity].
  - apply Hnf;
      [vm_compute; repeat split; discriminate|discriminate|vm_compute; reflexivity].
  - apply Hself; [reflexivity|vm_compute; reflexivity].
Defined.

(** Witness of C9. *)
Lemma submit_trims_before_duplicate_check_witness :
  (∃ id s,
     swapRequests (run (exec (submit (Some io_up) "alice"
                                (mkSwapBody "bob" " Piano " "Excel" (Some "  "))))
                     (example_world PENDING)).1
       = <[id := s]> (swapRequests (example_world PENDING)) ∧
     skillOffered s = "Piano" ∧ message s = None) ∧
  (run (exec (submit (Some io_up) "alice"
                (mkSwapBody "bob" "  Guitar " "Excel  " None)))
       (example_world PENDING)).1 = example_world PENDING.
Proof.
  destruct submit_trims_before_duplicate_check as (Hstore & _ & Hdup & _).
  split.
  - destruct (Hstore (Some io_up) "alice"
                (mkSwapBody "bob" " Piano " "Excel" (Some "  "))
                (example_world PENDING) _ _ (surjective_pairing _))
      as (id & s & _ & Hsw & Ho & _ & Hm).
    + vm_compute. reflexivity.
    + exists id, s. repeat split; assumption.
  - apply (Hdup (Some io_up) "alice" (mkSwapBody "bob" "  Guitar " "Excel  " None)
             (example_world PENDING) "s1" (guitar_for_excel PENDING)).
    + vm_compute. reflexivity.
    + left. vm_compute. repeat split.
Defined.

(** Witness of C4. *)
Lemma complete_contract_witness :
  let op := complete (Some io_up) "s1" "alice" in
  let w := example_world ACCEPTED in
  let w' := (run (exec op) w).1 in
  outcome op (run (exec op) w).2 = Success ∧
  unread_count "alice" (notifications w') = S (unread_count "alice" (notifications w)) ∧
  unread_count "bob" (notifications w') = S (unread_count "bob" (notifications w)) ∧
  answers (complete (Some io_up) "s1" "carol") w Forbidden w.
Proof.
  destruct complete_contract as (Hdone & Hforbidden & Hsucc).
  assert (Hs : swapRequests (example_world ACCEPTED) !! "s1"
               = Some (guitar_for_excel ACCEPTED)) by (vm_compute; reflexivity).
  assert (Hout : outcome (complete (Some io_up) "s1" "alice")
                   (run (exec (complete (Some io_up) "s1" "alice"))
                      (example_world ACCEPTED)).2 = Success).
  { apply (Hsucc _ _ _ _ _ Hs);
      [reflexivity|left; reflexivity|apply io_up_reliable]. }
  edestruct (Hdone io_up "s1" "alice" (example_world ACCEPTED)
               (guitar_for_excel ACCEPTED)) as (_ & _ & _ & _ & Ha & Hb);
    [exact Hs|discriminate|apply surjective_pairing|exact Hout|].
  split_and!; [exact Hout|exact Ha|exact Hb|].
  apply (Hforbidden _ _ _ _ _ Hs); discriminate.
Defined.


(** Witness of C6. *)
Lemma markRead_contract_witness :
  owns example_inbox "bob" n1_id ∧
  (run (markAsRead (Some io_up) n1_id "bob") example_inbox).2 ≠ Throw P2025 ∧
  ¬ owns example_inbox "bob" n3_id ∧
  answer_code (run (put_read uuid_shape (id_request (Some io_up) n3_id "bob"))
                 example_inbox).2 = Some 404%N ∧
  (let w' := (run (markAsRead (Some io_up) n1_id "bob") example_inbox).1 in
   outbox w' = [(user_room "bob", notificationCount 0)] ∧
   unread_count "bob" (notifications w') = 0 ∧
   answer_code (run (put_read uuid_shape (id_request (Some io_up) n1_id "bob"))
                  example_inbox).2 = Some 200%N).
Proof.
  assert (Hown : owns example_inbox "bob" n1_id).
  { eexists. split; vm_compute; reflexivity. }
  assert (Hnot : ¬ owns example_inbox "bob" n3_id).
  { intros (n & Hn & Hu). vm_compute in Hn. injection Hn as <-. discriminate. }
  destruct (markRead_contract uuid_shape (Some io_up) n1_id "bob" example_inbox)
    as (Hsvc & _ & Hfound).
  destruct (markRead_contract uuid_shape (Some io_up) n3_id "bob" example_inbox)
    as (_ & Hroute & _).
  split_and!.
  - exact Hown.
  - intros Hthrow. apply Hsvc in Hthrow. exact (Hthrow Hown).
  - exact Hnot.
  - apply Hroute; [vm_compute; reflexivity|exact Hnot].
  - destruct (Hfound _ ltac:(vm_compute; reflexivity) eq_refl)
      as (_ & _ & _ & Hpush).
    destruct (Hpush io_up eq_refl eq_refl) as (_ & Hob & Hcode).
    cbv zeta. split_and!.
    + rewrite Hob. vm_compute. reflexivity.
    + vm_compute. reflexivity.
    + apply Hcode. vm_compute. reflexivity.
Defined.

(** Witness of C7. *)
Lemma markAllRead_contract_witness :
  let w1 := (run (markAllAsRead (Some io_up) "bob") example_inbox).1 in
  unread_count "bob" (notifications example_inbox) = 1 ∧
  unread_count "bob" (notifications w1) = 0 ∧
  outbox w1 = [(user_room "bob", notificationCount 0)] ∧
  unread_count "bob"
    (notifications
       (run (createNotification (Some io_up) "bob" PLATFORM_MESSAGE "Hi" "There"
               None true) w1).1) = 1.
Proof.
  destruct (markAllRead_contract (Some io_up) "bob" example_inbox)
    as (Hzero & _ & Hpush & Hnext).
  destruct (Hpush io_up eq_refl eq_refl) as (_ & Hob & _).
  destruct (Hnext (Some io_up) PLATFORM_MESSAGE "Hi" "There" None)
    as (k & n & _ & _ & _ & _ & Hone).
  cbv zeta. split_and!;
    [vm_compute; reflexivity|exact Hzero|exact Hob|exact Hone].
Defined.

(** * Further properties of the lifecycle *)

Ltac row_moves st :=
  eapply change_row; [done| |done];
  match goal with
  | H : negb (bool_decide (status _ = PENDING)) = false |- _ =>
      apply bool_decide_negb_false in H;
      eapply (move_status _ _ st); [done|tauto|done]
  | H : negb (bool_decide (status _ = ACCEPTED)) = false |- _ =>
      apply bool_decide_negb_false in H;
      eapply move_completed; [done|done]
  end.

Lemma table_change_after (t : Async unit) line ok err m w1 :
  notification_task t →
  table_change m (swapRequests w1) →
  table_change m (swapRequests (answer_after t line ok err w1).1).
Proof.
  intros Ht Hs. destruct (answer_after_frame t line ok err w1 Ht) as (_ & -> & _).
  done.
Qed.

Lemma exec_table_change (op : Op) (w : World) :
  table_change (swapRequests w) (swapRequests (run (exec op) w).1).
Proof.
  destruct op as [io sender body|io id c|io id c|io id c|io id c].
  - rewrite submit_run. cbv zeta.
    repeat case_match; try (by apply change_none).
    + apply table_change_after; [eauto with notify|].
      eapply change_new; [apply fresh_swap_key| | | |done]; done.
    + eapply change_new; [apply fresh_swap_key| | | |done]; done.
  - unfold exec. rewrite put_accept_run. cbv zeta.
    repeat case_match; try (by apply change_none).
    + apply table_change_after; [eauto with notify|]. row_moves ACCEPTED.
    + row_moves ACCEPTED.
  - unfold exec. rewrite put_reject_run. cbv zeta.
    repeat case_match; try (by apply change_none).
    + apply table_change_after; [eauto with notify|]. row_moves REJECTED.
    + row_moves REJECTED.
  - unfold exec. rewrite put_cancel_run. cbv zeta.
    repeat case_match; try (by apply change_none).
    row_moves CANCELLED.
  - unfold exec. rewrite put_complete_run. cbv zeta.
    repeat case_match; try (by apply change_none).
    + apply table_change_after; [eauto with notify|]. row_moves COMPLETED.
    + row_moves COMPLETED.
Qed.

Lemma row_move_same s s' : row_move s s' → same_request s s'.
Proof. by intros [st t _ _ ->|t _ ->]. Qed.

Lemma row_move_not_terminal s s' : row_move s s' → ¬ terminal (status s).
Proof.
  intros [st t Hs _ _|t Hs _] [H|[H|H]]; rewrite Hs in H; discriminate.
Qed.

Lemma row_move_ok s s' : row_move s s' → row_ok s → row_ok s'.
Proof.
  intros [st t Hs Hst ->|t Hs ->] [Hne Hc]; (split; [done|]); simpl.
  - split.
    + intros Hsome. apply Hc in Hsome. congruence.
    + intros ->. destruct Hst as [?|[?|?]]; discriminate.
  - split; [done|]. by eexists.
Qed.

(** What one call does to a row that exists. *)
Lemma exec_row (op : Op) (w : World) (id : string) (s : SwapRequest) :
  swapRequests w !! id = Some s →
  swapRequests (run (exec op) w).1 !! id = Some s ∨
  ∃ s', swapRequests (run (exec op) w).1 !! id = Some s' ∧ row_move s s'.
Proof.
  intros Hs.
  destruct (exec_table_change op w) as [->|id0 s0 s0' H0 Hm ->|id0 s0 H0 _ _ _ ->].
  - by left.
  - destruct (decide (id0 = id)) as [->|Hne].
    + right. rewrite lookup_insert_eq. simplify_eq. eauto.
    + left. by rewrite lookup_insert_ne.
  - left. rewrite lookup_insert_ne; [done|congruence].
Qed.

Lemma exec_users (op : Op) (w : World) : users (run (exec op) w).1 = users w.
Proof.
  destruct op as [io sender body|io id c|io id c|io id c|io id c].
  - rewrite submit_run. cbv zeta. repeat case_match; try done.
    by edestruct answer_after_frame as (-> & _); [eauto with notify|].
  - unfold exec. rewrite put_accept_run. cbv zeta. repeat case_match; try done.
    by edestruct answer_after_frame as (-> & _); [eauto with notify|].
  - unfold exec. rewrite put_reject_run. cbv zeta. repeat case_match; try done.
    by edestruct answer_after_frame as (-> & _); [eauto with notify|].
  - unfold exec. rewrite put_cancel_run. cbv zeta. repeat case_match; done.
  - unfold exec. rewrite put_complete_run. cbv zeta. repeat case_match; try done.
    by edestruct answer_after_frame as (-> & _); [eauto with notify|].
Qed.

(** X1. A row in a terminal status (REJECTED, CANCELLED, COMPLETED) is never
    written again: after any sequence of calls of the five operations it is
    in the table exactly as it was, update time included. *)
Theorem terminal_row_is_frozen (ops : list Op) (w : World) (id : string)
    (s : SwapRequest) :
  swapRequests w !! id = Some s → terminal (status s) →
  swapRequests (run_ops ops w) !! id = Some s.
Proof.
  revert w. induction ops as [|op ops IH]; intros w Hs Ht; simpl; [done|].
  apply IH; [|done].
  destruct (exec_row op w id s Hs) as [?|(s' & _ & Hm)]; [done|].
  by destruct (row_move_not_terminal _ _ Hm).
Qed.

Lemma run_ops_row (ops : list Op) (w : World) (id : string) (s : SwapRequest) :
  swapRequests w !! id = Some s →
  ∃ s', swapRequests (run_ops ops w) !! id = Some s' ∧ same_request s s'.
Proof.
  revert w s. induction ops as [|op ops IH]; intros w s Hs; simpl.
  - exists s. by repeat split.
  - destruct (exec_row op w id s Hs) as [Hs1|(s1 & Hs1 & Hm)].
    + by apply IH.
    + destruct (IH _ s1 Hs1) as (s' & Hs' & Hsame).
      exists s'. split; [done|]. apply row_move_same in Hm.
      unfold same_request in *.
      destruct Hm as (? & ? & ? & ? & ? & ?), Hsame as (? & ? & ? & ? & ? & ?).
      split_and!; congruence.
Qed.

Lemma run_ops_users (ops : list Op) (w : World) :
  users (run_ops ops w) = users w.
Proof.
  revert w. induction ops as [|op ops IH]; intros w; simpl; [done|].
  by rewrite IH, exec_users.
Qed.

(** X2. No sequence of calls deletes a swap row or changes who sent it, to
    whom, the two skill labels, the message or the creation time; and no call
    touches the user table. *)
Theorem requests_keep_their_terms (ops : list Op) (w : World) :
  users (run_ops ops w) = users w ∧
  ∀ id s, swapRequests w !! id = Some s →
          ∃ s', swapRequests (run_ops ops w) !! id = Some s' ∧
                same_request s s'.
Proof. split; [apply run_ops_users|apply run_ops_row]. Qed.

(** X3. The row invariants are kept by every sequence of calls: if in every
    row the sender differs from the receiver and the completion time is set
    exactly when the status is COMPLETED, the same holds afterwards, for the
    old rows and for the rows the calls create. *)
Theorem table_invariants_kept (ops : list Op) (w : World) :
  table_ok (swapRequests w) → table_ok (swapRequests (run_ops ops w)).
Proof.
  revert w. induction ops as [|op ops IH]; intros w Hok; simpl; [done|].
  apply IH. intros id s.
  destruct (exec_table_change op w)
    as [->|id0 s0 s0' H0 Hm ->|id0 s0 H0 Hp Hne Hc ->].
  - apply Hok.
  - destruct (decide (id0 = id)) as [->|Hneq].
    + rewrite lookup_insert_eq. intros [= <-].
      eapply row_move_ok; [done|]. by eapply Hok.
    + rewrite lookup_insert_ne by done. apply Hok.
  - destruct (decide (id0 = id)) as [->|Hneq].
    + rewrite lookup_insert_eq. intros [= <-]. split; [done|].
      rewrite Hc, Hp. split; [by intros [? ?]|done].
    + rewrite lookup_insert_ne by done. apply Hok.
Qed.

(** Witness of X1. *)
Lemma terminal_row_is_frozen_witness :
  swapRequests
    (run_ops [accept (Some io_up) "s1" "bob"; cancel None "s1" "alice";
              complete (Some io_up) "s1" "bob"] (example_world REJECTED))
    !! "s1" = Some (guitar_for_excel REJECTED).
Proof.
  apply terminal_row_is_frozen; [vm_compute; reflexivity|left; reflexivity].
Defined.

(** Witness of X2. *)
Lemma requests_keep_their_terms_witness :
  ∃ s', swapRequests
          (run_ops [accept (Some io_up) "s1" "bob";
                    complete (Some io_down) "s1" "alice"]
             (example_world PENDING)) !! "s1" = Some s' ∧
        same_request (guitar_for_excel PENDING) s'.
Proof.
  apply (requests_keep_their_terms _ (example_world PENDING)).
  vm_compute. reflexivity.
Defined.

(** Witness of X3. *)
Lemma table_invariants_kept_witness :
  table_ok
    (swapRequests
       (run_ops [submit (Some io_up) "bob" (mkSwapBody "alice" "Piano" "Chess" None);
                 accept (Some io_up) "s1" "bob";
                 complete (Some io_up) "s1" "alice"] (example_world PENDING))).
Proof.
  apply table_invariants_kept. intros id s Hs.
  destruct (decide (id = "s1")) as [->|Hne].
  - vm_compute in Hs. injection Hs as <-. split; [discriminate|].
    split; [intros [? ?]; discriminate|discriminate].
  - unfold example_world in Hs. simpl in Hs.
    rewrite lookup_singleton_ne in Hs by done. discriminate.
Defined.

(** X4. cancel never notifies: whatever the server attached to the request
    and whatever the outcome, it stores no notification, publishes nothing
    and logs nothing, and its answer does not depend on the server.  Asked
    for by the sender of a PENDING row it succeeds and sets the row to
    CANCELLED. *)
Theorem cancel_is_silent (io : option Io) (id caller : string) (w : World) :
  let w' := (run (exec (cancel io id caller)) w).1 in
  notifications w' = notifications w ∧ outbox w' = outbox w ∧
  console w' = console w ∧
  run (exec (cancel io id caller)) w = run (exec (cancel None id caller)) w ∧
  ∀ s, swapRequests w !! id = Some s → senderId s = caller →
       status s = PENDING →
       outcome (cancel io id caller) (run (exec (cancel io id caller)) w).2
         = Success ∧
       swapRequests w' = <[id := set_status CANCELLED (now w) s]> (swapRequests w).
Proof.
  cbv zeta. unfold exec. rewrite !put_cancel_run. cbn.
  destruct (swapRequests w !! id) as [s|] eqn:Hs; [|by split_and!].
  destruct (bool_decide (senderId s = caller)) eqn:Hc; cbn;
    [|split_and!; try done; intros s' [= <-] Hc'; apply bool_decide_eq_false in Hc; done].
  destruct (bool_decide (status s = PENDING)) eqn:Hst; cbn.
  - split_and!; try done. by intros s' [= <-] _ _.
  - split_and!; try done. intros s' [= <-] _ Hst'.
    apply bool_decide_eq_false in Hst. done.
Qed.

(** Witness of X4. *)
Lemma cancel_is_silent_witness :
  let w' := (run (exec (cancel (Some io_up) "s1" "alice")) (example_world PENDING)).1 in
  notifications w' = ∅ ∧ outbox w' = [] ∧
  swapRequests w' !! "s1" = Some (set_status CANCELLED 7 (guitar_for_excel PENDING)).
Proof.
  destruct (cancel_is_silent (Some io_up) "s1" "alice" (example_world PENDING))
    as (Hn & Ho & _ & _ & Hok).
  destruct (Hok (guitar_for_excel PENDING)) as (_ & Hsw);
    [vm_compute; reflexivity|reflexivity|reflexivity|].
  cbv zeta. split_and!; [exact Hn|exact Ho|].
  rewrite Hsw. apply lookup_insert_eq.
Defined.

(** What a run of a single template does to the unread counts. *)
Lemma sends_ok_counts t io u ty w w' :
  sends t (Some io) u ty → run t w = (w', Ok ()) →
  ∀ v, unread_count v (notifications w') =
       if decide (u = v) then S (unread_count v (notifications w))
       else unread_count v (notifications w).
Proof.
  intros Ht Hrun v.
  destruct (sends_ok t io u ty w w' Ht Hrun)
    as (_ & _ & _ & _ & n & e & Hn & -> & _).
  apply (fresh_unread_count u ty w n v); [done|apply fresh_notification_key].
Qed.

(** X5. A successful accept, and a successful reject, with the server
    attached, store exactly one new unread notification, for the sender of
    the request (SWAP_REQUEST_ACCEPTED, SWAP_REQUEST_REJECTED): the sender's
    unread count grows by one and nobody else's changes, the receiver's
    included. *)
Theorem accept_and_reject_notify_the_sender (io : Io) (id caller : string)
    (w : World) (s : SwapRequest) :
  swapRequests w !! id = Some s →
  (∀ w' r,
     run (exec (accept (Some io) id caller)) w = (w', r) →
     outcome (accept (Some io) id caller) r = Success →
     (∃ n, fresh_unread (senderId s) SWAP_REQUEST_ACCEPTED w n ∧
           notifications w' =
             <[fresh (dom (notifications w)) := n]> (notifications w)) ∧
     ∀ v, unread_count v (notifications w') =
          if decide (senderId s = v) then S (unread_count v (notifications w))
          else unread_count v (notifications w)) ∧
  (∀ w' r,
     run (exec (reject (Some io) id caller)) w = (w', r) →
     outcome (reject (Some io) id caller) r = Success →
     (∃ n, fresh_unread (senderId s) SWAP_REQUEST_REJECTED w n ∧
           notifications w' =
             <[fresh (dom (notifications w)) := n]> (notifications w)) ∧
     ∀ v, unread_count v (notifications w') =
          if decide (senderId s = v) then S (unread_count v (notifications w))
          else unread_count v (notifications w)).
Proof.
  intros Hs. split.
  - intros w' r Hrun Hout. unfold exec in Hrun. rewrite put_accept_run in Hrun.
    cbn in Hrun. rewrite Hs in Hrun.
    destruct (negb (bool_decide (receiverId s = caller)));
      [by injection Hrun as <- <-|].
    destruct (negb (bool_decide (status s = PENDING)));
      [by injection Hrun as <- <-|].
    match type of Hrun with answer_after ?t ?l ?ok ?err ?w1 = _ =>
      pose proof (answer_after_cases t l ok err w1) as Hc end.
    rewrite Hrun in Hc. destruct Hc as [[-> Ht]|[-> _]]; [|done].
    split.
    + eapply sends_ok in Ht as (_ & _ & _ & _ & n & e & Hn & Hnot & _);
        [|apply sends_accepted].
      exists n. split; [exact Hn|exact Hnot].
    + intros v.
      exact (sends_ok_counts _ _ _ _ _ _ (sends_accepted _ _ _ _ _ _) Ht v).
  - intros w' r Hrun Hout. unfold exec in Hrun. rewrite put_reject_run in Hrun.
    cbn in Hrun. rewrite Hs in Hrun.
    destruct (negb (bool_decide (receiverId s = caller)));
      [by injection Hrun as <- <-|].
    destruct (negb (bool_decide (status s = PENDING)));
      [by injection Hrun as <- <-|].
    match type of Hrun with answer_after ?t ?l ?ok ?err ?w1 = _ =>
      pose proof (answer_after_cases t l ok err w1) as Hc end.
    rewrite Hrun in Hc. destruct Hc as [[-> Ht]|[-> _]]; [|done].
    split.
    + eapply sends_ok in Ht as (_ & _ & _ & _ & n & e & Hn & Hnot & _);
        [|apply sends_rejected].
      exists n. split; [exact Hn|exact Hnot].
    + intros v.
      exact (sends_ok_counts _ _ _ _ _ _ (sends_rejected _ _ _ _ _ _) Ht v).
Qed.

(** Witness of X5. *)
Lemma accept_and_reject_notify_the_sender_witness :
  let w' := (run (exec (accept (Some io_up) "s1" "bob")) (example_world PENDING)).1 in
  unread_count "alice" (notifications w') = 1 ∧
  unread_count "bob" (notifications w') = 0.
Proof.
  destruct (accept_and_reject_notify_the_sender io_up "s1" "bob"
              (example_world PENDING) (guitar_for_excel PENDING))
    as (Hacc & _); [vm_compute; reflexivity|].
  edestruct Hacc as (_ & Hcount);
    [apply surjective_pairing|vm_compute; reflexivity|].
  cbv zeta. split.
  - rewrite (Hcount "alice"). vm_compute. reflexivity.
  - rewrite (Hcount "bob"). vm_compute. reflexivity.
Defined.

(** X6. The guards of the four transitions come in the order existence,
    role, status: an id that no row has answers NotFound; accept and reject
    by anybody but the receiver (the sender included), and cancel by anybody
    but the sender, answer Forbidden whatever the status of the row is.  In
    each case the world is left as it was. *)
Theorem transition_guards_in_order (io : option Io) (id caller : string)
    (w : World) :
  (swapRequests w !! id = None →
   answers (accept io id caller) w NotFound w ∧
   answers (reject io id caller) w NotFound w ∧
   answers (cancel io id caller) w NotFound w ∧
   answers (complete io id caller) w NotFound w) ∧
  (∀ s, swapRequests w !! id = Some s → receiverId s ≠ caller →
        answers (accept io id caller) w Forbidden w ∧
        answers (reject io id caller) w Forbidden w) ∧
  (∀ s, swapRequests w !! id = Some s → senderId s ≠ caller →
        answers (cancel io id caller) w Forbidden w).
Proof.
  unfold answers, exec.
  rewrite put_accept_run, put_reject_run, put_cancel_run, put_complete_run.
  cbn. split_and!.
  - intros ->. by split_and!.
  - intros s -> Hc. rewrite !bool_decide_eq_false_2 by done. by split_and!.
  - intros s -> Hc. rewrite !bool_decide_eq_false_2 by done. by split_and!.
Qed.

(** Witness of X6. *)
Lemma transition_guards_in_order_witness :
  answers (accept None "s9" "bob") (example_world PENDING) NotFound
    (example_world PENDING) ∧
  answers (accept None "s1" "alice") (example_world COMPLETED) Forbidden
    (example_world COMPLETED) ∧
  answers (cancel None "s1" "bob") (example_world COMPLETED) Forbidden
    (example_world COMPLETED).
Proof.
  split_and!.
  - destruct (transition_guards_in_order None "s9" "bob" (example_world PENDING))
      as (Hnf & _ & _).
    apply Hnf. vm_compute. reflexivity.
  - destruct (transition_guards_in_order None "s1" "alice"
                (example_world COMPLETED)) as (_ & Hf & _).
    apply (Hf (guitar_for_excel COMPLETED));
      [vm_compute; reflexivity|discriminate].
  - destruct (transition_guards_in_order None "s1" "bob"
                (example_world COMPLETED)) as (_ & _ & Hf).
    apply (Hf (guitar_for_excel COMPLETED));
      [vm_compute; reflexivity|discriminate].
Defined.

(** X7. POST /api/swaps answers 400 "Validation failed" exactly when the
    receiver id is empty, or a skill label is empty or blank, or the message,
    once trimmed, is longer than 500 characters.  The length is taken after
    the trimming, and nothing is written. *)
Theorem submit_validation_failure (io : option Io) (sender : string)
    (body : SwapBody) (w : World) :
  run (exec (submit io sender body)) w = failed 400 "Validation failed" w ↔
  (b_receiverId body = "" ∨ trim (b_skillOffered body) = "" ∨
   trim (b_skillRequested body) = "" ∨
   ∃ m, b_message body = Some m ∧ 500 < String.length (trim m)).
Proof.
  assert (Hv : valid_body body ↔
               ¬ (b_receiverId body = "" ∨ trim (b_skillOffered body) = "" ∨
                  trim (b_skillRequested body) = "" ∨
                  ∃ m, b_message body = Some m ∧ 500 < String.length (trim m))).
  { unfold valid_body. destruct (b_message body) as [m|].
    - split.
      + intros (? & ? & ? & ?) [?|[?|[?|(m' & [= <-] & ?)]]]; try done. lia.
      + intros Hno. split_and!; try (intros ?; apply Hno; tauto).
        destruct (decide (String.length (trim m) ≤ 500)); [done|].
        destruct Hno. right; right; right. exists m. split; [done|lia].
    - split.
      + intros (? & ? & ? & _) [?|[?|[?|(m' & ? & ?)]]]; done.
      + intros Hno. split_and!; try (intros ?; apply Hno; tauto). done. }
  rewrite submit_run. cbv zeta.
  destruct (bool_decide (valid_body body)) eqn:Hb; cbn [negb].
  - apply bool_decide_eq_true in Hb. split; [|intros Hbad; by apply Hv in Hb].
    intros Hrun. exfalso. unfold failed in Hrun.
    repeat case_match; try discriminate.
    match type of Hrun with answer_after ?t ?l ?ok ?err ?w1 = _ =>
      pose proof (answer_after_cases t l ok err w1) as Hc end.
    rewrite Hrun in Hc. destruct Hc as [[? _]|[? _]]; discriminate.
  - apply bool_decide_eq_false in Hb. split; [|done].
    intros _. destruct (decide (b_receiverId body = "")); [tauto|].
    destruct (decide (trim (b_skillOffered body) = "")); [tauto|].
    destruct (decide (trim (b_skillRequested body) = "")); [tauto|].
    right; right; right. unfold valid_body in Hb.
    destruct (b_message body) as [m|]; [|tauto].
    exists m. split; [done|].
    destruct (decide (String.length (trim m) ≤ 500)); [tauto|lia].
Qed.

(** Witness of X7. *)
Lemma submit_validation_failure_witness :
  run (exec (submit None "alice" (mkSwapBody "bob" "   " "Excel" None)))
      (example_world PENDING)
  = failed 400 "Validation failed" (example_world PENDING).
Proof.
  apply submit_validation_failure. right; left. vm_compute. reflexivity.
Defined.

(** A PENDING row that its receiver accepts or rejects, or its sender
    cancels, over a working server, is the only row to change. *)
Lemma resolve_pending (io : option Io) (op : Op) (id : string) (w : World)
    (s : SwapRequest) :
  swapRequests w !! id = Some s → status s = PENDING → reliable io →
  op = accept io id (receiverId s) ∨ op = reject io id (receiverId s) ∨
  op = cancel io id (senderId s) →
  ∃ st, st ≠ PENDING ∧
        swapRequests (run (exec op) w).1
        = <[id := set_status st (now w) s]> (swapRequests w).
Proof.
  intros Hs Hst Hio [->|[->| ->]].
  - edestruct accept_succeeds as (w' & r & -> & _ & Hsw); [done..|].
    by exists ACCEPTED.
  - edestruct reject_succeeds as (w' & r & -> & _ & Hsw); [done..|].
    by exists REJECTED.
  - exists CANCELLED. split; [done|]. unfold exec. rewrite put_cancel_run. cbn.
    by rewrite Hs, !bool_decide_eq_true_2.
Qed.

(** X8. The duplicate check of POST /api/swaps looks at PENDING rows only.
    A request that went through blocks the same request while it is PENDING;
    once the receiver has accepted or rejected it, or the sender has
    cancelled it, the very same request goes through again. *)
Theorem resubmission_after_resolution (io : option Io) (sender : string)
    (body : SwapBody) (w : World) (u : User) (op : Op) :
  valid_body body → sender ≠ b_receiverId body →
  users w !! b_receiverId body = Some u → isActive u = true →
  isPublic u = true → reliable io →
  (∀ id s, swapRequests w !! id = Some s →
           ¬ similar_pending sender (b_receiverId body)
               (trim (b_skillOffered body)) (trim (b_skillRequested body)) s) →
  let first := submit io sender body in
  let k := fresh (dom (swapRequests w)) in
  let w1 := (run (exec first) w).1 in
  op = accept io k (b_receiverId body) ∨ op = reject io k (b_receiverId body) ∨
  op = cancel io k sender →
  outcome first (run (exec first) w).2 = Success ∧
  answers first w1 InvalidArgument w1 ∧
  outcome first (run (exec first) (run (exec op) w1).1).2 = Success.
Proof.
  intros Hv Hne Hu Ha Hp Hio Hnone first k w1 Hop.
  assert (Hok : outcome first (run (exec first) w).2 = Success)
    by by eapply submit_succeeds.
  destruct (submit_success_inv io sender body w w1 (run (exec first) w).2)
    as (_ & _ & _ & Hu1 & _ & _ & Hsw1 & _);
    [apply surjective_pairing|done|].
  fold k in Hsw1.
  assert (Hk : swapRequests w1 !! k = Some (submitted sender body w))
    by by rewrite Hsw1, lookup_insert_eq.
  split_and!; [done| |].
  - edestruct (submit_similar_refused io sender body w1) as (H1 & _ & H2);
      [exact Hk|by left|].
    split; [done|]. apply H2. by rewrite Hu1, Hu.
  - edestruct (resolve_pending io op k w1) as (st & Hst & Hsw2);
      [exact Hk|done..|].
    eapply submit_succeeds; try done.
    + by rewrite exec_users, Hu1.
    + intros id s. rewrite Hsw2, Hsw1, insert_insert_eq.
      destruct (decide (k = id)) as [<-|Hid].
      * rewrite lookup_insert_eq. intros [= <-] [Hsim|Hsim];
          by destruct Hsim as (_ & _ & _ & _ & ?).
      * rewrite lookup_insert_ne by done. apply Hnone.
Qed.

(** Witness of X8. *)
Lemma resubmission_after_resolution_witness :
  let first := submit (Some io_up) "alice" guitar_body in
  let w1 := (run (exec first) blank_world).1 in
  outcome first (run (exec first) blank_world).2 = Success ∧
  answers first w1 InvalidArgument w1 ∧
  outcome first
    (run (exec first)
       (run (exec (reject (Some io_up) (fresh (dom (swapRequests blank_world)))
                     "bob")) w1).1).2 = Success.
Proof.
  eapply (resubmission_after_resolution (Some io_up) "alice" guitar_body
            blank_world);
    [vm_compute; intuition (discriminate || lia)
    |discriminate
    |vm_compute; reflexivity
    |reflexivity
    |reflexivity
    |apply io_up_reliable
    |intros id s Hs; vm_compute in Hs; discriminate
    |right; left; reflexivity].
Defined.

(** ** The notification service, call by call *)

Lemma createNotification_quiet io u ty ttl msg dat w :
  run (createNotification io u ty ttl msg dat false) w =
  (notified u ty ttl msg dat w,
   Ok (fresh (dom (notifications w)), new_notification u ty ttl msg dat w)).
Proof. by destruct io. Qed.

Lemma unread_of_new u v ty ttl msg dat w :
  unread_of v (new_notification u ty ttl msg dat w) ↔ u = v.
Proof. unfold unread_of. simpl. tauto. Qed.

Lemma unread_count_notified u v ty ttl msg dat w :
  unread_count v (notifications (notified u ty ttl msg dat w)) =
  if decide (u = v) then S (unread_count v (notifications w))
  else unread_count v (notifications w).
Proof.
  unfold notified. cbn [notifications set_notifications].
  rewrite unread_count_insert_new by apply fresh_notification_key.
  destruct (decide (u = v)) as [Hu|Hu].
  - rewrite decide_True; [done|]. by apply unread_of_new.
  - rewrite decide_False; [done|]. by rewrite unread_of_new.
Qed.

(** Replacing a row changes a count by what the old and the new row weigh. *)
Lemma unread_count_insert_old (u : string) (m : gmap string Notification)
    (id : string) (n n' : Notification) :
  m !! id = Some n →
  unread_count u (<[id := n']> m) + (if decide (unread_of u n) then 1 else 0) =
  unread_count u m + (if decide (unread_of u n') then 1 else 0).
Proof.
  intros Hid.
  assert (Hm : unread_count u m = unread_count u (<[id := n]> (delete id m)))
    by by rewrite insert_delete_eq, insert_id.
  rewrite Hm, <- (insert_delete_eq m id n').
  rewrite !unread_count_insert_new by apply lookup_delete_eq.
  repeat case_decide; lia.
Qed.

Lemma unread_count_delete (u : string) (m : gmap string Notification)
    (id : string) (n : Notification) :
  m !! id = Some n →
  unread_count u (delete id m) + (if decide (unread_of u n) then 1 else 0) =
  unread_count u m.
Proof.
  intros Hid.
  assert (Hm : unread_count u m = unread_count u (<[id := n]> (delete id m)))
    by by rewrite insert_delete_eq, insert_id.
  rewrite Hm, unread_count_insert_new by apply lookup_delete_eq.
  repeat case_decide; lia.
Qed.

(** X9. createNotification writes the row before it publishes anything, and
    what happens to the publishing does not undo it: whatever the server
    does, and whether or not a realtime publish was asked for, the store
    holds the new unread row under a key that was free, the recipient's
    unread count is one higher and nobody else's has moved; users, swap rows
    and clock are untouched.  The call either returns the row, with nothing
    logged, or throws the publish error after logging one line, and it can
    throw only if a server is attached and realtime is on. *)
Theorem createNotification_stores_first (io : option Io) (u : string)
    (ty : NotificationType) (ttl msg : string) (dat : option Payload)
    (realtime : bool) (w : World) :
  let k := fresh (dom (notifications w)) in
  let n := new_notification u ty ttl msg dat w in
  let w' := (run (createNotification io u ty ttl msg dat realtime) w).1 in
  let r := (run (createNotification io u ty ttl msg dat realtime) w).2 in
  notifications w !! k = None ∧
  notifications w' = <[k := n]> (notifications w) ∧
  (∀ v, unread_count v (notifications w') =
        if decide (u = v) then S (unread_count v (notifications w))
        else unread_count v (notifications w)) ∧
  users w' = users w ∧ swapRequests w' = swapRequests w ∧ now w' = now w ∧
  ((r = Ok (k, n) ∧ console w' = console w) ∨
   (r = Throw EmitError ∧
    console w' = console w ++ ["Error creating notification:"] ∧
    is_Some io ∧ realtime = true)).
Proof.
  cbv zeta.
  assert (Hcases :
    let p := run (createNotification io u ty ttl msg dat realtime) w in
    notifications p.1 = notifications (notified u ty ttl msg dat w) ∧
    users p.1 = users w ∧ swapRequests p.1 = swapRequests w ∧
    now p.1 = now w ∧
    ((p.2 = Ok (fresh (dom (notifications w)),
                new_notification u ty ttl msg dat w) ∧
      console p.1 = console w) ∨
     (p.2 = Throw EmitError ∧
      console p.1 = console w ++ ["Error creating notification:"] ∧
      is_Some io ∧ realtime = true))).
  { cbv zeta. destruct realtime.
    - destruct io as [io|].
      + rewrite createNotification_Some. cbv zeta.
        repeat case_match; cbn; split_and!; eauto 10.
      + rewrite createNotification_None. cbn. split_and!; eauto.
    - rewrite createNotification_quiet. cbn. split_and!; eauto. }
  cbv zeta in Hcases. destruct Hcases as (Hn & Hu & Hs & Ht & Hr).
  split_and!; try done.
  - apply fresh_notification_key.
  - intros v. rewrite Hn. apply unread_count_notified.
Qed.

(** Witness of X9. *)
Lemma createNotification_stores_first_witness :
  unread_count "bob"
    (notifications
       (run (createNotification (Some io_down) "bob" PLATFORM_MESSAGE "Hi"
               "there" None true) example_inbox).1) = 2 ∧
  unread_count "alice"
    (notifications
       (run (createNotification (Some io_down) "bob" PLATFORM_MESSAGE "Hi"
               "there" None true) example_inbox).1) = 1.
Proof.
  destruct (createNotification_stores_first (Some io_down) "bob"
              PLATFORM_MESSAGE "Hi" "there" None true example_inbox)
    as (_ & _ & Hc & _).
  split.
  - rewrite (Hc "bob"). reflexivity.
  - rewrite (Hc "alice"). reflexivity.
Defined.

(** X10. What createNotification publishes.  Without a server, or with
    realtime off, nothing.  Otherwise everything goes to the room of the
    recipient: first the notification event, which carries the key and the
    fields of the stored row, then the count event, which carries the
    recipient's previous unread count plus one.  A first publish that fails
    leaves nothing published; a second that fails leaves the notification
    event without its count.  The call returns normally exactly when no
    publish failed. *)
Theorem createNotification_publishes (io : option Io) (u : string)
    (ty : NotificationType) (ttl msg : string) (dat : option Payload)
    (realtime : bool) (w : World) :
  let k := fresh (dom (notifications w)) in
  let w' := (run (createNotification io u ty ttl msg dat realtime) w).1 in
  let r := (run (createNotification io u ty ttl msg dat realtime) w).2 in
  let e1 := notification k ty ttl msg dat (now w) false in
  let e2 := notificationCount (S (unread_count u (notifications w))) in
  (io = None ∨ realtime = false → outbox w' = outbox w ∧ ∃ row, r = Ok row) ∧
  (∀ io', io = Some io' → realtime = true →
     outbox w' = outbox w ++
       (if emit_fails io' (user_room u) e1 then []
        else if emit_fails io' (user_room u) e2 then [(user_room u, e1)]
        else [(user_room u, e1); (user_room u, e2)]) ∧
     ((∃ row, r = Ok row) ↔
      emit_fails io' (user_room u) e1 = false ∧
      emit_fails io' (user_room u) e2 = false)).
Proof.
  cbv zeta. split.
  - intros [-> | ->].
    + destruct realtime.
      * rewrite createNotification_None. eauto.
      * rewrite createNotification_quiet. eauto.
    + rewrite createNotification_quiet. eauto.
  - intros io' -> ->. rewrite createNotification_Some. cbv zeta.
    unfold notification_event, count_event.
    rewrite unread_count_notified, decide_True by done.
    destruct (emit_fails io' _ (notification _ _ _ _ _ _ _)); cbn.
    { rewrite app_nil_r. split; [done|]. split; [by intros [? ?]|by intros [? _]]. }
    destruct (emit_fails io' _ (notificationCount _)); cbn.
    { split; [done|]. split; [by intros [? ?]|by intros [_ ?]]. }
    rewrite <- app_assoc. cbn. split; [done|]. split; eauto.
Qed.

(** Witness of X10. *)
Lemma createNotification_publishes_witness :
  outbox (run (createNotification (Some io_up) "bob" PLATFORM_MESSAGE "Hi"
                 "there" None true) example_inbox).1
  = [(user_room "bob",
      notification (fresh (dom (notifications example_inbox)))
        PLATFORM_MESSAGE "Hi" "there" None 7 false);
     (user_room "bob", notificationCount 2)].
Proof.
  destruct (createNotification_publishes (Some io_up) "bob" PLATFORM_MESSAGE
              "Hi" "there" None true example_inbox) as [_ Hpub].
  destruct (Hpub io_up eq_refl eq_refl) as [Hout _].
  rewrite Hout. reflexivity.
Defined.

Lemma unread_of_set_read u t n : ¬ unread_of u (set_read t n).
Proof. by intros [_ ?]. Qed.

(** X11. markAsRead by somebody who does not own the row changes nothing at
    all.  On a row of the caller's it lowers the caller's unread count by one
    if the row was unread and leaves it if the row had been read already; the
    counts of the other users and the set of stored ids do not move, and the
    service logs nothing.  When the publish of the count fails, PUT
    /api/notifications/:id/read answers 500 although the row is marked
    read. *)
Theorem markAsRead_counts (isUUID : string → bool) (io : option Io)
    (id u : string) (w : World) :
  (¬ owns w u id → (run (markAsRead io id u) w).1 = w) ∧
  (∀ n, notifications w !! id = Some n → userId n = u →
     let w' := (run (markAsRead io id u) w).1 in
     (∀ v, unread_count v (notifications w') +
           (if decide (v = u ∧ isRead n = false) then 1 else 0)
           = unread_count v (notifications w)) ∧
     dom (notifications w') = dom (notifications w) ∧
     users w' = users w ∧ swapRequests w' = swapRequests w ∧
     console w' = console w ∧
     ∀ io', io = Some io' → isUUID id = true →
       emit_fails io' (user_room u)
         (notificationCount (unread_count u (notifications w'))) = true →
       let p := run (put_read isUUID (id_request io id u)) w in
       answer_code p.2 = Some 500%N ∧
       notifications p.1 !! id = Some (set_read (now w) n)).
Proof.
  split.
  - intros Hno. rewrite markAsRead_run.
    destruct (notifications w !! id) as [n|] eqn:Hn; [|done].
    destruct (decide (userId n = u)); [|done].
    destruct Hno. by exists n.
  - intros n Hn Hu. cbv zeta.
    assert (Hw : notifications (run (markAsRead io id u) w).1 =
                 <[id := set_read (now w) n]> (notifications w) ∧
                 users (run (markAsRead io id u) w).1 = users w ∧
                 swapRequests (run (markAsRead io id u) w).1 = swapRequests w ∧
                 console (run (markAsRead io id u) w).1 = console w).
    { rewrite markAsRead_run, Hn, decide_True by done. cbv zeta.
      destruct io as [io|]; [|done]. by destruct (emit_fails io _ _). }
    destruct Hw as (Hnot & Husers & Hsw & Hcon). rewrite Hnot.
    split_and!; try done.
    + intros v.
      pose proof (unread_count_insert_old v (notifications w) id n
                    (set_read (now w) n) Hn) as Hc.
      rewrite (decide_False (P := unread_of v (set_read (now w) n))) in Hc
        by apply unread_of_set_read.
      unfold unread_of in Hc.
      destruct (decide (userId n = v ∧ isRead n = false)) as [[? ?]|Hno].
      * rewrite decide_True by (split; congruence). lia.
      * rewrite decide_False; [lia|]. intros [-> ?]. apply Hno. done.
    + apply dom_insert_lookup_L. by exists n.
    + intros io' -> Hid Hemit.
      rewrite put_read_run, Hid, markAsRead_run, Hn, decide_True by done.
      cbv zeta. unfold count_event. cbn [notifications set_notifications].
      rewrite Hemit. cbn. by rewrite lookup_insert_eq.
Qed.

(** Witness of X11. *)
Lemma markAsRead_counts_witness :
  (run (markAsRead (Some io_up) n1_id "alice") example_inbox).1 = example_inbox ∧
  unread_count "bob"
    (notifications (run (markAsRead (Some io_up) n1_id "bob") example_inbox).1)
  + 1 = unread_count "bob" (notifications example_inbox) ∧
  answer_code
    (run (put_read uuid_shape (id_request (Some io_down) n1_id "bob"))
       example_inbox).2 = Some 500%N.
Proof.
  split_and!.
  - apply (markAsRead_counts uuid_shape). intros (n & Hn & Hu).
    vm_compute in Hn. injection Hn as <-. discriminate.
  - destruct (markAsRead_counts uuid_shape (Some io_up) n1_id "bob"
                example_inbox) as [_ Hown].
    edestruct Hown as (Hc & _); [vm_compute; reflexivity|reflexivity|].
    exact (Hc "bob").
  - destruct (markAsRead_counts uuid_shape (Some io_down) n1_id "bob"
                example_inbox) as [_ Hown].
    edestruct Hown as (_ & _ & _ & _ & _ & Hfail);
      [vm_compute; reflexivity|reflexivity|].
    apply (Hfail io_down); reflexivity.
Defined.

Lemma updateMany_fixpoint u t t' (m : gmap string Notification) :
  let f t0 := λ n, if decide (unread_of u n) then set_read t0 n else n in
  f t' <$> (f t <$> m) = f t <$> m.
Proof.
  cbv zeta. rewrite <- map_fmap_compose. apply map_fmap_ext.
  intros id n _. simpl. destruct (decide (unread_of u n)).
  - rewrite decide_False; [done|]. apply unread_of_set_read.
  - by rewrite decide_False.
Qed.

Lemma markAllAsRead_store io u w :
  notifications (run (markAllAsRead io u) w).1 =
  (λ n, if decide (unread_of u n) then set_read (now w) n else n)
    <$> notifications w ∧
  now (run (markAllAsRead io u) w).1 = now w.
Proof.
  rewrite markAllAsRead_run. cbv zeta. destruct io as [io|]; [|done].
  by destruct (emit_fails io _ _).
Qed.

(** X12. What markAllAsRead does to the store, whatever happens to its
    publish: the caller's unread rows get the read flag and the read time of
    the call, every other row is left as it is (a row that was read already
    keeps its read time), no row appears or disappears, the unread counts of
    the other users do not move, and a second call changes nothing in the
    store. *)
Theorem markAllAsRead_store_effect (io io2 : option Io) (u : string)
    (w : World) :
  let w1 := (run (markAllAsRead io u) w).1 in
  (∀ k n, notifications w !! k = Some n →
          notifications w1 !! k =
          Some (if decide (userId n = u ∧ isRead n = false)
                then set_read (now w) n else n)) ∧
  dom (notifications w1) = dom (notifications w) ∧
  (∀ v, v ≠ u →
        unread_count v (notifications w1) = unread_count v (notifications w)) ∧
  notifications (run (markAllAsRead io2 u) w1).1 = notifications w1.
Proof.
  cbv zeta.
  destruct (markAllAsRead_store io u w) as [Hnot Hnow].
  destruct (markAllAsRead_store io2 u (run (markAllAsRead io u) w).1)
    as [Hnot2 _].
  rewrite Hnot2, Hnot. split_and!.
  - intros k n Hk. rewrite lookup_fmap, Hk. simpl. unfold unread_of.
    by destruct (decide (userId n = u ∧ isRead n = false)).
  - by rewrite dom_fmap_L.
  - intros v Hv. unfold unread_count. rewrite map_filter_fmap, map_size_fmap.
    f_equal. apply map_filter_ext. intros k n _. simpl.
    destruct (decide (unread_of u n)) as [[Hu _]|Hno]; [|done].
    unfold unread_of. simpl. split; intros [? _]; congruence.
  - apply (updateMany_fixpoint u).
Qed.

(** Witness of X12. *)
Lemma markAllAsRead_store_effect_witness :
  notifications (run (markAllAsRead (Some io_down) "bob") example_inbox).1
    !! n2_id
  = Some (mkNotification "bob" PLATFORM_MESSAGE "Welcome" "Hello" None
            true (Some 2) 1) ∧
  unread_count "alice"
    (notifications (run (markAllAsRead (Some io_down) "bob") example_inbox).1)
  = unread_count "alice" (notifications example_inbox).
Proof.
  destruct (markAllAsRead_store_effect (Some io_down) None "bob" example_inbox)
    as (Hrow & _ & Hothers & _).
  split.
  - rewrite (Hrow n2_id _ eq_refl). reflexivity.
  - apply Hothers. discriminate.
Defined.

(** ** Deleting notifications *)

Lemma delete_notification_run isUUID io id u w :
  run (delete_notification isUUID (id_request io id u)) w =
  if isUUID id then
    match notifications w !! id with
    | Some n =>
        if decide (userId n = u) then
          let w1 := set_notifications (delete id (notifications w)) w in
          match io with
          | Some io' =>
              if emit_fails io' (user_room u) (count_event u w1)
              then (set_console (console w ++ ["Delete notification error:"]) w1,
                    Ok (next_error
                          (mkApiError 500 "Failed to delete notification")))
              else (set_outbox (outbox w ++ [(user_room u, count_event u w1)]) w1,
                    Ok (res_json 200 "Notification deleted successfully"
                          json_none))
          | None =>
              (w1, Ok (res_json 200 "Notification deleted successfully"
                         json_none))
          end
        else (set_console (console w ++ ["Delete notification error:"]) w,
              Ok (next_error (mkApiError 404 "Notification not found")))
    | None => (set_console (console w ++ ["Delete notification error:"]) w,
               Ok (next_error (mkApiError 404 "Notification not found")))
    end
  else failed 400 "Validation failed" w.
Proof.
  unfold delete_notification, delete_notification_handler, readValidation,
    id_request, failed, notification_delete, count_event.
  cbn [req_errors req_id req_io req_user req_body app].
  destruct (isUUID id); cbn [bool_decide negb]; [|done].
  rewrite (bool_decide_eq_true_2 ([] = [])) by done. cbn.
  destruct (notifications w !! id) as [n|]; cbn; [|done].
  destruct (decide (userId n = u)); cbn; [|done].
  destruct io as [io|]; cbn; [|done].
  by destruct (emit_fails io _ _).
Qed.

Lemma delete_clear_all_run io u w :
  run (delete_clear_all (id_request io "" u)) w =
  let w1 := set_notifications
              (filter (λ kv, userId kv.2 ≠ u) (notifications w)) w in
  let ok := res_json 200
              ("Cleared " +:+ pretty (inbox_size u (notifications w)) +:+
               " notifications") json_none in
  match io with
  | Some io' =>
      if emit_fails io' (user_room u) (notificationCount 0)
      then (set_console (console w ++ ["Clear all notifications error:"]) w1,
            Ok (next_error (mkApiError 500 "Failed to clear notifications")))
      else (set_outbox (outbox w ++ [(user_room u, notificationCount 0)]) w1,
            Ok ok)
  | None => (w1, Ok ok)
  end.
Proof.
  unfold delete_clear_all, id_request, notification_deleteMany, inbox_size.
  cbn [req_io req_user]. destruct io as [io|]; cbn; [|done].
  by destruct (emit_fails io _ _).
Qed.

Lemma get_unread_count_run io u w :
  run (get_unread_count (id_request io "" u)) w =
  (w, Ok (count_json (unread_count u (notifications w)))).
Proof. done. Qed.

Lemma unread_count_cleared (u : string) (m : gmap string Notification) :
  unread_count u (filter (λ kv, userId kv.2 ≠ u) m) = 0.
Proof.
  apply unread_count_zero_iff. intros id n Hn [Hu _].
  apply map_lookup_filter_Some in Hn as [_ Hne]. done.
Qed.

Lemma unread_count_others (u v : string) (m : gmap string Notification) :
  u ≠ v →
  unread_count v (filter (λ kv, userId kv.2 ≠ u) m) = unread_count v m.
Proof.
  intros Huv. unfold unread_count. rewrite map_filter_filter. f_equal.
  apply map_filter_ext. intros id n _. unfold unread_of. simpl.
  split; [tauto|]. intros [Hv Hr]. split_and!; [done..|]. congruence.
Qed.

(** X13. DELETE /api/notifications/:id.  An id that the validator refuses
    answers 400 before the store is looked at, even for a row of the
    caller's.  For an id that passes, the answer is 404, and nothing is
    deleted or published, exactly when the caller owns no row with that id.
    A row of the caller's is removed, and only that row: the unread counts
    move by what the row weighed.  Over a working server the answer is 200
    and the room of the caller receives the count as the store has it after
    the deletion; when that publish fails the answer is 500 although the row
    is gone. *)
Theorem delete_notification_contract (isUUID : string → bool)
    (io : option Io) (id u : string) (w : World) :
  let p := run (delete_notification isUUID (id_request io id u)) w in
  (isUUID id = false → p = failed 400 "Validation failed" w) ∧
  (isUUID id = true →
   (answer_code p.2 = Some 404%N ↔ ¬ owns w u id) ∧
   (¬ owns w u id →
    notifications p.1 = notifications w ∧ outbox p.1 = outbox w)) ∧
  (isUUID id = true →
   ∀ n, notifications w !! id = Some n → userId n = u →
     notifications p.1 = delete id (notifications w) ∧
     (∀ v, unread_count v (notifications p.1) +
           (if decide (unread_of v n) then 1 else 0)
           = unread_count v (notifications w)) ∧
     (io = None → answer_code p.2 = Some 200%N ∧ outbox p.1 = outbox w) ∧
     (∀ io', io = Some io' →
        let e := notificationCount (unread_count u (notifications p.1)) in
        if emit_fails io' (user_room u) e
        then answer_code p.2 = Some 500%N ∧ outbox p.1 = outbox w
        else answer_code p.2 = Some 200%N ∧
             outbox p.1 = outbox w ++ [(user_room u, e)])).
Proof.
  cbv zeta. rewrite delete_notification_run. split_and!.
  - by intros ->.
  - intros ->. unfold owns. split.
    + destruct (notifications w !! id) as [n|] eqn:Hn.
      * destruct (decide (userId n = u)) as [Hu|Hu].
        -- split; [|intros Hno; destruct Hno; eauto].
           cbv zeta. destruct io as [io|]; [|done].
           by destruct (emit_fails io _ _).
        -- split; [|done]. intros _ (n' & [= <-] & ?). done.
      * split; [|done]. intros _ (n' & ? & _). done.
    + intros Hno. destruct (notifications w !! id) as [n|] eqn:Hn; [|done].
      destruct (decide (userId n = u)); [|done]. destruct Hno. eauto.
  - intros -> n Hn Hu. rewrite Hn, decide_True by done. cbv zeta.
    assert (Hnot : ∀ q : World * Result Response,
      q = match io with
          | Some io' =>
              if emit_fails io' (user_room u)
                   (count_event u
                      (set_notifications (delete id (notifications w)) w))
              then (set_console (console w ++ ["Delete notification error:"])
                      (set_notifications (delete id (notifications w)) w),
                    Ok (next_error
                          (mkApiError 500 "Failed to delete notification")))
              else (set_outbox
                      (outbox w ++
                       [(user_room u,
                         count_event u
                           (set_notifications (delete id (notifications w)) w))])
                      (set_notifications (delete id (notifications w)) w),
                    Ok (res_json 200 "Notification deleted successfully"
                          json_none))
          | None =>
              (set_notifications (delete id (notifications w)) w,
               Ok (res_json 200 "Notification deleted successfully" json_none))
          end →
      notifications q.1 = delete id (notifications w)).
    { intros q ->. destruct io as [io|]; [|done].
      by destruct (emit_fails io _ _). }
    specialize (Hnot _ eq_refl). rewrite Hnot. split_and!.
    + done.
    + intros v. by apply unread_count_delete.
    + by intros ->.
    + intros io' ->. unfold count_event. cbn [notifications set_notifications].
      by destruct (emit_fails io' _ _).
Qed.

(** Witness of X13. *)
Lemma delete_notification_contract_witness :
  run (delete_notification uuid_shape (id_request None "clear-all" "bob"))
    example_inbox = failed 400 "Validation failed" example_inbox ∧
  answer_code
    (run (delete_notification uuid_shape (id_request None n3_id "bob"))
       example_inbox).2 = Some 404%N ∧
  notifications
    (run (delete_notification uuid_shape (id_request (Some io_down) n1_id "bob"))
       example_inbox).1 = delete n1_id (notifications example_inbox).
Proof.
  split_and!.
  - apply (delete_notification_contract uuid_shape None "clear-all" "bob").
    reflexivity.
  - destruct (delete_notification_contract uuid_shape None n3_id "bob"
                example_inbox) as (_ & Hnf & _).
    apply Hnf; [reflexivity|]. intros (n & Hn & Hu).
    vm_compute in Hn. injection Hn as <-. discriminate.
  - destruct (delete_notification_contract uuid_shape (Some io_down) n1_id
                "bob" example_inbox) as (_ & _ & Hown).
    edestruct Hown as (Hdel & _);
      [reflexivity|vm_compute; reflexivity|reflexivity|exact Hdel].
Defined.

(** X14. The handler registered for DELETE /api/notifications/clear-all
    removes every row of the caller and no other row.  Its answer names the
    number of rows the caller had; the count zero it publishes without
    reading the store is the count the store then holds.  When the publish
    fails the answer is 500 although the rows are gone. *)
Theorem clear_all_contract (io : option Io) (u : string) (w : World) :
  let p := run (delete_clear_all (id_request io "" u)) w in
  (∀ k n, notifications w !! k = Some n →
          notifications p.1 !! k = if decide (userId n = u) then None else Some n) ∧
  inbox_size u (notifications p.1) = 0 ∧
  unread_count u (notifications p.1) = 0 ∧
  (∀ v, v ≠ u →
        unread_count v (notifications p.1) = unread_count v (notifications w)) ∧
  (reliable io →
   p.2 = Ok (res_json 200
               ("Cleared " +:+ pretty (inbox_size u (notifications w)) +:+
                " notifications") json_none) ∧
   console p.1 = console w) ∧
  (∀ io', io = Some io' →
     if emit_fails io' (user_room u) (notificationCount 0)
     then answer_code p.2 = Some 500%N ∧ outbox p.1 = outbox w
     else outbox p.1 = outbox w ++ [(user_room u, notificationCount 0)]).
Proof.
  cbv zeta. rewrite delete_clear_all_run. cbv zeta.
  assert (Hnot : ∀ q : World * Result Response,
    q = match io with
        | Some io' =>
            if emit_fails io' (user_room u) (notificationCount 0)
            then (set_console (console w ++ ["Clear all notifications error:"])
                    (set_notifications
                       (filter (λ kv, userId kv.2 ≠ u) (notifications w)) w),
                  Ok (next_error
                        (mkApiError 500 "Failed to clear notifications")))
            else (set_outbox (outbox w ++ [(user_room u, notificationCount 0)])
                    (set_notifications
                       (filter (λ kv, userId kv.2 ≠ u) (notifications w)) w),
                  Ok (res_json 200
                        ("Cleared " +:+
                         pretty (inbox_size u (notifications w)) +:+
                         " notifications") json_none))
        | None =>
            (set_notifications
               (filter (λ kv, userId kv.2 ≠ u) (notifications w)) w,
             Ok (res_json 200
                   ("Cleared " +:+ pretty (inbox_size u (notifications w)) +:+
                    " notifications") json_none))
        end →
    notifications q.1 = filter (λ kv, userId kv.2 ≠ u) (notifications w)).
  { intros q ->. destruct io as [io|]; [|done].
    by destruct (emit_fails io _ _). }
  specialize (Hnot _ eq_refl). rewrite Hnot. split_and!.
  - intros k n Hk. destruct (decide (userId n = u)) as [Hu|Hu].
    + apply map_lookup_filter_None_2. right. intros n' Hk'. simpl.
      rewrite Hk in Hk'. injection Hk' as <-. tauto.
    + by apply map_lookup_filter_Some_2.
  - unfold inbox_size. apply map_size_empty_iff, map_empty_filter.
    intros k n Hk. simpl. apply map_lookup_filter_Some in Hk as [_ Hne].
    done.
  - apply unread_count_cleared.
  - intros v Hv. by apply unread_count_others.
  - intros Hio. destruct io as [io|]; [|done].
    by rewrite (Hio io).
  - intros io' ->. by destruct (emit_fails io' _ _).
Qed.

(** Witness of X14. *)
Lemma clear_all_contract_witness :
  (run (delete_clear_all (id_request (Some io_up) "" "bob")) example_inbox).2
  = Ok (res_json 200 "Cleared 2 notifications" json_none) ∧
  notifications
    (run (delete_clear_all (id_request (Some io_up) "" "bob")) example_inbox).1
    !! n3_id
  = Some (mkNotification "alice" PLATFORM_MESSAGE "Welcome" "Hello" None
            false None 1).
Proof.
  destruct (clear_all_contract (Some io_up) "bob" example_inbox)
    as (Hrows & _ & _ & _ & Hok & _).
  split.
  - destruct (Hok io_up_reliable) as [-> _]. vm_compute. reflexivity.
  - rewrite (Hrows n3_id _ eq_refl). reflexivity.
Defined.

(** ** No stale count *)

Lemma counts_current_nil u w' : counts_current u [] w'.
Proof. intros room e Hin. by apply elem_of_nil in Hin. Qed.

Lemma counts_current_count u w' :
  counts_current u [(user_room u, count_event u w')] w'.
Proof.
  intros room e Hin. apply list_elem_of_singleton in Hin as [= -> ->].
  split; [done|]. by intros c [= <-].
Qed.

Lemma counts_current_notification u id ty ttl msg dat t rd w' :
  counts_current u [(user_room u, notification id ty ttl msg dat t rd)] w'.
Proof.
  intros room e Hin. apply list_elem_of_singleton in Hin as [= -> ->]. done.
Qed.

Lemma counts_current_app u l1 l2 w' :
  counts_current u l1 w' → counts_current u l2 w' →
  counts_current u (l1 ++ l2) w'.
Proof.
  intros H1 H2 room e Hin. apply elem_of_app in Hin as [Hin|Hin]; eauto.
Qed.

Lemma counts_current_ext u l w1 w2 :
  notifications w1 = notifications w2 →
  counts_current u l w1 → counts_current u l w2.
Proof. unfold counts_current. by intros <-. Qed.

(** X15. No call publishes a stale count.  Whatever createNotification,
    markAsRead, markAllAsRead, DELETE /:id and the clear-all handler add to
    the outbox goes to the room of the user the call is about, and every
    unread count among it is the count the store holds for that user when the
    call is over: it is what GET /api/notifications/unread-count answers that
    user next.  This covers the counts that are computed before the publish
    (createNotification, markAsRead, DELETE) and the literal zero of the two
    calls that do not read the store. *)
Theorem published_counts_are_current (c : Call) (w : World) :
  ∃ l, outbox (after c w) = outbox w ++ l ∧
       counts_current (call_user c) l (after c w) ∧
       ∀ io room n, (room, notificationCount n) ∈ l →
         run (get_unread_count (id_request io "" (call_user c))) (after c w)
         = (after c w, Ok (count_json n)).
Proof.
  assert (Hget : ∀ l, counts_current (call_user c) l (after c w) →
    ∀ (io : option Io) room n, (room, notificationCount n) ∈ l →
      run (get_unread_count (id_request io "" (call_user c))) (after c w)
      = (after c w, Ok (count_json n))).
  { intros l Hl io room n Hin. rewrite get_unread_count_run.
    destruct (Hl _ _ Hin) as [_ Hn]. by rewrite (Hn n eq_refl). }
  cut (∃ l, outbox (after c w) = outbox w ++ l ∧
            counts_current (call_user c) l (after c w)).
  { intros (l & Hout & Hl). exists l. split_and!; [done..|]. by apply Hget. }
  clear Hget.
  destruct c as [io u ty ttl msg dat realtime|io id u|io u|isUUID io id u|io u];
    cbn [after call_user].
  - destruct realtime.
    + destruct io as [io|].
      * rewrite createNotification_Some. cbv zeta. unfold notification_event.
        destruct (emit_fails io _ (notification _ _ _ _ _ _ _)).
        { exists []. split; [by rewrite app_nil_r|apply counts_current_nil]. }
        destruct (emit_fails io _ (count_event _ _)).
        { eexists [_]. split; [done|]. apply counts_current_notification. }
        eexists [_; _]. split; [by rewrite <- app_assoc|].
        apply (counts_current_app _ [_] [_]);
          [apply counts_current_notification|].
        eapply counts_current_ext; [|apply counts_current_count]. done.
      * rewrite createNotification_None.
        exists []. split; [by rewrite app_nil_r|apply counts_current_nil].
    + rewrite createNotification_quiet.
      exists []. split; [by rewrite app_nil_r|apply counts_current_nil].
  - rewrite markAsRead_run. repeat (case_match; cbv zeta);
      try (exists []; split; [by rewrite app_nil_r|apply counts_current_nil]).
    eexists [_]. split; [done|].
    eapply counts_current_ext; [|apply counts_current_count]. done.
  - rewrite markAllAsRead_run. cbv zeta.
    repeat case_match;
      try (exists []; split; [by rewrite app_nil_r|apply counts_current_nil]).
    eexists [_]. split; [done|].
    intros room e Hin. apply list_elem_of_singleton in Hin as [= -> ->].
    split; [done|]. intros c [= <-]. cbn [notifications set_outbox fst].
    cbn. symmetry. apply updateMany_none_unread.
  - rewrite delete_notification_run. unfold failed.
    repeat (case_match; cbv zeta);
      try (exists []; split; [by rewrite app_nil_r|apply counts_current_nil]).
    eexists [_]. split; [done|].
    eapply counts_current_ext; [|apply counts_current_count]. done.
  - rewrite delete_clear_all_run. cbv zeta.
    repeat case_match;
      try (exists []; split; [by rewrite app_nil_r|apply counts_current_nil]).
    eexists [_]. split; [done|].
    intros room e Hin. apply list_elem_of_singleton in Hin as [= -> ->].
    split; [done|]. intros c [= <-]. cbn. symmetry. apply unread_count_cleared.
Qed.

(** Witness of X15. *)
Lemma published_counts_are_current_witness :
  ∃ l, outbox (after (delete_one uuid_shape (Some io_up) n1_id "bob")
                 example_inbox) = outbox example_inbox ++ l ∧
       counts_current "bob" l
         (after (delete_one uuid_shape (Some io_up) n1_id "bob") example_inbox).
Proof.
  destruct (published_counts_are_current
              (delete_one uuid_shape (Some io_up) n1_id "bob") example_inbox)
    as (l & Hout & Hl & _).
  exists l. split; [exact Hout|exact Hl].
Defined.

(** ** The router of routes/notifications.js *)

Lemma match_param_id (s : string) :
  s ≠ "" → match_path [param_id] [s] "" = Some s.
Proof. intros Hs. cbn. by rewrite decide_False. Qed.

Lemma match_literal_one (l : string) (path : list string) (id id' : string) :
  match_path [literal l] path id = Some id' →
  ∃ s, path = [s] ∧ ci_eqb l s = true ∧ id' = id.
Proof.
  destruct path as [|s [|s' path]]; cbn; try done.
  - destruct (ci_eqb l s) eqn:Hl; [|done]. intros [= <-]. eauto.
  - by destruct (ci_eqb l s).
Qed.

Lemma ci_eqb_nonempty (l s : string) : ci_eqb l s = true → l ≠ "" → s ≠ "".
Proof. by destruct l, s. Qed.

(** X16. DELETE /clear-all never reaches its handler.  The router tries the
    routes in the order of their registration, and DELETE /:id, registered
    first, matches every path of one segment: no request is dispatched to the
    clear-all handler, and DELETE /api/notifications/clear-all is answered by
    the handler of DELETE /:id with the id [clear-all], that is with 400
    "Validation failed" whenever the validator refuses that id as a UUID, and
    then no row is deleted and nothing is published.  PUT /mark-all-read, by
    contrast, is not in the way of PUT /:id/read and is reached. *)
Theorem clear_all_is_shadowed (isUUID : string → bool) (u : string)
    (io : option Io) (q : UrlQuery) (w : World) :
  (∀ m path id, dispatch notification_router m path ≠ Some (ep_clear_all, id)) ∧
  dispatch notification_router DELETE ["clear-all"]
    = Some (ep_delete, "clear-all") ∧
  (isUUID "clear-all" = false →
   run (serve isUUID DELETE ["clear-all"] u io q) w
   = (w, Ok (reply (next_error (mkApiError 400 "Validation failed"))))) ∧
  dispatch notification_router PUT ["mark-all-read"]
    = Some (ep_mark_all_read, "").
Proof.
  split_and!; [|done| |done].
  - intros m path id. unfold notification_router, dispatch.
    destruct (decide (GET = m)) as [<-|_].
    { repeat case_match; congruence. }
    destruct (decide (PUT = m)) as [<-|_].
    { repeat case_match; congruence. }
    destruct (decide (DELETE = m)) as [<-|_]; [|done].
    destruct (match_path [param_id] path "") as [id0|] eqn:Hp; [done|].
    destruct (match_path [literal "clear-all"] path "") as [id1|] eqn:Hl;
      [|done].
    apply match_literal_one in Hl as (s & -> & Hs & _).
    rewrite match_param_id in Hp; [done|].
    by eapply ci_eqb_nonempty.
  - intros Hid. unfold serve, answer_with.
    change (dispatch notification_router DELETE ["clear-all"])
      with (Some (ep_delete, "clear-all")).
    cbv iota beta. rewrite run_bind, delete_notification_run, Hid. done.
Qed.

(** Witness of X16. *)
Lemma clear_all_is_shadowed_witness :
  run (serve uuid_shape DELETE ["clear-all"] "bob" (Some io_up)
         (mkUrlQuery None None None None)) example_inbox
  = (example_inbox,
     Ok (reply (next_error (mkApiError 400 "Validation failed")))).
Proof.
  apply (clear_all_is_shadowed uuid_shape "bob" (Some io_up)
           (mkUrlQuery None None None None) example_inbox).
  reflexivity.
Defined.

(** ** utils/paginate.js *)

(** X17. getPaginationParams never returns a page or a limit below 1 or a
    negative skip, whatever the query holds.  A page or limit that is absent,
    does not start with a numeral, or is below 1 is replaced by the default
    (1 and 10); any other is taken as it is: the function sets no upper
    bound on the limit.  Page 1 starts at row 0, and, arithmetic being exact
    below 2^53, each page starts where the one before it ends. *)
Theorem getPaginationParams_bounds (query_page query_limit : option QValue) :
  let pg := getPaginationParams query_page query_limit in
  (1 ≤ page pg ∧ 1 ≤ limit pg ∧ 0 ≤ skip pg)%Z ∧
  (∀ z, parseInt query_page = Num z → (1 ≤ z)%Z → page pg = z) ∧
  (∀ z, parseInt query_limit = Num z → (1 ≤ z)%Z → limit pg = z) ∧
  (parseInt query_page = NaN ∨
   (∃ z, parseInt query_page = Num z ∧ (z < 1)%Z) → page pg = 1%Z) ∧
  (parseInt query_limit = NaN ∨
   (∃ z, parseInt query_limit = Num z ∧ (z < 1)%Z) → limit pg = 10%Z) ∧
  (page pg = 1%Z → skip pg = 0%Z) ∧
  (∀ z, parseInt query_page = Num z → (1 ≤ z)%Z →
        (z * limit pg < 2 ^ 53)%Z →
        skip (getPaginationParams (Some (q_num (Num (z + 1)))) query_limit)
        = (skip pg + limit pg)%Z).
Proof.
  cbv zeta. unfold getPaginationParams. cbn [page limit skip parseInt].
  set (p := match parseInt query_page with
            | NaN => 1%Z
            | Num z => if (z <? 1)%Z then 1%Z else z
            end).
  set (l := match parseInt query_limit with
            | NaN => 10%Z
            | Num z => if (z <? 1)%Z then 10%Z else z
            end).
  assert (Hp : (1 ≤ p)%Z).
  { subst p. destruct (parseInt query_page) as [|z]; [lia|].
    destruct (Z.ltb_spec z 1); lia. }
  assert (Hl : (1 ≤ l)%Z).
  { subst l. destruct (parseInt query_limit) as [|z]; [lia|].
    destruct (Z.ltb_spec z 1); lia. }
  split_and!; try nia.
  - intros z Hz Hz1. subst p. rewrite Hz. destruct (Z.ltb_spec z 1); lia.
  - intros z Hz Hz1. subst l. rewrite Hz. destruct (Z.ltb_spec z 1); lia.
  - intros [Hz|(z & Hz & Hz1)]; subst p; rewrite Hz; [done|].
    destruct (Z.ltb_spec z 1); lia.
  - intros [Hz|(z & Hz & Hz1)]; subst l; rewrite Hz; [done|].
    destruct (Z.ltb_spec z 1); lia.
  - intros z Hz Hz1 _.
    assert (p = z) as ->.
    { subst p. rewrite Hz. destruct (Z.ltb_spec z 1); lia. }
    destruct (Z.ltb_spec (z + 1) 1); lia.
Qed.

(** Witness of X17. *)
Lemma getPaginationParams_bounds_witness :
  page (getPaginationParams (Some (q_text " 3rd")) (Some (q_text "0"))) = 3%Z ∧
  limit (getPaginationParams (Some (q_text " 3rd")) (Some (q_text "0")))
  = 10%Z ∧
  skip (getPaginationParams (Some (q_num (Num (3 + 1)))) (Some (q_text "0")))
  = (skip (getPaginationParams (Some (q_text " 3rd")) (Some (q_text "0")))
     + 10)%Z.
Proof.
  destruct (getPaginationParams_bounds (Some (q_text " 3rd"))
              (Some (q_text "0")))
    as (_ & Hp & _ & _ & Hl & _ & Hnext).
  split_and!.
  - apply Hp; [reflexivity|lia].
  - apply Hl. right. exists 0%Z. split; [reflexivity|lia].
  - rewrite (Hnext 3%Z); [reflexivity|reflexivity|lia|reflexivity].
Defined.

(** ** The listing *)

Lemma digit_not_space c d : digit c = Some d → is_space c = false.
Proof.
  unfold digit, is_space. cbv zeta.
  destruct (Nat.leb_spec 48 (Ascii.nat_of_ascii c)); [|done].
  destruct (Nat.leb_spec (Ascii.nat_of_ascii c) 57); [|done]. intros _.
  destruct (Nat.leb_spec 9 (Ascii.nat_of_ascii c)); [|lia].
  destruct (Nat.leb_spec (Ascii.nat_of_ascii c) 13); [lia|].
  destruct (Nat.eqb_spec (Ascii.nat_of_ascii c) 32); [lia|].
  destruct (Nat.eqb_spec (Ascii.nat_of_ascii c) 160); [lia|]. done.
Qed.

Lemma code_not_space c n :
  Nat.eqb (Ascii.nat_of_ascii c) n = true → 32 < n < 160 → is_space c = false.
Proof.
  intros Hc%Nat.eqb_eq Hn. unfold is_space. cbv zeta. rewrite Hc.
  destruct (Nat.leb_spec 9 n); [|lia].
  destruct (Nat.leb_spec n 13); [lia|].
  destruct (Nat.eqb_spec n 32); [lia|].
  destruct (Nat.eqb_spec n 160); [lia|]. done.
Qed.

(** A string that [isInt] lets through is read by [parseInt] as the integer
    it spells, and that integer is within the bounds. *)
Lemma isInt_parseInt min max s :
  isInt min max s = true →
  ∃ z, parseInt_text s = Num z ∧ (min ≤ z)%Z ∧ ∀ m, max = Some m → (z ≤ m)%Z.
Proof.
  unfold isInt, parseInt_text. intros Hint.
  assert (Hl : ltrim s = s).
  { destruct s as [|c s']; [done|]. cbn in Hint |- *.
    destruct (Nat.eqb (Ascii.nat_of_ascii c) 45) eqn:H45.
    { by rewrite (code_not_space c 45) by (done || lia). }
    destruct (Nat.eqb (Ascii.nat_of_ascii c) 43) eqn:H43.
    { by rewrite (code_not_space c 43) by (done || lia). }
    cbn in Hint. destruct (digit c) as [d|] eqn:Hd; [|done].
    by rewrite (digit_not_space c d). }
  rewrite Hl. destruct (signed s) as [neg s1].
  destruct (numeral None s1) as [[z|] rest]; [|done].
  destruct rest; [|done]. cbn [fst].
  apply andb_true_iff in Hint as [Hmin Hmax].
  eexists. split; [done|]. split; [lia|].
  intros m ->. cbn in Hmax. lia.
Qed.

Lemma check_nil (ok : string → bool) (v : option string) :
  check ok v = [] ↔ passes ok v.
Proof. destruct v as [s|]; cbn; [|done]. by destruct (ok s). Qed.

Lemma listValidation_errors u io id q :
  req_errors (listValidation (mkRequest u io id q [])) = [] ↔ valid_query q.
Proof.
  unfold listValidation, valid_query. cbn [req_errors req_body app].
  by rewrite !app_nil, !check_nil.
Qed.

Lemma get_notifications_run u io id q w :
  run (get_notifications (mkRequest u io id q [])) w =
  (w, Ok (if bool_decide (valid_query q) then
            let pg := getPaginationParams (q_text <$> u_page q)
                        (q_text <$> u_limit q) in
            let wh := whereConditions u (toBoolean <$> u_unread q) (u_type q) in
            let total := size (filter (λ kv, wh kv.2) (notifications w)) in
            list_json
              (mkNotificationPage (page pg) (limit pg)
                 (ceil_div total (limit pg)) total
                 (unread_count u (notifications w))
                 (listed <$>
                    take (Z.to_nat (limit pg))
                      (drop (Z.to_nat (skip pg))
                         (newest wh (notifications w)))))
          else list_error (mkApiError 400 "Validation failed"))).
Proof.
  unfold get_notifications, get_notifications_handler.
  rewrite (bool_decide_ext _ _ (listValidation_errors u io id q)).
  destruct (bool_decide (valid_query q)); [|done]. cbn.
  repeat f_equal; by destruct (u_page q), (u_limit q).
Qed.

Lemma newest_first_trans : Transitive newest_first.
Proof. unfold newest_first. intros a b c ??. lia. Qed.

Lemma newest_first_total : Total newest_first.
Proof. unfold newest_first. intros a b. lia. Qed.

Lemma window_sublist (P : Notification → Prop) `{!∀ n, Decision (P n)}
    (m : gmap string Notification) (a b : nat) :
  take a (drop b (newest P m)) `sublist_of` newest P m.
Proof. etrans; [apply sublist_take|apply sublist_drop]. Qed.

Lemma window_elem (P : Notification → Prop) `{!∀ n, Decision (P n)}
    (m : gmap string Notification) (a b : nat) k n :
  (k, n) ∈ take a (drop b (newest P m)) → m !! k = Some n ∧ P n.
Proof.
  intros Hin. eapply elem_of_sublist in Hin; [|apply window_sublist].
  unfold newest in Hin. rewrite merge_sort_Permutation in Hin.
  by apply elem_of_map_to_list, map_lookup_filter_Some in Hin.
Qed.

Lemma window_NoDup (P : Notification → Prop) `{!∀ n, Decision (P n)}
    (m : gmap string Notification) (a b : nat) :
  NoDup ((take a (drop b (newest P m))).*1).
Proof.
  eapply sublist_NoDup; [|apply fmap_sublist, window_sublist].
  unfold newest. rewrite merge_sort_Permutation. apply NoDup_fst_map_to_list.
Qed.

Lemma window_length (P : Notification → Prop) `{!∀ n, Decision (P n)}
    (m : gmap string Notification) (a b : nat) :
  length (take a (drop b (newest P m))) ≤ a ∧
  length (take a (drop b (newest P m))) ≤ size (filter (λ kv, P kv.2) m).
Proof.
  split.
  - rewrite length_take. lia.
  - etrans; [apply sublist_length, window_sublist|].
    unfold newest. by rewrite merge_sort_Permutation, length_map_to_list.
Qed.

Lemma window_sorted (P : Notification → Prop) `{!∀ n, Decision (P n)}
    (m : gmap string Notification) (a b : nat) :
  StronglySorted newest_first (take a (drop b (newest P m))).
Proof.
  assert (Hl : StronglySorted newest_first (newest P m)).
  { apply (@StronglySorted_merge_sort _ newest_first _ newest_first_trans
             newest_first_total). }
  rewrite <- (take_drop b (newest P m)) in Hl.
  apply StronglySorted_app_1_r in Hl.
  rewrite <- (take_drop a (drop b (newest P m))) in Hl.
  by apply StronglySorted_app_1_l in Hl.
Qed.

Lemma ceil_div_spec (total : nat) (l : Z) :
  (1 ≤ l)%Z →
  (Z.of_nat total ≤ ceil_div total l * l)%Z ∧
  (0 < total → ((ceil_div total l - 1) * l < Z.of_nat total)%Z).
Proof.
  intros Hl. unfold ceil_div.
  pose proof (Z.div_mod (Z.of_nat total + l - 1) l ltac:(lia)) as Hdm.
  pose proof (Z.mod_pos_bound (Z.of_nat total + l - 1) l ltac:(lia)) as Hb.
  split; [nia|]. intros Hpos. nia.
Qed.

Lemma toBoolean_spec s :
  isBoolean s = true →
  toBoolean s = bool_decide (s = "true" ∨ s = "1").
Proof.
  unfold isBoolean. intros Hs%bool_decide_eq_true.
  repeat (apply elem_of_cons in Hs as [->|Hs]; [done|]).
  by apply elem_of_nil in Hs.
Qed.

(** X18. GET /api/notifications.  The route never writes: it leaves the
    world as it was.  It answers 400 exactly when one of the four query
    fields is refused by its validation chain.  Otherwise, for a window of
    rows within the range of the store's integers, it answers with a page:
    its number is at least 1 and its limit between 1 and 50 (10 when none
    is asked for); it lists at most [limit] rows, no row twice, newest
    first, each of them a row of the caller that meets the filters asked
    for ([unread] true or 1: unread rows only; false or 0: read rows only);
    [totalNotifications] counts the rows that meet the filters and
    [totalPages] is that count divided by the limit, rounded up;
    [unreadCount] is the caller's unread count whatever the filters are. *)
Theorem get_notifications_contract (u : string) (io : option Io)
    (q : UrlQuery) (w : World) :
  let p := run (get_notifications (mkRequest u io "" q [])) w in
  let wh := whereConditions u (toBoolean <$> u_unread q) (u_type q) in
  p.1 = w ∧
  (p.2 = Ok (list_error (mkApiError 400 "Validation failed"))
   ↔ ¬ valid_query q) ∧
  (valid_query q →
   in_store_range (getPaginationParams (q_text <$> u_page q)
                     (q_text <$> u_limit q)) →
   ∃ pg, p.2 = Ok (list_json pg) ∧
     (1 ≤ p_page pg)%Z ∧ (1 ≤ p_limit pg ≤ 50)%Z ∧
     (u_limit q = None → p_limit pg = 10%Z) ∧
     length (p_notifications pg) ≤ Z.to_nat (p_limit pg) ∧
     length (p_notifications pg) ≤ totalNotifications pg ∧
     totalNotifications pg
       = size (filter (λ kv, wh kv.2) (notifications w)) ∧
     (Z.of_nat (totalNotifications pg) ≤ totalPages pg * p_limit pg)%Z ∧
     (0 < totalNotifications pg →
      ((totalPages pg - 1) * p_limit pg < Z.of_nat (totalNotifications pg))%Z) ∧
     unreadCount pg = unread_count u (notifications w) ∧
     NoDup (l_id <$> p_notifications pg) ∧
     StronglySorted newer_or_same (p_notifications pg) ∧
     ∀ r, r ∈ p_notifications pg →
       ∃ n, notifications w !! l_id r = Some n ∧ r = listed (l_id r, n) ∧
            userId n = u ∧
            (u_unread q = Some "true" ∨ u_unread q = Some "1" →
             isRead n = false) ∧
            (u_unread q = Some "false" ∨ u_unread q = Some "0" →
             isRead n = true) ∧
            (∀ t, u_type q = Some t → type_string (type n) = t)).
Proof.
  cbv zeta. rewrite get_notifications_run. cbn [fst snd]. split_and!.
  - done.
  - destruct (bool_decide (valid_query q)) eqn:Hv.
    + apply bool_decide_eq_true in Hv. split; [done|tauto].
    + apply bool_decide_eq_false in Hv. done.
  - intros Hv _. rewrite bool_decide_eq_true_2 by done. cbv zeta.
    eexists. split; [done|]. cbn [p_page p_limit totalPages totalNotifications
      unreadCount p_notifications].
    destruct Hv as (Hpage & Hlimit & Hunread & Htype).
    set (pg := getPaginationParams _ _).
    destruct (getPaginationParams_bounds (q_text <$> u_page q)
                (q_text <$> u_limit q))
      as ((Hp1 & Hl1 & _) & _ & Hlz & _ & Hldef & _).
    fold pg in Hp1, Hl1, Hlz, Hldef.
    assert (Hl50 : (limit pg ≤ 50)%Z).
    { destruct (u_limit q) as [s|] eqn:Hs.
      - cbn in Hlimit. apply isInt_parseInt in Hlimit as (z & Hz & Hz1 & Hz50).
        rewrite (Hlz z); [by apply Hz50|done..].
      - rewrite Hldef; [lia|]. by left. }
    destruct (ceil_div_spec
                (size (filter
                   (λ kv, whereConditions u (toBoolean <$> u_unread q)
                            (u_type q) kv.2) (notifications w)))
                (limit pg) Hl1) as [Hc2 Hc1].
    pose proof (window_length
                  (whereConditions u (toBoolean <$> u_unread q) (u_type q))
                  (notifications w) (Z.to_nat (limit pg)) (Z.to_nat (skip pg)))
      as [Hlen1 Hlen2].
    split_and!; try done.
    + intros Hnone. apply Hldef. left. by rewrite Hnone.
    + by rewrite length_fmap.
    + by rewrite length_fmap.
    + rewrite <- list_fmap_compose. apply window_NoDup.
    + eapply (StronglySorted_fmap _ newest_first); [done|].
      apply window_sorted.
    + intros r Hr. apply list_elem_of_fmap in Hr as ([k n] & -> & Hin).
      apply window_elem in Hin as [Hk (Hu & Hread & Hty)].
      exists n. cbn [l_id listed fst]. split_and!; try done.
      * intros Hq. destruct (u_unread q) as [s|]; [|by destruct Hq].
        cbn in Hread, Hunread. rewrite toBoolean_spec in Hread by done.
        rewrite Hread, bool_decide_eq_true_2; [done|].
        destruct Hq as [[= ->]|[= ->]]; tauto.
      * intros Hq. destruct (u_unread q) as [s|]; [|by destruct Hq].
        cbn in Hread, Hunread. rewrite toBoolean_spec in Hread by done.
        rewrite Hread, bool_decide_eq_false_2; [done|].
        destruct Hq as [[= ->]|[= ->]]; intros [?|?]; done.
      * intros t Ht. rewrite Ht in Hty, Htype. cbn in Htype.
        apply bool_decide_eq_true in Htype.
        destruct (decide (t = "")) as [->|_]; [|done].
        repeat (apply elem_of_cons in Htype as [?|Htype]; [done|]).
        by apply elem_of_nil in Htype.
Qed.

(** Witness of X18. *)
Lemma get_notifications_contract_witness :
  ∃ pg,
    (run (get_notifications
            (mkRequest "bob" None ""
               (mkUrlQuery None (Some "1") (Some "true") None) []))
       example_inbox).2 = Ok (list_json pg) ∧
    (1 ≤ p_limit pg ≤ 50)%Z ∧
    length (p_notifications pg) ≤ Z.to_nat (p_limit pg) ∧
    unreadCount pg = unread_count "bob" (notifications example_inbox).
Proof.
  destruct (get_notifications_contract "bob" None
              (mkUrlQuery None (Some "1") (Some "true") None) example_inbox)
    as (_ & _ & Hpage).
  destruct Hpage as (pg & Hpg & _ & Hlimit & _ & Hlen & _ & _ & _ & _ & Hun & _).
  - unfold valid_query. cbn. split_and!; reflexivity.
  - vm_compute. reflexivity.
  - exists pg. exact (conj Hpg (conj Hlimit (conj Hlen Hun))).
Defined.

(** X19. Of the types under which the service stores notifications, the
    listing can be filtered for every one except SYSTEM_ALERT: the
    validation chain of [type] does not list it, and a request for it is
    answered 400 whatever rows the caller has. *)
Theorem system_alerts_cannot_be_filtered (u : string) (io : option Io)
    (ty : NotificationType) (w : World) :
  (run (get_notifications
          (mkRequest u io "" (mkUrlQuery None None None (Some (type_string ty)))
             [])) w).2
  = Ok (list_error (mkApiError 400 "Validation failed"))
  ↔ ty = SYSTEM_ALERT.
Proof.
  rewrite get_notifications_run. cbn [snd].
  assert (Hv : valid_query (mkUrlQuery None None None (Some (type_string ty)))
               ↔ ty ≠ SYSTEM_ALERT).
  { unfold valid_query, passes. cbn [u_page u_limit u_unread u_type].
    destruct ty; cbn [type_string];
      (split; [intros (_ & _ & _ & Hin); try discriminate;
               by vm_compute in Hin
              |intros Hne; try done; split_and!; try done;
               vm_compute; reflexivity]). }
  destruct (bool_decide (valid_query _)) eqn:Hb.
  - apply bool_decide_eq_true, Hv in Hb. split; [discriminate|done].
  - apply bool_decide_eq_false in Hb. split; [|done]. intros _.
    destruct (decide (ty = SYSTEM_ALERT)) as [|Hne]; [done|].
    exfalso. by apply Hb, Hv.
Qed.

(** Witness of X19. *)
Lemma system_alerts_cannot_be_filtered_witness :
  (run (get_notifications
          (mkRequest "bob" None ""
             (mkUrlQuery None None None (Some "SYSTEM_ALERT")) []))
     example_inbox).2
  = Ok (list_error (mkApiError 400 "Validation failed")).
Proof.
  apply (system_alerts_cannot_be_filtered "bob" None SYSTEM_ALERT
           example_inbox).
  reflexivity.
Defined.

(** ** Reading swaps *)

Lemma latest_first_trans : Transitive latest_first.
Proof. unfold latest_first. intros a b c ??. lia. Qed.

Lemma latest_first_total : Total latest_first.
Proof. unfold latest_first. intros a b. lia. Qed.

Lemma swap_list_elem (P : SwapRequest → Prop) `{!∀ s, Decision (P s)}
    (m : gmap string SwapRequest) k s :
  (k, s) ∈ latest P m ↔ m !! k = Some s ∧ P s.
Proof.
  unfold latest. rewrite merge_sort_Permutation, elem_of_map_to_list.
  by rewrite map_lookup_filter_Some.
Qed.

Lemma swap_list_NoDup (P : SwapRequest → Prop) `{!∀ s, Decision (P s)}
    (m : gmap string SwapRequest) :
  NoDup ((latest P m).*1).
Proof.
  unfold latest. rewrite merge_sort_Permutation. apply NoDup_fst_map_to_list.
Qed.

Lemma swap_list_length (P : SwapRequest → Prop) `{!∀ s, Decision (P s)}
    (m : gmap string SwapRequest) :
  length (latest P m) = size (filter (λ kv, P kv.2) m).
Proof. unfold latest. by rewrite merge_sort_Permutation, length_map_to_list. Qed.

Lemma swap_list_sorted (P : SwapRequest → Prop) `{!∀ s, Decision (P s)}
    (m : gmap string SwapRequest) :
  StronglySorted latest_first (latest P m).
Proof.
  apply (@StronglySorted_merge_sort _ latest_first _ latest_first_trans
           latest_first_total).
Qed.

Lemma swap_count_insert (P : SwapRequest → Prop) `{!∀ s, Decision (P s)}
    (m : gmap string SwapRequest) (k : string) (s : SwapRequest) :
  m !! k = None →
  size (filter (λ kv, P kv.2) (<[k := s]> m)) =
  size (filter (λ kv, P kv.2) m) + (if decide (P s) then 1 else 0).
Proof.
  intros Hk. case_decide as Hs.
  - rewrite map_filter_insert_True by done.
    rewrite map_size_insert_None; [lia|].
    apply map_lookup_filter_None_2. by left.
  - rewrite map_filter_insert_not'; [lia|done|].
    intros y Hy. congruence.
Qed.

(** The rows somebody sent, counted status by status. *)
Lemma sent_by_status (u : string) (m : gmap string SwapRequest) :
  size (filter (λ kv, sent_by u None kv.2) m) =
  sent_in u PENDING m + sent_in u ACCEPTED m + sent_in u COMPLETED m +
  sent_in u REJECTED m + sent_in u CANCELLED m.
Proof.
  unfold sent_in. induction m as [|k s m Hk _ IH] using map_first_key_ind.
  - by rewrite !map_filter_empty, !map_size_empty.
  - rewrite !swap_count_insert, IH by done.
    unfold sent_by, status_is.
    repeat case_decide; try lia; destruct (status s); intuition congruence.
Qed.

Lemma get_swap_run io id u w :
  run (get_swap (id_request io id u)) w =
  (w, Ok match swapRequests w !! id with
         | None => swap_error (mkApiError 404 "Swap request not found")
         | Some s =>
             if decide (party u s) then swap_json (with_relations w id s)
             else swap_error
                    (mkApiError 403 "You can only view swaps you are part of")
         end).
Proof.
  unfold get_swap, id_request, party. cbn.
  destruct (swapRequests w !! id) as [s|]; cbn; [|done].
  destruct (decide (senderId s = u ∨ receiverId s = u)) as [Hp|Hp].
  - destruct Hp as [Hp|Hp]; rewrite (bool_decide_eq_true_2 _ Hp); cbn;
      [done|]. by destruct (bool_decide (senderId s = u)).
  - rewrite !bool_decide_eq_false_2 by tauto. done.
Qed.

(** X20. GET /api/swaps/:id never writes.  It answers with the row, and the
    names of its two users, exactly to the sender and the receiver of the
    swap; anybody else gets 403, and an id that no row has gets 404.  The
    four transitions draw the same line: somebody who is not a party is
    refused by each of them as Forbidden, in whatever status the row is, and
    whoever a transition does not turn away as NotFound or Forbidden can
    read the swap. *)
Theorem get_swap_contract (io : option Io) (id u : string) (w : World) :
  let p := run (get_swap (id_request io id u)) w in
  p.1 = w ∧
  (swapRequests w !! id = None →
   p.2 = Ok (swap_error (mkApiError 404 "Swap request not found"))) ∧
  (∀ s, swapRequests w !! id = Some s →
     (party u s → p.2 = Ok (swap_json (with_relations w id s))) ∧
     (¬ party u s →
      p.2 = Ok (swap_error
                  (mkApiError 403 "You can only view swaps you are part of")) ∧
      ∀ op, op ∈ [accept io id u; reject io id u; cancel io id u;
                  complete io id u] →
            answers op w Forbidden w)) ∧
  (∀ op, op ∈ [accept io id u; reject io id u; cancel io id u;
               complete io id u] →
         outcome op (run (exec op) w).2 ≠ NotFound →
         outcome op (run (exec op) w).2 ≠ Forbidden →
         ∃ s, swapRequests w !! id = Some s ∧
              p.2 = Ok (swap_json (with_relations w id s))).
Proof.
  cbv zeta. rewrite get_swap_run. cbn [fst snd]. split_and!.
  - done.
  - by intros ->.
  - intros s Hs. rewrite Hs. split.
    + intros Hp. by rewrite decide_True.
    + intros Hp. rewrite decide_False by done. split; [done|].
      unfold party in Hp. intros op Hop. unfold answers, exec.
      repeat (apply elem_of_cons in Hop as [->|Hop]);
        [..|by apply elem_of_nil in Hop].
      * rewrite put_accept_run. cbn. rewrite Hs.
        rewrite bool_decide_eq_false_2 by tauto. done.
      * rewrite put_reject_run. cbn. rewrite Hs.
        rewrite bool_decide_eq_false_2 by tauto. done.
      * rewrite put_cancel_run. cbn. rewrite Hs.
        rewrite bool_decide_eq_false_2 by tauto. done.
      * rewrite put_complete_run. cbn. rewrite Hs.
        rewrite !bool_decide_eq_false_2 by tauto. done.
  - intros op Hop Hnf Hfb. unfold exec in Hnf, Hfb.
    destruct (swapRequests w !! id) as [s|] eqn:Hs.
    + exists s. split; [done|]. rewrite decide_True; [done|].
      unfold party.
      destruct (decide (senderId s = u)) as [|Hsn]; [by left|].
      destruct (decide (receiverId s = u)) as [|Hrc]; [by right|].
      exfalso. apply Hfb.
      repeat (apply elem_of_cons in Hop as [->|Hop]);
        [..|by apply elem_of_nil in Hop].
      * rewrite put_accept_run. cbn. rewrite Hs.
        rewrite bool_decide_eq_false_2 by tauto. done.
      * rewrite put_reject_run. cbn. rewrite Hs.
        rewrite bool_decide_eq_false_2 by tauto. done.
      * rewrite put_cancel_run. cbn. rewrite Hs.
        rewrite bool_decide_eq_false_2 by tauto. done.
      * rewrite put_complete_run. cbn. rewrite Hs.
        rewrite !bool_decide_eq_false_2 by tauto. done.
    + exfalso. apply Hnf.
      repeat (apply elem_of_cons in Hop as [->|Hop]);
        [..|by apply elem_of_nil in Hop].
      * rewrite put_accept_run. cbn. by rewrite Hs.
      * rewrite put_reject_run. cbn. by rewrite Hs.
      * rewrite put_cancel_run. cbn. by rewrite Hs.
      * rewrite put_complete_run. cbn. by rewrite Hs.
Qed.

(** Witness of X20. *)
Lemma get_swap_contract_witness :
  (run (get_swap (id_request None "s1" "bob")) (example_world PENDING)).2
  = Ok (swap_json (with_relations (example_world PENDING) "s1"
                     (guitar_for_excel PENDING))) ∧
  (run (get_swap (id_request None "s1" "carol")) (example_world PENDING)).2
  = Ok (swap_error (mkApiError 403 "You can only view swaps you are part of")).
Proof.
  split.
  - destruct (get_swap_contract None "s1" "bob" (example_world PENDING))
      as (_ & _ & Hrow & _).
    apply (Hrow (guitar_for_excel PENDING)); [reflexivity|]. by right.
  - destruct (get_swap_contract None "s1" "carol" (example_world PENDING))
      as (_ & _ & Hrow & _).
    apply (Hrow (guitar_for_excel PENDING)); [reflexivity|].
    intros [?|?]; discriminate.
Defined.

Lemma received_by_status (u : string) (m : gmap string SwapRequest) :
  size (filter (λ kv, received_by u None kv.2) m) =
  received_in u PENDING m + received_in u ACCEPTED m +
  received_in u COMPLETED m + received_in u REJECTED m +
  received_in u CANCELLED m.
Proof.
  unfold received_in. induction m as [|k s m Hk _ IH] using map_first_key_ind.
  - by rewrite !map_filter_empty, !map_size_empty.
  - rewrite !swap_count_insert, IH by done.
    unfold received_by, status_is.
    repeat case_decide; try lia; destruct (status s); intuition congruence.
Qed.

Lemma get_swaps_run io u (query_status : option string) w :
  run (get_swaps (mkRequest u io "" query_status [])) w =
  let st := status_filter query_status in
  let count P `{!∀ s, Decision (P s)} :=
    size (filter (λ kv, P kv.2) (swapRequests w)) in
  (w, Ok (swaps_json
            (mkSwapLists
               ((λ kv, mkListedSwap kv.1 kv.2 (user_name w (receiverId kv.2)))
                  <$> latest (sent_by u st) (swapRequests w))
               ((λ kv, mkListedSwap kv.1 kv.2 (user_name w (senderId kv.2)))
                  <$> latest (received_by u st) (swapRequests w))
               (mkSwapStats (count (sent_by u None))
                  (count (sent_by u (Some PENDING)))
                  (count (sent_by u (Some ACCEPTED)))
                  (count (sent_by u (Some COMPLETED))))
               (mkSwapStats (count (received_by u None))
                  (count (received_by u (Some PENDING)))
                  (count (received_by u (Some ACCEPTED)))
                  (count (received_by u (Some COMPLETED))))
               (match query_status with
                | Some s => if decide (s = "") then "all" else s
                | None => "all"
                end)))).
Proof. done. Qed.

Lemma listed_swap_elem (P : SwapRequest → Prop) `{!∀ s, Decision (P s)}
    (w : World) (other : SwapRequest → string) (r : ListedSwap) :
  r ∈ (λ kv : string * SwapRequest,
         mkListedSwap kv.1 kv.2 (user_name w (other kv.2)))
      <$> latest P (swapRequests w)
  ↔ shows w other r ∧ P (ls_row r).
Proof.
  rewrite list_elem_of_fmap. unfold shows. split.
  - intros ([k s] & -> & Hin). apply swap_list_elem in Hin as [Hk HP].
    cbn. done.
  - intros ((Hk & Ho) & HP). exists (ls_id r, ls_row r). split.
    + destruct r as [k s o]. cbn in *. by subst o.
    + by apply swap_list_elem.
Qed.

Lemma ci_eqb_join (s a b : string) :
  ci_eqb s a = true → ci_eqb s b = true → ci_eqb a b = true.
Proof.
  revert a b. induction s as [|c s IH]; intros [|x a] [|y b]; cbn; try done.
  intros [Hx Ha]%andb_true_iff [Hy Hb]%andb_true_iff.
  apply Nat.eqb_eq in Hx, Hy. apply andb_true_iff. split.
  - apply Nat.eqb_eq. congruence.
  - by apply IH.
Qed.

Lemma status_filter_spec (s : string) (x : SwapStatus) :
  status_filter (Some s) = Some x ↔ ci_eqb s (status_string x) = true.
Proof.
  unfold status_filter. cbn. split.
  - repeat (case_match; [by intros [= <-]|]). done.
  - intros Hx.
    repeat (case_match;
            [f_equal;
             match goal with
             | H : ci_eqb s _ = true |- _ =>
                 pose proof (ci_eqb_join _ _ _ H Hx) as Hj
             end; by destruct x|]).
    by destruct x; cbn in Hx; congruence.
Qed.

(** X21. GET /api/swaps never writes and never refuses.  [sent] holds
    exactly the rows the caller sent, [received] exactly the rows sent to the
    caller, each with the name of the other user, no row twice, latest
    first; a [status] in the query that names one of the five statuses, in
    whatever case, restricts both lists to it, and any other [status] has no
    effect.  The statistics do not follow the filter.  They leave out the
    REJECTED and the CANCELLED rows: [total] is the sum of the three counts
    reported and of those two. *)
Theorem get_swaps_contract (io : option Io) (u : string)
    (query_status : option string) (w : World) :
  let p := run (get_swaps (mkRequest u io "" query_status [])) w in
  let st := status_filter query_status in
  p.1 = w ∧
  (∀ s x, query_status = Some s →
          st = Some x ↔ ci_eqb s (status_string x) = true) ∧
  ∃ l, p.2 = Ok (swaps_json l) ∧
    (∀ r, r ∈ sent l ↔
          shows w receiverId r ∧ senderId (ls_row r) = u ∧
          status_is st (ls_row r)) ∧
    (∀ r, r ∈ received l ↔
          shows w senderId r ∧ receiverId (ls_row r) = u ∧
          status_is st (ls_row r)) ∧
    NoDup (ls_id <$> sent l) ∧ NoDup (ls_id <$> received l) ∧
    StronglySorted later_or_same (sent l) ∧
    StronglySorted later_or_same (received l) ∧
    (∀ x, st = Some x →
          length (sent l) = sent_in u x (swapRequests w) ∧
          length (received l) = received_in u x (swapRequests w)) ∧
    (st = None →
     length (sent l) = st_total (stats_sent l) ∧
     length (received l) = st_total (stats_received l)) ∧
    st_total (stats_sent l) =
      st_pending (stats_sent l) + st_accepted (stats_sent l) +
      st_completed (stats_sent l) + sent_in u REJECTED (swapRequests w) +
      sent_in u CANCELLED (swapRequests w) ∧
    st_total (stats_received l) =
      st_pending (stats_received l) + st_accepted (stats_received l) +
      st_completed (stats_received l) +
      received_in u REJECTED (swapRequests w) +
      received_in u CANCELLED (swapRequests w).
Proof.
  cbv zeta. rewrite get_swaps_run. cbv zeta. cbn [fst snd].
  split; [done|]. split; [intros s x ->; apply status_filter_spec|].
  eexists. split; [done|].
  cbn [sent received stats_sent stats_received st_total st_pending st_accepted
       st_completed].
  split_and!.
  - intros r. rewrite listed_swap_elem. unfold sent_by. tauto.
  - intros r. rewrite listed_swap_elem. unfold received_by. tauto.
  - rewrite <- list_fmap_compose. apply swap_list_NoDup.
  - rewrite <- list_fmap_compose. apply swap_list_NoDup.
  - eapply (StronglySorted_fmap _ latest_first); [done|].
    apply swap_list_sorted.
  - eapply (StronglySorted_fmap _ latest_first); [done|].
    apply swap_list_sorted.
  - intros x ->. by rewrite !length_fmap, !swap_list_length.
  - intros ->. by rewrite !length_fmap, !swap_list_length.
  - apply sent_by_status.
  - apply received_by_status.
Qed.

(** Witness of X21. *)
Lemma get_swaps_contract_witness :
  ∃ l, (run (get_swaps (mkRequest "alice" None "" (Some "Pending") []))
          (example_world PENDING)).2 = Ok (swaps_json l) ∧
       length (sent l) = sent_in "alice" PENDING
                           (swapRequests (example_world PENDING)) ∧
       length (received l) = received_in "alice" PENDING
                               (swapRequests (example_world PENDING)).
Proof.
  destruct (get_swaps_contract None "alice" (Some "Pending")
              (example_world PENDING))
    as (_ & _ & l & Hl & _ & _ & _ & _ & _ & _ & Hst & _).
  exists l. split; [exact Hl|]. apply Hst. reflexivity.
Defined.

Lemma swap_filter_insert_other (P : SwapRequest → Prop)
    `{!∀ s, Decision (P s)} (m : gmap string SwapRequest) (k : string)
    (s : SwapRequest) :
  m !! k = None → ¬ P s →
  filter (λ kv, P kv.2) (<[k := s]> m) = filter (λ kv, P kv.2) m.
Proof.
  intros Hk Hs. apply map_filter_insert_not'; [done|].
  intros y Hy. congruence.
Qed.

(** X22. A request that was submitted shows up where it should.  After a
    submit that succeeded, GET /api/swaps lists the new PENDING row among
    the [sent] of the sender and among the [received] of the receiver,
    without a status filter and under the filter pending; to everybody else
    the route answers what it answered before. *)
Theorem submitted_request_is_listed (io io2 : option Io) (sender : string)
    (body : SwapBody) (query_status : option string) (w : World) :
  outcome (submit io sender body) (run (exec (submit io sender body)) w).2
    = Success →
  status_filter query_status = None ∨
  status_filter query_status = Some PENDING →
  let w' := (run (exec (submit io sender body)) w).1 in
  let k := fresh (dom (swapRequests w)) in
  let s := submitted sender body w in
  (∃ l, (run (get_swaps (mkRequest sender io2 "" query_status [])) w').2
        = Ok (swaps_json l) ∧
        mkListedSwap k s (user_name w (b_receiverId body)) ∈ sent l) ∧
  (∃ l, (run (get_swaps (mkRequest (b_receiverId body) io2 ""
                           query_status [])) w').2
        = Ok (swaps_json l) ∧
        mkListedSwap k s (user_name w sender) ∈ received l) ∧
  (∀ v, v ≠ sender → v ≠ b_receiverId body →
        (run (get_swaps (mkRequest v io2 "" query_status [])) w').2
        = (run (get_swaps (mkRequest v io2 "" query_status [])) w).2).
Proof.
  intros Hok Hst. cbv zeta.
  destruct (submit_success_inv io sender body w
              (run (exec (submit io sender body)) w).1
              (run (exec (submit io sender body)) w).2)
    as (_ & _ & _ & Hu & _ & _ & Hsw & _);
    [apply surjective_pairing|done|].
  assert (Hname : ∀ v, user_name (run (exec (submit io sender body)) w).1 v
                       = user_name w v).
  { intros v. unfold user_name. by rewrite Hu. }
  assert (Hstatus : status_is (status_filter query_status)
                      (submitted sender body w)).
  { by destruct Hst as [-> | ->]. }
  rewrite !get_swaps_run. cbv zeta. cbn [snd]. split_and!.
  - eexists. split; [done|]. cbn [sent]. apply listed_swap_elem.
    unfold shows. cbn [ls_id ls_row ls_other].
    rewrite Hsw, lookup_insert_eq, Hname. done.
  - eexists. split; [done|]. cbn [received]. apply listed_swap_elem.
    unfold shows. cbn [ls_id ls_row ls_other].
    rewrite Hsw, lookup_insert_eq, Hname. done.
  - intros v Hv1 Hv2. rewrite !get_swaps_run. cbv zeta. cbn [snd].
    rewrite Hsw. unfold latest.
    rewrite !(swap_filter_insert_other (sent_by v _))
      by (apply fresh_swap_key || (intros [? _]; done)).
    rewrite !(swap_filter_insert_other (received_by v _))
      by (apply fresh_swap_key || (intros [? _]; done)).
    unfold user_name. by rewrite Hu.
Qed.

(** Witness of X22. *)
Lemma submitted_request_is_listed_witness :
  ∃ l, (run (get_swaps (mkRequest "bob" None "" (Some "pending") []))
          (run (exec (submit (Some io_up) "alice" guitar_body)) blank_world).1).2
       = Ok (swaps_json l) ∧
       mkListedSwap (fresh (dom (swapRequests blank_world)))
         (submitted "alice" guitar_body blank_world)
         (user_name blank_world "alice") ∈ received l.
Proof.
  destruct (submitted_request_is_listed (Some io_up) None "alice" guitar_body
              (Some "pending") blank_world) as (_ & Hrecv & _).
  - vm_compute. reflexivity.
  - right. reflexivity.
  - exact Hrecv.
Defined.

(** ** Counts under interleaving *)

(** X23. Interleaved, two calls can leave a stale count behind.  A markAsRead
    on an unread row of the user's and a createNotification for the same
    user, over a working server, under the schedule [crossing]: markAsRead
    counts after its own update, createNotification then inserts its row
    and publishes its notification and its count, and markAsRead publishes
    last.  Both calls return normally; the store then holds as many unread
    rows for the user as before the two calls, and the count published last
    is one less. *)
Theorem crossing_calls_publish_a_stale_count (io : Io) (id u : string)
    (ty : NotificationType) (ttl msg : string) (dat : option Payload)
    (w : World) (n : Notification) :
  notifications w !! id = Some n → userId n = u → isRead n = false →
  reliable (Some io) →
  let p := interleave crossing (markAsRead (Some io) id u)
             (createNotification (Some io) u ty ttl msg dat true) w in
  let k := unread_count u (notifications w) in
  (∃ a b, p.2 = (Ok a, Ok b)) ∧
  unread_count u (notifications p.1) = k ∧ 0 < k ∧
  ∃ e, outbox p.1 =
       outbox w ++ [(user_room u, e);
                    (user_room u, notificationCount k);
                    (user_room u, notificationCount (k - 1))].
Proof.
  intros Hn Hu Hr Hio. cbv zeta.
  pose proof (unread_count_insert_old u (notifications w) id n
                (set_read (now w) n) Hn) as Hc1.
  rewrite (decide_True (P := unread_of u n)) in Hc1 by done.
  rewrite (decide_False (P := unread_of u (set_read (now w) n))) in Hc1
    by (by intros [_ ?]).
  pose proof (unread_count_insert_new u
                (<[id := set_read (now w) n]> (notifications w))
                (fresh (dom (<[id := set_read (now w) n]> (notifications w))))
                (mkNotification u ty ttl msg dat false None (now w))
                (fresh_notification_key _)) as Hc2.
  rewrite decide_True in Hc2 by done.
  unfold crossing, markAsRead, createNotification, getUnreadCount, emit, await,
    at_now, notification_update, notification_create, notification_count_unread.
  cbn. rewrite Hn, decide_True by done. cbn.
  repeat (rewrite (Hio io) by done; cbn).
  rewrite Hc2. split_and!.
  - eauto.
  - lia.
  - lia.
  - eexists. rewrite <- !app_assoc. cbn. repeat f_equal; lia.
Qed.

(** Witness of X23. *)
Lemma crossing_calls_publish_a_stale_count_witness :
  let p := interleave crossing (markAsRead (Some io_up) n1_id "bob")
             (createNotification (Some io_up) "bob" PLATFORM_MESSAGE "Hi"
                "there" None true) example_inbox in
  unread_count "bob" (notifications p.1) = 1 ∧
  last (outbox p.1) = Some (user_room "bob", notificationCount 0).
Proof.
  destruct (crossing_calls_publish_a_stale_count io_up n1_id "bob"
              PLATFORM_MESSAGE "Hi" "there" None example_inbox
              (mkNotification "bob" SWAP_REQUEST_RECEIVED "New Swap Request"
                 "Alice wants to swap Excel for your Guitar" None false None 3))
    as (_ & Hk & _ & e & Hout).
  - reflexivity.
  - reflexivity.
  - reflexivity.
  - apply io_up_reliable.
  - cbv zeta. split.
    + rewrite Hk. reflexivity.
    + rewrite Hout. reflexivity.
Defined.

(** X24. The duplicate check of POST /api/swaps is a read that the insert
    does not repeat.  Two submits of the same request, each of which would
    succeed alone, under the schedule [reads_first] (both look the receiver
    up and run their duplicate check before either inserts) both succeed
    over a working server, and the table ends up with two PENDING rows
    under different ids that have the same sender, receiver and skill
    labels: the situation that the check refuses when the calls run one
    after the other. *)
Theorem concurrent_submits_both_succeed (io : option Io) (sender : string)
    (body : SwapBody) (w : World) (u : User) :
  valid_body body → sender ≠ b_receiverId body →
  users w !! b_receiverId body = Some u → isActive u = true →
  isPublic u = true → reliable io →
  (∀ id s, swapRequests w !! id = Some s →
           ¬ similar_pending sender (b_receiverId body)
               (trim (b_skillOffered body)) (trim (b_skillRequested body)) s) →
  let a := submit io sender body in
  let p := interleave reads_first (exec a) (exec a) w in
  let s := submitted sender body w in
  let k1 := fresh (dom (swapRequests w)) in
  let k2 := fresh (dom (<[k1 := s]> (swapRequests w))) in
  outcome a p.2.1 = Success ∧ outcome a p.2.2 = Success ∧
  k1 ≠ k2 ∧
  swapRequests p.1 = <[k2 := s]> (<[k1 := s]> (swapRequests w)) ∧
  similar_pending sender (b_receiverId body) (trim (b_skillOffered body))
    (trim (b_skillRequested body)) s.
Proof.
  intros Hv Hne Hu Ha Hp Hio Hnone. cbv zeta.
  assert (Hhead : head (map_to_list
            (filter (λ kv : string * SwapRequest,
                       similar_pending sender (b_receiverId body)
                         (trim (b_skillOffered body))
                         (trim (b_skillRequested body)) kv.2)
               (swapRequests w))) = None).
  { pose proof (proj2 (findFirst_None _ w) Hnone) as Hf.
    unfold swapRequest_findFirst in Hf. cbn in Hf. by destruct (head _). }
  assert (Hk : fresh (dom (swapRequests w)) ≠
               fresh (dom (<[fresh (dom (swapRequests w)) :=
                               submitted sender body w]> (swapRequests w)))).
  { intros Heq.
    pose proof (is_fresh (dom (<[fresh (dom (swapRequests w)) :=
                                   submitted sender body w]> (swapRequests w))))
      as Hfresh.
    rewrite <- Heq in Hfresh. apply Hfresh. rewrite dom_insert_L. set_solver. }
  split_and!; [| |done| |by left].
  all: unfold submitted in *; unfold exec, post_swaps, post_swaps_handler;
    rewrite (bool_decide_ext _ _ (validation_errors io sender body)),
      bool_decide_eq_true_2 by done;
    cbn [negb]; unfold createSwapValidation, body_request;
    cbn [req_body req_user req_io b_receiverId b_skillOffered b_skillRequested
         b_message];
    rewrite decide_False by done;
    unfold reads_first, user_findUnique, swapRequest_findFirst, await, at_now,
      swapRequest_create;
    cbn [interleave bind try_catch];
    repeat (rewrite ?Hu, ?Ha, ?Hp, ?Hhead;
            cbn [negb interleave bind try_catch fmap option_fmap option_map
                 snd]);
    rewrite !trim_idemp, !trim_or_null_trim;
    (destruct io as [io|];
     [unfold notifySwapRequestReceived, createNotification, getUnreadCount,
        emit, await, at_now, notification_create, notification_count_unread;
      cbn -[trim trim_or_null];
      repeat (rewrite (Hio io) by done; cbn -[trim trim_or_null])
     |cbn -[trim trim_or_null]]);
    done.
Qed.

(** Witness of X24. *)
Lemma concurrent_submits_both_succeed_witness :
  let a := submit (Some io_up) "alice" guitar_body in
  let p := interleave reads_first (exec a) (exec a) blank_world in
  outcome a p.2.1 = Success ∧ outcome a p.2.2 = Success ∧
  size (swapRequests p.1) = 2.
Proof.
  destruct (concurrent_submits_both_succeed (Some io_up) "alice" guitar_body
              blank_world (mkUser "Bob" true true))
    as (Ha & Hb & Hk & Hsw & _).
  - vm_compute. intuition (discriminate || lia).
  - discriminate.
  - reflexivity.
  - reflexivity.
  - reflexivity.
  - apply io_up_reliable.
  - intros id s Hs. vm_compute in Hs. discriminate.
  - cbv zeta. split_and!; [exact Ha|exact Hb|].
    rewrite Hsw. rewrite !map_size_insert_None; [reflexivity|reflexivity|].
    rewrite lookup_insert_ne; [reflexivity|exact Hk].
Defined.

(** X25. An accept by the receiver and a cancel by the sender that cross.
    Under the schedule [both_read] the two calls on a PENDING row both
    succeed over a working server: each has read the row as PENDING before
    the other wrote it.  The cancel writes last, so the row ends up
    CANCELLED, while the sender has been sent, and holds in the store, the
    notification that the request was accepted. *)
Theorem crossing_accept_and_cancel (io : option Io) (id : string) (w : World)
    (s : SwapRequest) :
  swapRequests w !! id = Some s → status s = PENDING → reliable io →
  let a := accept io id (receiverId s) in
  let b := cancel io id (senderId s) in
  let p := interleave both_read (exec a) (exec b) w in
  outcome a p.2.1 = Success ∧ outcome b p.2.2 = Success ∧
  swapRequests p.1 = <[id := set_status CANCELLED (now w) s]> (swapRequests w) ∧
  (is_Some io →
   ∃ n, notifications p.1 = <[fresh (dom (notifications w)) := n]>
                              (notifications w) ∧
        userId n = senderId s ∧ type n = SWAP_REQUEST_ACCEPTED ∧
        isRead n = false).
Proof.
  intros Hs Hst Hio. cbv zeta.
  unfold both_read, exec, put_accept, put_cancel, id_request,
    swapRequest_findUnique, swapRequest_update, await, at_now.
  cbn [interleave bind try_catch req_id req_user req_io].
  rewrite Hs. cbn [fmap option_fmap option_map interleave bind try_catch
                   with_relations row].
  rewrite !bool_decide_eq_true_2 by done.
  cbn [negb interleave bind try_catch].
  destruct io as [io|].
  - unfold notifySwapRequestAccepted, createNotification, getUnreadCount,
      emit, await, at_now, notification_create, notification_count_unread.
    cbn. rewrite Hs. cbn.
    repeat (rewrite (Hio io) by done; cbn).
    rewrite ?lookup_insert_eq. cbn. rewrite ?insert_insert_eq.
    split_and!; try done. all: intros _; eexists; split; done.
  - cbn. rewrite ?Hs. cbn. rewrite ?lookup_insert_eq. cbn.
    rewrite ?insert_insert_eq. split_and!; try done. all: by intros [? ?].
Qed.

(** Witness of X25. *)
Lemma crossing_accept_and_cancel_witness :
  let a := accept (Some io_up) "s1" "bob" in
  let b := cancel (Some io_up) "s1" "alice" in
  let p := interleave both_read (exec a) (exec b) (example_world PENDING) in
  outcome a p.2.1 = Success ∧ outcome b p.2.2 = Success ∧
  status <$> swapRequests p.1 !! "s1" = Some CANCELLED.
Proof.
  destruct (crossing_accept_and_cancel (Some io_up) "s1" (example_world PENDING)
              (guitar_for_excel PENDING)) as (Ha & Hb & Hsw & _).
  - reflexivity.
  - reflexivity.
  - apply io_up_reliable.
  - cbv zeta. split_and!; [exact Ha|exact Hb|].
    apply (f_equal (λ m, status <$> m !! "s1")) in Hsw.
    rewrite lookup_insert_eq in Hsw. exact Hsw.
Defined.

(** ** Who is told about a swap *)

Lemma createNotification_adds io u ty ttl msg dat id :
  ("swapId", id) ∈ dat →
  adds_only (tells u id)
    (createNotification io u ty ttl msg (Some dat) true ;; ret ()).
Proof.
  intros Hid w k. rewrite run_drop.
  destruct (createNotification_store io u ty ttl msg (Some dat) w)
    as (_ & _ & _ & Hnot).
  assert (Hrun : notifications
            (match run (createNotification io u ty ttl msg (Some dat) true) w
             with
             | (w', Ok _) => (w', Ok ())
             | (w', Throw e) => (w', Throw e)
             end).1
          = <[fresh (dom (notifications w)) :=
                new_notification u ty ttl msg (Some dat) w]> (notifications w)).
  { by destruct (run (createNotification _ _ _ _ _ _ _) w) as [w' [?|?]]. }
  rewrite Hrun.
  destruct (decide (fresh (dom (notifications w)) = k)) as [<-|Hne].
  - rewrite fresh_notification_key, lookup_insert_eq. intros n [= <-].
    split_and!; [done| |done]. by exists dat.
  - rewrite lookup_insert_ne by done.
    by destruct (notifications w !! k).
Qed.

Lemma adds_received io u a b c id :
  adds_only (tells u id) (notifySwapRequestReceived io u a b c id).
Proof. apply createNotification_adds. apply elem_of_cons. by left. Qed.

Lemma adds_accepted io u a b c id :
  adds_only (tells u id) (notifySwapRequestAccepted io u a b c id).
Proof. apply createNotification_adds. apply elem_of_cons. by left. Qed.

Lemma adds_rejected io u a b c id :
  adds_only (tells u id) (notifySwapRequestRejected io u a b c id).
Proof. apply createNotification_adds. apply elem_of_cons. by left. Qed.

Lemma adds_completed io u a b c id :
  adds_only (tells u id) (notifySwapCompleted io u a b c id).
Proof. apply createNotification_adds. apply elem_of_cons. by left. Qed.

Lemma adds_only_mono (ok ok' : Notification → Prop) t :
  (∀ n, ok n → ok' n) → adds_only ok t → adds_only ok' t.
Proof.
  intros Hok Ht w k. specialize (Ht w k).
  destruct (notifications w !! k); [done|]. auto.
Qed.

Lemma adds_only_seq (ok : Notification → Prop) (t1 t2 : Async unit) :
  adds_only ok t1 → adds_only ok t2 → adds_only ok (t1 ;; t2).
Proof.
  intros H1 H2 w k. rewrite run_bind.
  specialize (H1 w k). destruct (run t1 w) as [w1 [[]|e]]; cbn [fst] in *;
    [|done].
  specialize (H2 w1 k).
  destruct (notifications w !! k) as [n0|].
  - by rewrite H1 in H2.
  - destruct (notifications w1 !! k) as [n1|].
    + intros n Hn. rewrite H2 in Hn. injection Hn as <-. by apply H1.
    + done.
Qed.

Lemma adds_only_answer (ok : Notification → Prop) t line good bad w k :
  adds_only ok t →
  match notifications w !! k with
  | Some n => notifications (answer_after t line good bad w).1 !! k = Some n
  | None => ∀ n, notifications (answer_after t line good bad w).1 !! k = Some n
                 → ok n
  end.
Proof.
  intros Ht. specialize (Ht w k). unfold answer_after.
  by destruct (run t w) as [w1 [[]|e]].
Qed.

Lemma told_same (w w' : World) :
  notifications w' = notifications w → only_parties_told w w'.
Proof. intros Hn k. rewrite Hn. by destruct (notifications w !! k). Qed.

Lemma told_after (u id : string) (s : SwapRequest) t line good bad
    (w w1 : World) :
  notifications w1 = notifications w →
  swapRequests w1 !! id = Some s → party u s →
  notification_task t → adds_only (tells u id) t →
  only_parties_told w (answer_after t line good bad w1).1.
Proof.
  intros Hn1 Hrow Hparty Hframe Ht k.
  pose proof (adds_only_answer _ t line good bad w1 k Ht) as Ha.
  destruct (answer_after_frame t line good bad w1 Hframe) as (_ & Hsw & _).
  rewrite Hn1 in Ha. destruct (notifications w !! k); [done|].
  intros n Hn. destruct (Ha n Hn) as (Hu & Hid & Hr). split; [done|].
  exists id, s. rewrite Hsw. by subst u.
Qed.

Lemma told_after_both (id : string) (s : SwapRequest) t1 t2 line good bad
    (w w1 : World) :
  notifications w1 = notifications w →
  swapRequests w1 !! id = Some s →
  notification_task t1 → notification_task t2 →
  adds_only (tells (senderId s) id) t1 →
  adds_only (tells (receiverId s) id) t2 →
  only_parties_told w (answer_after (t1 ;; t2) line good bad w1).1.
Proof.
  intros Hn1 Hrow Hf1 Hf2 Ht1 Ht2 k.
  assert (Ht : adds_only (λ n, party (userId n) s ∧ about_swap id n ∧
                               isRead n = false) (t1 ;; t2)).
  { apply adds_only_seq; (eapply adds_only_mono; [|done]);
      intros n (Hu & ? & ?); (split_and!; [|done..]); [by left|by right]. }
  pose proof (adds_only_answer _ (t1 ;; t2) line good bad w1 k Ht) as Ha.
  destruct (answer_after_frame (t1 ;; t2) line good bad w1
              (seq_notification_task _ _ Hf1 Hf2)) as (_ & Hsw & _).
  rewrite Hn1 in Ha. destruct (notifications w !! k); [done|].
  intros n Hn. destruct (Ha n Hn) as (Hu & Hid & Hr). split; [done|].
  exists id, s. by rewrite Hsw.
Qed.

Lemma exec_only_parties_told (op : Op) (w : World) :
  only_parties_told w (run (exec op) w).1.
Proof.
  destruct op as [io sender body|io id c|io id c|io id c|io id c].
  - rewrite submit_run. cbv zeta. unfold failed.
    repeat case_match; try (by apply told_same).
    eapply (told_after (b_receiverId body) (fresh (dom (swapRequests w)))
              (submitted sender body w));
      [done|apply lookup_insert_eq|by right|eauto with notify
      |apply adds_received].
  - unfold exec. rewrite put_accept_run. cbv zeta. unfold failed.
    repeat case_match; try (by apply told_same).
    eapply (told_after (senderId _) (req_id (id_request io id c))
              (set_status ACCEPTED (now w) _));
      [done|apply lookup_insert_eq|by left|eauto with notify
      |apply adds_accepted].
  - unfold exec. rewrite put_reject_run. cbv zeta. unfold failed.
    repeat case_match; try (by apply told_same).
    eapply (told_after (senderId _) (req_id (id_request io id c))
              (set_status REJECTED (now w) _));
      [done|apply lookup_insert_eq|by left|eauto with notify
      |apply adds_rejected].
  - unfold exec. rewrite put_cancel_run. cbv zeta. unfold failed.
    repeat case_match; by apply told_same.
  - unfold exec. rewrite put_complete_run. cbv zeta. unfold failed.
    repeat case_match; try (by apply told_same).
    eapply (told_after_both (req_id (id_request io id c))
              (set_completed (now w) _));
      [done|apply lookup_insert_eq|eauto with notify|eauto with notify
      |apply adds_completed|apply adds_completed].
Qed.

(** X26. Lifecycle calls tell nobody but the parties.  Whatever sequence of
    submit, accept, reject, cancel and complete calls has run, no
    notification that was in the store has been lost or changed, and every
    notification that has been added is unread and names in its payload a
    swap of which its recipient is the sender or the receiver. *)
Theorem notifications_go_to_the_parties (ops : list Op) (w : World) :
  only_parties_told w (run_ops ops w).
Proof.
  revert w. induction ops as [|op ops IH]; intros w.
  - by apply told_same.
  - cbn [run_ops]. intros k.
    pose proof (exec_only_parties_told op w k) as H1.
    pose proof (IH (run (exec op) w).1 k) as H2.
    destruct (notifications w !! k) as [n|].
    + by rewrite H1 in H2.
    + destruct (notifications (run (exec op) w).1 !! k) as [n1|] eqn:Hk1;
        [|done].
      intros n Hn. rewrite H2 in Hn. injection Hn as <-.
      destruct (H1 n1 eq_refl) as (Hr & id & s & Hid & Hs & Hp).
      split; [done|]. exists id.
      destruct (run_ops_row ops (run (exec op) w).1 id s Hs)
        as (s' & Hs' & Hsame).
      exists s'. split_and!; [done..|].
      destruct Hsame as (Hsn & Hrc & _). unfold party.
      rewrite Hsn, Hrc. done.
Qed.

(** Witness of X26. *)
Lemma notifications_go_to_the_parties_witness :
  ∃ n, notifications
         (run_ops [accept (Some io_up) "s1" "bob"] (example_world PENDING))
         !! fresh (dom (notifications (example_world PENDING))) = Some n ∧
       isRead n = false ∧
       ∃ id s, about_swap id n ∧
               swapRequests
                 (run_ops [accept (Some io_up) "s1" "bob"]
                    (example_world PENDING)) !! id = Some s ∧
               party (userId n) s.
Proof.
  pose proof (notifications_go_to_the_parties [accept (Some io_up) "s1" "bob"]
                (example_world PENDING)
                (fresh (dom (notifications (example_world PENDING))))) as Htold.
  cbn [example_world notifications] in Htold.
  rewrite lookup_empty in Htold.
  destruct (notifications
              (run_ops [accept (Some io_up) "s1" "bob"] (example_world PENDING))
              !! fresh (dom (notifications (example_world PENDING))))
    as [n|] eqn:Hn.
  - exists n. split; [reflexivity|]. apply Htold. exact Hn.
  - vm_compute in Hn. discriminate Hn.
Defined.

